(** * autotest.py: the slide-deck autopilot, embedded and verified

    The program of [slides/autopilot/autotest.py] replays the snippets of a
    slide deck against a tmux session.  This development embeds its state
    store ([State]), its terminal helpers ([send_keys], [wait_for_string],
    [wait_for_prompt], [check_exit_status]), the remote slide synchroniser
    ([Remote]) and the main loop as functions over an explicit machine
    state, and proves what the loop does.

    Conventions of the embedding:
    - Python [str] is [string] (8-bit characters); Python [int] is [Z].
    - Wall-clock time is a [Z] counting milliseconds; it advances through
      [time.sleep] only (a clock driven by the sleeps of the program).
    - Everything the program does to the outside is appended to a trace of
      [event]s; everything it reads from the outside comes from an [Env] of
      oracles indexed by the number of reads made so far.
    - The file [state.yaml] is kept as the value its text loads to; the
      text itself, written by [yaml.dump] and read by [yaml.load], is not
      modelled.
    - A raised Python exception is the result [Raise e]; a loop whose
      number of turns depends on the operator is given fuel and ends in
      [OutOfFuel] when it is not enough.  The two polling loops get the
      fuel their deadline calls for and never run out of it.
    - Writes to the operator's console ([print], [hrule]) and [logging.debug]
      are left out, and so is [setup_tmux_and_ssh].  Of the parsing of the
      deck into [actions], the [eval] of the excluded classes is left out:
      the loop over the slides takes their set as an argument. *)

From Stdlib Require Import String Ascii List ZArith Lia Bool.
From Stdlib Require Import DecimalString DecimalZ.
Import ListNotations.
Set Warnings "-register-all".
Open Scope string_scope.
Open Scope Z_scope.

(* ------------------------------------------------------------------ *)
(** * Python strings *)

Module PyStr.

Definition nl_char : ascii := "010"%char.
Definition nl : string := String nl_char EmptyString.
Definition esc : string := String "027"%char EmptyString.

(** [s.endswith(suffix)] *)
Fixpoint endswith (s suffix : string) : bool :=
  String.eqb s suffix ||
  match s with
  | EmptyString => false
  | String _ t => endswith t suffix
  end.

(** [s.startswith(p)] *)
Fixpoint startswith (s p : string) {struct p} : bool :=
  match p with
  | EmptyString => true
  | String c p' =>
      match s with
      | EmptyString => false
      | String d s' => Ascii.eqb c d && startswith s' p'
      end
  end.

(** [needle in s] *)
Fixpoint contains (needle s : string) : bool :=
  startswith s needle ||
  match s with
  | EmptyString => false
  | String _ t => contains needle t
  end.

(** [s.rstrip('\n')] *)
Fixpoint rstrip_nl (s : string) : string :=
  match s with
  | EmptyString => EmptyString
  | String c t =>
      match rstrip_nl t with
      | EmptyString => if Ascii.eqb c nl_char then EmptyString else String c EmptyString
      | t' => String c t'
      end
  end.

(** The white space of [str.strip()] and of [\s] among the characters 0 to
    255: tab, line feed, vertical tab, form feed, carriage return, the
    four separators 28..31, the space, the next line (133) and the
    no-break space (160). *)
Definition is_space (c : ascii) : bool :=
  let n := nat_of_ascii c in
  ((9 <=? n) && (n <=? 13) || (28 <=? n) && (n <=? 32) || (n =? 133) || (n =? 160))%nat.

Fixpoint lstrip_by (space : ascii -> bool) (s : string) : string :=
  match s with
  | EmptyString => EmptyString
  | String c t => if space c then lstrip_by space t else s
  end.

Fixpoint rstrip_by (space : ascii -> bool) (s : string) : string :=
  match s with
  | EmptyString => EmptyString
  | String c t =>
      match rstrip_by space t with
      | EmptyString => if space c then EmptyString else String c EmptyString
      | t' => String c t'
      end
  end.

Definition lstrip (s : string) : string := lstrip_by is_space s.

Definition rstrip (s : string) : string := rstrip_by is_space s.

(** [s.strip()] *)
Definition strip (s : string) : string := rstrip (lstrip s).

(** [s.replace(old, new)] for a non-empty [old]: the occurrences of [old]
    are replaced from left to right, without overlap.  [skip] counts the
    characters of an occurrence still to be dropped. *)
Fixpoint replace_from (old new : string) (skip : nat) (s : string) : string :=
  match s with
  | EmptyString => EmptyString
  | String c t =>
      match skip with
      | S k => replace_from old new k t
      | O =>
          if startswith s old
          then new ++ replace_from old new (String.length old - 1) t
          else String c (replace_from old new O t)
      end
  end.

Definition replace (old new s : string) : string := replace_from old new O s.

(** [re.sub("\n +", "\n", s)]: every line feed followed by one or more
    spaces becomes a line feed.  [after_nl] tells that the previous
    character kept was a line feed, whose spaces are being dropped. *)
Fixpoint sub_nl_spaces_from (after_nl : bool) (s : string) : string :=
  match s with
  | EmptyString => EmptyString
  | String c t =>
      if after_nl && Ascii.eqb c " "%char then sub_nl_spaces_from true t
      else String c (sub_nl_spaces_from (Ascii.eqb c nl_char) t)
  end.

Definition sub_nl_spaces (s : string) : string := sub_nl_spaces_from false s.

(** [str(n)] for an integer *)
Definition str_of_int (n : Z) : string := NilZero.string_of_int (Z.to_int n).

Definition is_digit (c : ascii) : bool :=
  let n := nat_of_ascii c in ((48 <=? n) && (n <=? 57))%nat.

(** The digits of a number, from one of them on: a single underscore may
    stand between two digits. *)
Fixpoint digits_value (acc : Z) (s : string) : option Z :=
  match s with
  | EmptyString => Some acc
  | String c t =>
      if is_digit c
      then digits_value (10 * acc + Z.of_nat (nat_of_ascii c - 48)) t
      else if Ascii.eqb c "_"%char then
        match t with
        | String d _ => if is_digit d then digits_value acc t else None
        | EmptyString => None
        end
      else None
  end.

(** One or more digits, the first character being a digit. *)
Definition number_value (s : string) : option Z :=
  match s with
  | String c _ => if is_digit c then digits_value 0 s else None
  | EmptyString => None
  end.

(** The white space that [int()] skips among the characters 0 to 255: the
    separators 28..31 are not in it. *)
Definition is_int_space (c : ascii) : bool :=
  let n := nat_of_ascii c in
  ((9 <=? n) && (n <=? 13) || (n =? 32) || (n =? 133) || (n =? 160))%nat.

(** [int(s)] for a string: surrounding white space, an optional sign and
    one or more decimal digits, single underscores between them;
    [None] stands for [ValueError]. *)
Definition int_of_str (s : string) : option Z :=
  match rstrip_by is_int_space (lstrip_by is_int_space s) with
  | EmptyString => None
  | String c t =>
      if Ascii.eqb c "-"%char then option_map Z.opp (number_value t)
      else if Ascii.eqb c "+"%char then number_value t
      else number_value (String c t)
  end.

(** [x in (a, b, ...)] for strings *)
Definition str_in (x : string) (l : list string) : bool :=
  existsb (String.eqb x) l.

End PyStr.

(* ------------------------------------------------------------------ *)
(** * A fragment of Python's [re]

    [re.findall] belongs to the Python library; the program is embedded
    over an arbitrary [findall] (see [Env] below).  This module gives one
    concrete [findall], a backtracking matcher for the fragment of the
    pattern syntax that the deck and the program use (literals, [.],
    classes, [^], [$], groups, alternation, [*], [+], [?] and their lazy
    forms), so that runs of the program can be evaluated. *)

Module PyRe.

Import PyStr.

Record flags := { multiline : bool; dotall : bool }.

Inductive item := IChar (c : ascii) | IRange (lo hi : ascii) | IDigit | IWord | ISpace.

Inductive regex :=
| Eps
| Lit (c : ascii)
| Dot
| Cls (negated : bool) (items : list item)
| Bol
| Eol
| Cat (r1 r2 : regex)
| Alt (r1 r2 : regex)
| Star (greedy : bool) (r : regex)
| Group (i : nat) (r : regex).

(** [\w] among the characters 0 to 255: the digits, the letters, the
    underscore, and the letters and numbers above 127. *)
Definition is_word (c : ascii) : bool :=
  let n := nat_of_ascii c in
  (is_digit c || (65 <=? n) && (n <=? 90) || (97 <=? n) && (n <=? 122) || (n =? 95)
   || (n =? 170) || (178 <=? n) && (n <=? 179) || (n =? 181)
   || (185 <=? n) && (n <=? 186) || (188 <=? n) && (n <=? 190)
   || (192 <=? n) && (n <=? 214) || (216 <=? n) && (n <=? 246) || (248 <=? n))%nat.

(** [\s]: the white space of [str.strip()]. *)
Definition is_re_space (c : ascii) : bool := is_space c.

Definition in_item (c : ascii) (i : item) : bool :=
  match i with
  | IChar a => Ascii.eqb a c
  | IRange lo hi => ((nat_of_ascii lo <=? nat_of_ascii c) && (nat_of_ascii c <=? nat_of_ascii hi))%nat
  | IDigit => is_digit c
  | IWord => is_word c
  | ISpace => is_re_space c
  end.

(** ** Parsing a pattern *)

Definition presult : Type := option (regex * list ascii * nat).

Definition escape_item (x : ascii) : option item :=
  if Ascii.eqb x "d" then Some IDigit
  else if Ascii.eqb x "w" then Some IWord
  else if Ascii.eqb x "s" then Some ISpace
  else if Ascii.eqb x "n" then Some (IChar nl_char)
  else if Ascii.eqb x "t" then Some (IChar "009")
  else if Ascii.eqb x "r" then Some (IChar "013")
  else if is_word x then None
  else Some (IChar x).

Definition escape_regex (x : ascii) : option regex :=
  if Ascii.eqb x "D" then Some (Cls true [IDigit])
  else if Ascii.eqb x "W" then Some (Cls true [IWord])
  else if Ascii.eqb x "S" then Some (Cls true [ISpace])
  else match escape_item x with
       | Some (IChar c) => Some (Lit c)
       | Some i => Some (Cls false [i])
       | None => None
       end.

(** The items of a class, up to its closing bracket. *)
Fixpoint parse_items (fuel : nat) (s : list ascii) : option (list item * list ascii) :=
  match fuel with
  | O => None
  | S f =>
      match s with
      | [] => None
      | "]"%char :: t => Some ([], t)
      | "\"%char :: x :: t =>
          match t with
          | "-"%char :: y :: _ =>
              if Ascii.eqb y "]" then
                match escape_item x, parse_items f t with
                | Some i, Some (l, t') => Some (i :: l, t')
                | _, _ => None
                end
              else None
          | _ =>
              match escape_item x, parse_items f t with
              | Some i, Some (l, t') => Some (i :: l, t')
              | _, _ => None
              end
          end
      | lo :: "-"%char :: hi :: t =>
          if Ascii.eqb hi "]" then
            match parse_items f ("-"%char :: hi :: t) with
            | Some (l, t') => Some (IChar lo :: l, t')
            | None => None
            end
          else if Ascii.eqb hi "\" || (nat_of_ascii hi <? nat_of_ascii lo)%nat then None
          else
            match parse_items f t with
            | Some (l, t') => Some (IRange lo hi :: l, t')
            | None => None
            end
      | c :: t =>
          match parse_items f t with
          | Some (l, t') => Some (IChar c :: l, t')
          | None => None
          end
      end
  end.

(** A class from after its opening bracket (and [^]) on: a closing
    bracket that comes first is an item of the class. *)
Definition parse_class (s : list ascii) : option (list item * list ascii) :=
  match s with
  | "]"%char :: "-"%char :: hi :: t =>
      if Ascii.eqb hi "]" then
        match parse_items (S (List.length t)) ("-"%char :: hi :: t) with
        | Some (l, t') => Some (IChar "]" :: l, t')
        | None => None
        end
      else if Ascii.eqb hi "\" || (nat_of_ascii hi <? nat_of_ascii "]")%nat then None
      else
        match parse_items (S (List.length t)) t with
        | Some (l, t') => Some (IRange "]" hi :: l, t')
        | None => None
        end
  | "]"%char :: t =>
      match parse_items (S (List.length t)) t with
      | Some (l, t') => Some (IChar "]" :: l, t')
      | None => None
      end
  | _ => parse_items (S (List.length s)) s
  end.

Definition is_quantifier (c : ascii) : bool :=
  Ascii.eqb c "*" || Ascii.eqb c "+" || Ascii.eqb c "?" || Ascii.eqb c "{".

(** A quantifier after an atom; a second quantifier is refused, and so is
    a quantifier after [^] or [$] (nothing to repeat). *)
Definition parse_quantifier (anchor : bool) (r : regex) (s : list ascii) (g : nat)
  : presult :=
  let lazy_or_not (mk : bool -> regex) (t : list ascii) : presult :=
    match t with
    | "?"%char :: t' =>
        match t' with
        | c :: _ => if is_quantifier c then None else Some (mk false, t', g)
        | [] => Some (mk false, t', g)
        end
    | c :: _ => if is_quantifier c then None else Some (mk true, t, g)
    | [] => Some (mk true, t, g)
    end in
  match s with
  | "*"%char :: t => if anchor then None else lazy_or_not (fun gr => Star gr r) t
  | "+"%char :: t => if anchor then None else lazy_or_not (fun gr => Cat r (Star gr r)) t
  | "?"%char :: t =>
      if anchor then None
      else lazy_or_not (fun gr => if gr then Alt r Eps else Alt Eps r) t
  | "{"%char :: _ => None
  | _ => Some (r, s, g)
  end.

Fixpoint parse_alt (fuel : nat) (s : list ascii) (g : nat) {struct fuel} : presult :=
  match fuel with
  | O => None
  | S f =>
      match parse_cat f s g with
      | Some (r1, "|"%char :: s1, g1) =>
          match parse_alt f s1 g1 with
          | Some (r2, s2, g2) => Some (Alt r1 r2, s2, g2)
          | None => None
          end
      | other => other
      end
  end
with parse_cat (fuel : nat) (s : list ascii) (g : nat) {struct fuel} : presult :=
  match fuel with
  | O => None
  | S f =>
      match s with
      | [] => Some (Eps, s, g)
      | c :: _ =>
          if Ascii.eqb c "|" || Ascii.eqb c ")" then Some (Eps, s, g)
          else
            match parse_atom f s g with
            | Some (r0, s0, g0) =>
                match parse_quantifier (Ascii.eqb c "^" || Ascii.eqb c "$") r0 s0 g0 with
                | Some (r1, s1, g1) =>
                    match parse_cat f s1 g1 with
                    | Some (Eps, s2, g2) => Some (r1, s2, g2)
                    | Some (r2, s2, g2) => Some (Cat r1 r2, s2, g2)
                    | None => None
                    end
                | None => None
                end
            | None => None
            end
      end
  end
with parse_atom (fuel : nat) (s : list ascii) (g : nat) {struct fuel} : presult :=
  match fuel with
  | O => None
  | S f =>
      match s with
      | [] => None
      | "("%char :: "?"%char :: ":"%char :: t =>
          match parse_alt f t g with
          | Some (r, ")"%char :: t', g') => Some (r, t', g')
          | _ => None
          end
      | "("%char :: "?"%char :: _ => None
      | "("%char :: t =>
          match parse_alt f t (S g) with
          | Some (r, ")"%char :: t', g') => Some (Group g r, t', g')
          | _ => None
          end
      | "["%char :: "^"%char :: t =>
          match parse_class t with
          | Some (l, t') => Some (Cls true l, t', g)
          | None => None
          end
      | "["%char :: t =>
          match parse_class t with
          | Some (l, t') => Some (Cls false l, t', g)
          | None => None
          end
      | "\"%char :: x :: t =>
          match escape_regex x with
          | Some r => Some (r, t, g)
          | None => None
          end
      | "\"%char :: [] => None
      | "."%char :: t => Some (Dot, t, g)
      | "^"%char :: t => Some (Bol, t, g)
      | "$"%char :: t => Some (Eol, t, g)
      | c :: t => if is_quantifier c || Ascii.eqb c ")" then None else Some (Lit c, t, g)
      end
  end.

(** [re.compile]: the regex and its number of groups. *)
Definition compile (pattern : string) : option (regex * nat) :=
  let s := list_ascii_of_string pattern in
  match parse_alt (4 * List.length s + 8) s 1%nat with
  | Some (r, [], g) => Some (r, (g - 1)%nat)
  | _ => None
  end.

(** ** Matching *)

Definition caps : Type := list (nat * list ascii).

Definition get_cap (i : nat) (c : caps) : list ascii :=
  match find (fun p => Nat.eqb (fst p) i) c with
  | Some p => snd p
  | None => []
  end.

Definition mresult : Type := option (option ascii * list ascii * caps).

Definition kont : Type := option ascii -> list ascii -> caps -> mresult.

Section Matcher.

Variable fl : flags.

Definition at_bol (prev : option ascii) : bool :=
  match prev with
  | None => true
  | Some c => multiline fl && Ascii.eqb c nl_char
  end.

Definition at_eol (s : list ascii) : bool :=
  match s with
  | [] => true
  | c :: t => Ascii.eqb c nl_char && (multiline fl || match t with [] => true | _ => false end)
  end.

(** [run r prev s c k]: match [r] at the head of [s], where [prev] is the
    character before [s], then go on with [k]; the first success in the
    order of Python's backtracking is returned.  A turn of a star that
    consumes nothing is the last one: after it comes what follows the
    star. *)
Fixpoint run (r : regex) (prev : option ascii) (s : list ascii) (c : caps)
             (k : kont) {struct r} : mresult :=
  match r with
  | Eps => k prev s c
  | Lit a =>
      match s with
      | x :: t => if Ascii.eqb x a then k (Some x) t c else None
      | [] => None
      end
  | Dot =>
      match s with
      | x :: t => if dotall fl || negb (Ascii.eqb x nl_char) then k (Some x) t c else None
      | [] => None
      end
  | Cls neg items =>
      match s with
      | x :: t => if xorb neg (existsb (in_item x) items) then k (Some x) t c else None
      | [] => None
      end
  | Bol => if at_bol prev then k prev s c else None
  | Eol => if at_eol s then k prev s c else None
  | Cat r1 r2 => run r1 prev s c (fun p' s' c' => run r2 p' s' c' k)
  | Alt r1 r2 =>
      match run r1 prev s c k with
      | Some x => Some x
      | None => run r2 prev s c k
      end
  | Star greedy r1 =>
      (fix loop (n : nat) (prev : option ascii) (s : list ascii) (c : caps) {struct n}
         : mresult :=
         let again (_ : unit) : mresult :=
           match n with
           | O => None
           | S n' =>
               run r1 prev s c
                   (fun p' s' c' =>
                      if (List.length s' <? List.length s)%nat then loop n' p' s' c'
                      else k p' s' c')
           end in
         if greedy then
           match again tt with
           | Some x => Some x
           | None => k prev s c
           end
         else
           match k prev s c with
           | Some x => Some x
           | None => again tt
           end) (S (List.length s)) prev s c
  | Group i r1 =>
      run r1 prev s c
          (fun p' s' c' =>
             k p' s' ((i, firstn (List.length s - List.length s') s) :: c'))
  end.

Inductive found := FStr (s : string) | FTuple (l : list string).

(** What [findall] reports for one match spanning [matched]. *)
Definition report (groups : nat) (matched : list ascii) (c : caps) : found :=
  match groups with
  | O => FStr (string_of_list_ascii matched)
  | S O => FStr (string_of_list_ascii (get_cap 1 c))
  | _ => FTuple (map (fun i => string_of_list_ascii (get_cap i c)) (seq 1 groups))
  end.

(** The matches from left to right, without overlap; after an empty match
    the scan looks for a match that is not empty at the same place, and
    moves one character on when there is none. *)
Fixpoint scan (fuel : nat) (r : regex) (groups : nat) (prev : option ascii)
              (s : list ascii) {struct fuel} : list found :=
  match fuel with
  | O => []
  | S f =>
      let next (_ : unit) : list found :=
        match s with
        | [] => []
        | x :: t => scan f r groups (Some x) t
        end in
      match run r prev s [] (fun p' s' c' => Some (p', s', c')) with
      | Some (p', s', c') =>
          report groups (firstn (List.length s - List.length s') s) c'
          :: (if (List.length s' <? List.length s)%nat
              then scan f r groups p' s'
              else
                match run r prev s []
                          (fun p' s' c' =>
                             if (List.length s' <? List.length s)%nat
                             then Some (p', s', c') else None) with
                | Some (p', s', c') =>
                    report groups (firstn (List.length s - List.length s') s) c'
                    :: scan f r groups p' s'
                | None => next tt
                end)
      | None => next tt
      end
  end.

End Matcher.

(** [re.findall(pattern, text, flags)]; [None] when the pattern is outside
    the fragment (or is not a pattern at all). *)
Definition findall (pattern : string) (fl : flags) (text : string) : option (list found) :=
  match compile pattern with
  | Some (r, groups) =>
      let s := list_ascii_of_string text in
      Some (scan fl (S (List.length s)) r groups None s)
  | None => None
  end.

End PyRe.

Import PyStr.

(* ------------------------------------------------------------------ *)
(** * Python values, exceptions and results *)

Inductive exn :=
| Exception (msg : string)      (* [raise Exception(msg)] *)
| IndexError
| KeyError (key : string)
| TypeError
| ValueError
| AttributeError
| NameError (name : string)
| IOError
| YAMLError
| ReError.

Inductive res (A : Type) :=
| Ok (a : A)
| Raise (e : exn)
| OutOfFuel.

Arguments Ok {A} a.
Arguments Raise {A} e.
Arguments OutOfFuel {A}.

(** The values a YAML document loads to (floats are left out). *)
Inductive value :=
| VNone
| VBool (b : bool)
| VInt (n : Z)
| VStr (s : string)
| VList (l : list value)
| VDict (kv : list (string * value)).

(** [bool(v)] *)
Definition py_bool (v : value) : bool :=
  match v with
  | VNone => false
  | VBool b => b
  | VInt n => negb (n =? 0)
  | VStr s => negb (String.eqb s "")
  | VList l => match l with [] => false | _ => true end
  | VDict kv => match kv with [] => false | _ => true end
  end.

(** [int(v)] *)
Definition py_int (v : value) : res Z :=
  match v with
  | VBool b => Ok (if b then 1 else 0)
  | VInt n => Ok n
  | VStr s => match int_of_str s with Some n => Ok n | None => Raise ValueError end
  | VNone | VList _ | VDict _ => Raise TypeError
  end.

Fixpoint assoc (key : string) (kv : list (string * value)) : option value :=
  match kv with
  | [] => None
  | (k, v) :: rest => if String.eqb k key then Some v else assoc key rest
  end.

(** [v[key]] for a string key *)
Definition py_getitem (v : value) (key : string) : res value :=
  match v with
  | VDict kv => match assoc key kv with Some x => Ok x | None => Raise (KeyError key) end
  | _ => Raise TypeError
  end.

(** [l[i]], with Python's negative indices *)
Definition py_index {A : Type} (l : list A) (i : Z) : res A :=
  let n := Z.of_nat (List.length l) in
  let j := if i <? 0 then n + i else i in
  if (0 <=? j) && (j <? n)
  then match nth_error l (Z.to_nat j) with Some a => Ok a | None => Raise IndexError end
  else Raise IndexError.

(** [l[-1]] *)
Definition py_last {A : Type} (l : list A) : res A := py_index l (-1).

(* ------------------------------------------------------------------ *)
(** * The machine *)

(** [class State] *)
Record State := {
  interactive : bool;
  verify_status : bool;
  simulate_type : bool;
  next_step : Z }.

(** [State.__init__] *)
Definition State_init : State :=
  {| interactive := true; verify_status := false; simulate_type := true; next_step := 0 |}.

(** One entry of [actions]: the slide's number, the method and the data
    (the texts of the slide and of the snippet are only printed). *)
Record Action := {
  slide : Z;
  method : string;
  data : string }.

(** The file [state.yaml]. *)
Inductive file :=
| Missing
| Unparsable
| Document (v : value).

Inductive level := INFO | WARNING | ERROR.

Inductive event :=
| EvSave (s : State)                         (* [state.yaml] rewritten *)
| EvCapture (screen : string)                (* [tmux capture-pane -p] gave [screen] *)
| EvSendKeys (keys : string)                 (* [tmux send-keys keys] *)
| EvSleep (ms : Z)                           (* [time.sleep] *)
| EvGotoSlide (n : Z)                        (* [./gotoslide.js n] *)
| EvWorkspace (n : Z)                        (* [i3-msg workspace n] *)
| EvOpen (url : string)                      (* [xdg-open url] *)
| EvGetchar (c : string)                     (* [click.getchar()] gave [c] *)
| EvPrompt (n : Z)                           (* [click.prompt(..., type=int)] gave [n] *)
| EvLog (l : level) (fmt : string) (args : list string).

(** What the program reads from outside; the [k]-th read of a kind gets
    the [k]-th value of its oracle. *)
Record Env := {
  re_findall : string -> PyRe.flags -> string -> option (list PyRe.found);
  tmux_capture : nat -> string;
  click_getchar : nat -> string;
  click_prompt : nat -> Z;
  uuid4_hex : nat -> string;
  random_ms : nat -> Z }.

Record Machine := {
  state : State;                (* the global [state] *)
  slide_on_screen : Z;          (* [remote.slide_on_screen] *)
  state_yaml : file;
  clock : Z;                    (* [time.time()], in milliseconds *)
  captures : nat;
  keypresses : nat;
  prompts : nat;
  uuids : nat;
  randoms : nat;
  trace : list event }.

Definition boot (f : file) : Machine :=
  {| state := State_init; slide_on_screen := 0; state_yaml := f; clock := 0;
     captures := 0; keypresses := 0; prompts := 0; uuids := 0; randoms := 0;
     trace := [] |}.

Definition M (A : Type) : Type := Machine -> res A * Machine.

Definition ret {A : Type} (a : A) : M A := fun m => (Ok a, m).

Definition bind {A B : Type} (c : M A) (k : A -> M B) : M B :=
  fun m =>
    match c m with
    | (Ok a, m') => k a m'
    | (Raise e, m') => (Raise e, m')
    | (OutOfFuel, m') => (OutOfFuel, m')
    end.

Definition raise {A : Type} (e : exn) : M A := fun m => (Raise e, m).

Definition out_of_fuel {A : Type} : M A := fun m => (OutOfFuel, m).

Definition lift {A : Type} (r : res A) : M A := fun m => (r, m).

(** [try: c except Exception: h] *)
Definition try_except {A : Type} (c : M A) (h : exn -> M A) : M A :=
  fun m =>
    match c m with
    | (Raise e, m') => h e m'
    | other => other
    end.

Declare Scope py_scope.
Delimit Scope py_scope with py.
Notation "x <- c1 ;; c2" := (bind c1 (fun x => c2))
  (at level 61, c1 at next level, right associativity) : py_scope.
Notation "c1 ;; c2" := (bind c1 (fun _ => c2))
  (at level 61, right associativity) : py_scope.
Open Scope py_scope.

Definition emit (e : event) : M unit :=
  fun m =>
    (Ok tt,
     {| state := state m; slide_on_screen := slide_on_screen m; state_yaml := state_yaml m;
        clock := clock m; captures := captures m; keypresses := keypresses m;
        prompts := prompts m; uuids := uuids m; randoms := randoms m;
        trace := trace m ++ [e] |}).

Definition get_state : M State := fun m => (Ok (state m), m).

Definition set_state (s : State) : M unit :=
  fun m =>
    (Ok tt,
     {| state := s; slide_on_screen := slide_on_screen m; state_yaml := state_yaml m;
        clock := clock m; captures := captures m; keypresses := keypresses m;
        prompts := prompts m; uuids := uuids m; randoms := randoms m;
        trace := trace m |}).

Definition set_interactive (b : bool) : M unit :=
  s <- get_state ;;
  set_state {| interactive := b; verify_status := verify_status s;
               simulate_type := simulate_type s; next_step := next_step s |}.

Definition set_verify_status (b : bool) : M unit :=
  s <- get_state ;;
  set_state {| interactive := interactive s; verify_status := b;
               simulate_type := simulate_type s; next_step := next_step s |}.

Definition set_simulate_type (b : bool) : M unit :=
  s <- get_state ;;
  set_state {| interactive := interactive s; verify_status := verify_status s;
               simulate_type := b; next_step := next_step s |}.

Definition set_next_step (n : Z) : M unit :=
  s <- get_state ;;
  set_state {| interactive := interactive s; verify_status := verify_status s;
               simulate_type := simulate_type s; next_step := n |}.

Definition get_slide_on_screen : M Z := fun m => (Ok (slide_on_screen m), m).

Definition set_slide_on_screen (n : Z) : M unit :=
  fun m =>
    (Ok tt,
     {| state := state m; slide_on_screen := n; state_yaml := state_yaml m;
        clock := clock m; captures := captures m; keypresses := keypresses m;
        prompts := prompts m; uuids := uuids m; randoms := randoms m;
        trace := trace m |}).

Definition read_file : M file := fun m => (Ok (state_yaml m), m).

Definition write_file (f : file) : M unit :=
  fun m =>
    (Ok tt,
     {| state := state m; slide_on_screen := slide_on_screen m; state_yaml := f;
        clock := clock m; captures := captures m; keypresses := keypresses m;
        prompts := prompts m; uuids := uuids m; randoms := randoms m;
        trace := trace m |}).

(** [time.time()] *)
Definition time_time : M Z := fun m => (Ok (clock m), m).

(** [time.sleep(ms / 1000)] *)
Definition time_sleep (ms : Z) : M unit :=
  fun m =>
    (Ok tt,
     {| state := state m; slide_on_screen := slide_on_screen m; state_yaml := state_yaml m;
        clock := clock m + ms; captures := captures m; keypresses := keypresses m;
        prompts := prompts m; uuids := uuids m; randoms := randoms m;
        trace := trace m ++ [EvSleep ms] |}).

Definition logging (l : level) (fmt : string) (args : list string) : M unit :=
  emit (EvLog l fmt args).

(** [TIMEOUT = 60], in milliseconds *)
Definition TIMEOUT : Z := 60000.

(* ------------------------------------------------------------------ *)
(** * The program *)

Section Program.

Variable env : Env.

(** ** Reads from outside *)

(** [capture_pane()] *)
Definition capture_pane : M string :=
  fun m =>
    let screen := tmux_capture env (captures m) in
    (Ok screen,
     {| state := state m; slide_on_screen := slide_on_screen m; state_yaml := state_yaml m;
        clock := clock m; captures := S (captures m); keypresses := keypresses m;
        prompts := prompts m; uuids := uuids m; randoms := randoms m;
        trace := trace m ++ [EvCapture screen] |}).

(** [click.getchar()] *)
Definition getchar : M string :=
  fun m =>
    let c := click_getchar env (keypresses m) in
    (Ok c,
     {| state := state m; slide_on_screen := slide_on_screen m; state_yaml := state_yaml m;
        clock := clock m; captures := captures m; keypresses := S (keypresses m);
        prompts := prompts m; uuids := uuids m; randoms := randoms m;
        trace := trace m ++ [EvGetchar c] |}).

(** [click.prompt("Enter snippet number", type=int)] *)
Definition prompt_int : M Z :=
  fun m =>
    let n := click_prompt env (prompts m) in
    (Ok n,
     {| state := state m; slide_on_screen := slide_on_screen m; state_yaml := state_yaml m;
        clock := clock m; captures := captures m; keypresses := keypresses m;
        prompts := S (prompts m); uuids := uuids m; randoms := randoms m;
        trace := trace m ++ [EvPrompt n] |}).

(** [uuid.uuid4().hex] *)
Definition uuid4 : M string :=
  fun m =>
    (Ok (uuid4_hex env (uuids m)),
     {| state := state m; slide_on_screen := slide_on_screen m; state_yaml := state_yaml m;
        clock := clock m; captures := captures m; keypresses := keypresses m;
        prompts := prompts m; uuids := S (uuids m); randoms := randoms m;
        trace := trace m |}).

(** [0.2*random.random()], in milliseconds *)
Definition random_delay : M Z :=
  fun m =>
    (Ok (random_ms env (randoms m)),
     {| state := state m; slide_on_screen := slide_on_screen m; state_yaml := state_yaml m;
        clock := clock m; captures := captures m; keypresses := keypresses m;
        prompts := prompts m; uuids := uuids m; randoms := S (randoms m);
        trace := trace m |}).

(** [re.findall(pattern, text, flags)] *)
Definition findall (pattern : string) (fl : PyRe.flags) (text : string) : M (list PyRe.found) :=
  match re_findall env pattern fl text with
  | Some l => ret l
  | None => raise ReError
  end.

(** ** [class State] *)

(** [State.load] *)
Definition State_load : M unit :=
  f <- read_file ;;
  d <- match f with
       | Missing => raise IOError
       | Unparsable => raise YAMLError
       | Document v => ret v
       end ;;
  v <- lift (py_getitem d "interactive") ;;
  set_interactive (py_bool v) ;;
  v <- lift (py_getitem d "verify_status") ;;
  set_verify_status (py_bool v) ;;
  v <- lift (py_getitem d "simulate_type") ;;
  set_simulate_type (py_bool v) ;;
  v <- lift (py_getitem d "next_step") ;;
  n <- lift (py_int v) ;;
  set_next_step n.

(** What [yaml.dump] writes for a state. *)
Definition dump (s : State) : value :=
  VDict [("interactive", VBool (interactive s));
         ("verify_status", VBool (verify_status s));
         ("simulate_type", VBool (simulate_type s));
         ("next_step", VInt (next_step s))].

(** [State.save] *)
Definition State_save : M unit :=
  s <- get_state ;;
  write_file (Document (dump s)) ;;
  emit (EvSave s).

(** ** [class Remote] and the workspaces *)

Definition focus_slides : M unit := emit (EvWorkspace 3) ;; emit (EvWorkspace 1).
Definition focus_terminal : M unit := emit (EvWorkspace 2) ;; emit (EvWorkspace 1).
Definition focus_browser : M unit := emit (EvWorkspace 4) ;; emit (EvWorkspace 1).

(** [Remote.goto] *)
Definition goto (slide_number : Z) : M unit :=
  emit (EvGotoSlide slide_number) ;;
  set_slide_on_screen slide_number ;;
  focus_slides.

(** The [while] of [Remote.catchup]; on [q] it returns at once. *)
Fixpoint catchup_loop (fuel : nat) (slide_number : Z) : M unit :=
  match fuel with
  | O => out_of_fuel
  | S f =>
      cur <- get_slide_on_screen ;;
      if cur <? slide_number then
        s <- get_state ;;
        command <- (if interactive s then getchar else ret "z") ;;
        if str_in command ["z"; String "013" ""] then
          goto slide_number ;; catchup_loop f slide_number
        else if str_in command ["n"; esc ++ "[C"; " "] then
          goto (cur + 1) ;; catchup_loop f slide_number
        else if str_in command ["p"; esc ++ "[D"] then
          goto (cur - 1) ;; catchup_loop f slide_number
        else if String.eqb command "q" then
          ret tt
        else catchup_loop f slide_number
      else ret tt
  end.

(** [Remote.catchup] *)
Definition catchup (fuel : nat) (slide_number : Z) : M unit :=
  cur <- get_slide_on_screen ;;
  if cur >? slide_number then goto slide_number
  else catchup_loop fuel slide_number.

(** ** The terminal *)

(** The [for key in data] of [send_keys]. *)
Fixpoint type_keys (data : string) : M unit :=
  match data with
  | EmptyString => ret tt
  | String c rest =>
      let key := if Ascii.eqb c ";" then "\;" else String c "" in
      (if String.eqb key nl then time_sleep 1000 else ret tt) ;;
      emit (EvSendKeys key) ;;
      d <- random_delay ;;
      time_sleep d ;;
      (if String.eqb key nl then time_sleep 1000 else ret tt) ;;
      type_keys rest
  end.

(** [send_keys] *)
Definition send_keys (data : string) : M unit :=
  s <- get_state ;;
  simulated <- (if simulate_type s then
                  match data with
                  | EmptyString => raise IndexError
                  | String c _ => ret (negb (Ascii.eqb c "^"))
                  end
                else ret false) ;;
  if simulated then type_keys data else emit (EvSendKeys data).

(** Turns of a polling loop that sleeps one second a turn: enough for the
    deadline to pass. *)
Definition polls (timeout : Z) : nat := S (Z.to_nat (timeout / 1000 + 1)).

Fixpoint wait_for_string_loop (fuel : nat) (s : string) (deadline : Z) : M unit :=
  match fuel with
  | O => out_of_fuel
  | S f =>
      now <- time_time ;;
      if now <? deadline then
        output <- capture_pane ;;
        if contains s output then ret tt
        else time_sleep 1000 ;; wait_for_string_loop f s deadline
      else raise (Exception ("Timed out while waiting for " ++ s ++ "!"))
  end.

(** [wait_for_string] *)
Definition wait_for_string (s : string) (timeout : Z) : M unit :=
  now <- time_time ;;
  wait_for_string_loop (polls timeout) s (now + timeout).

(** The two tests of [wait_for_prompt] on a captured screen. *)
Definition at_prompt (screen : string) : bool :=
  let output := rstrip_nl screen in
  endswith output (nl ++ "$") || endswith output (nl ++ "/ #").

Fixpoint wait_for_prompt_loop (fuel : nat) (deadline : Z) : M unit :=
  match fuel with
  | O => out_of_fuel
  | S f =>
      now <- time_time ;;
      if now <? deadline then
        output <- capture_pane ;;
        let output := rstrip_nl output in
        if endswith output (nl ++ "$") then ret tt
        else if endswith output (nl ++ "/ #") then ret tt
        else time_sleep 1000 ;; wait_for_prompt_loop f deadline
      else raise (Exception "Timed out while waiting for prompt!")
  end.

(** [wait_for_prompt] *)
Definition wait_for_prompt : M unit :=
  now <- time_time ;;
  wait_for_prompt_loop (polls TIMEOUT) (now + TIMEOUT).

(** [int(status[0])] on what [findall] reported *)
Definition int_of_found (x : PyRe.found) : res Z :=
  match x with
  | PyRe.FStr s => py_int (VStr s)
  | PyRe.FTuple _ => Raise TypeError
  end.

(** [check_exit_status] *)
Definition check_exit_status : M unit :=
  s <- get_state ;;
  if negb (verify_status s) then ret tt
  else
    token <- uuid4 ;;
    send_keys ("echo " ++ token ++ " $?" ++ nl) ;;
    time_sleep 500 ;;
    wait_for_prompt ;;
    screen <- capture_pane ;;
    status <- findall (nl ++ token ++ " ([0-9]+)" ++ nl)
                      {| PyRe.multiline := true; PyRe.dotall := false |} screen ;;
    match status with
    | [] => raise (Exception ("Couldn't retrieve status code " ++ token ++ ". Timed out?"))
    | _ :: _ :: _ =>
        raise (Exception ("More than one status code " ++ token
                          ++ ". I'm seeing double! Shoot them both."))
    | [x] =>
        code <- lift (int_of_found x) ;;
        if negb (code =? 0)
        then raise (Exception ("Non-zero exit status: " ++ str_of_int code ++ "."))
        else ret tt
    end.

(** ** The main loop *)

(** [str(x)] of what [findall] reported, as [format] prints it; a pattern
    with one group reports strings only. *)
Definition format_found (x : PyRe.found) : string :=
  match x with
  | PyRe.FStr s => s
  | PyRe.FTuple l => "(" ++ String.concat ", " (map (fun s => "'" ++ s ++ "'") l) ++ ")"
  end.

(** The name [status] at module level: the program binds it nowhere (the
    only [status] is a local of [check_exit_status]), so reading it raises
    [NameError]. *)
Definition global_status : M State := raise (NameError "status").

(** [state.next_step += d] *)
Definition add_next_step (d : Z) : M unit :=
  s <- get_state ;;
  set_next_step (next_step s + d).

(** The [if method == ...] chain of the loop body, for the action at
    [state.next_step]. *)
Definition dispatch (actions : list Action) (method data : string) : M unit :=
  if String.eqb method "keys" then
    send_keys data
  else if String.eqb method "bash" then
    wait_for_prompt ;;
    let data := sub_nl_spaces data in
    let data := data ++ nl in
    send_keys data ;;
    time_sleep 500 ;;
    s <- get_state ;;
    next <- lift (py_index actions (next_step s + 1)) ;;
    let '(Build_Action _ next_method next_data) := next in
    if String.eqb next_method "wait" then
      wait_for_string next_data TIMEOUT
    else if String.eqb next_method "longwait" then
      wait_for_string next_data (10 * TIMEOUT)
    else
      wait_for_prompt ;;
      check_exit_status
  else if String.eqb method "copypaste" then
    screen <- capture_pane ;;
    matches <- findall data {| PyRe.multiline := false; PyRe.dotall := true |} screen ;;
    match matches with
    | [] => raise (Exception ("Could not find regex " ++ data ++ " in output."))
    | _ =>
        found <- lift (py_last matches) ;;
        text <- match found with
                | PyRe.FStr s => ret (replace nl "" s)
                | PyRe.FTuple _ => raise AttributeError
                end ;;
        send_keys (text ++ nl) ;;
        wait_for_prompt ;;
        check_exit_status
    end
  else if String.eqb method "open" then
    screen <- capture_pane ;;
    found <- findall "^\[(.*)\]" {| PyRe.multiline := true; PyRe.dotall := false |} screen ;;
    ipaddr <- lift (py_last found) ;;
    let url := replace "/node1" ("/" ++ format_found ipaddr) data in
    emit (EvOpen url) ;;
    focus_browser ;;
    status <- global_status ;;
    if interactive status then getchar ;; ret tt else ret tt
  else
    logging WARNING "Unknown method {}: {!r}" [method; data].

Inductive ctl := Continue | Break.

(** One turn of [while state.next_step < len(actions)]. *)
Definition iteration (fuel : nat) (actions : list Action) : M ctl :=
  State_save ;;
  s <- get_state ;;
  a <- lift (py_index actions (next_step s)) ;;
  let '(Build_Action slide_number method data) := a in
  let data := strip data in
  catchup fuel slide_number ;;
  s <- get_state ;;
  command <- (if interactive s then getchar else ret "y") ;;
  data <- (if contains "`" data
           then logging INFO "Stripping ` from snippet." [] ;; ret (replace "`" "" data)
           else ret data) ;;
  if str_in command ["n"; esc ++ "[C"] then
    add_next_step 1 ;; ret Continue
  else if str_in command ["p"; esc ++ "[D"] then
    add_next_step (-1) ;; ret Continue
  else if String.eqb command "s" then
    s <- get_state ;; set_simulate_type (negb (simulate_type s)) ;; ret Continue
  else if String.eqb command "v" then
    s <- get_state ;; set_verify_status (negb (verify_status s)) ;; ret Continue
  else if String.eqb command "g" then
    n <- prompt_int ;;
    set_next_step n ;;
    s <- get_state ;;
    (if next_step s =? 0 then goto 1 else ret tt) ;;
    ret Continue
  else if String.eqb command "q" then
    ret Break
  else if String.eqb command "c" then
    set_interactive false ;; ret Continue
  else if str_in command ["y"; String "013" ""; " "] then
    focus_terminal ;;
    logging INFO "Running with method {}: {}" [method; data] ;;
    dispatch actions method data ;;
    add_next_step 1 ;;
    ret Continue
  else
    logging WARNING "Unknown command {}." [command] ;; ret Continue.

(** [while state.next_step < len(actions): ...] *)
Fixpoint main_loop (fuel : nat) (actions : list Action) : M unit :=
  match fuel with
  | O => out_of_fuel
  | S f =>
      s <- get_state ;;
      if next_step s <? Z.of_nat (List.length actions) then
        c <- iteration f actions ;;
        match c with
        | Break => ret tt
        | Continue => main_loop f actions
        end
      else ret tt
  end.

(** The [try: state.load() ... except Exception] before the loop. *)
Definition load_state : M unit :=
  try_except
    (State_load ;;
     logging INFO "Successfully loaded state from file." [] ;;
     set_interactive true)
    (fun _ =>
       logging ERROR "Could not load state from file." [] ;;
       logging WARNING "Using default values." []).

(** The program from the loading of the state on. *)
Definition main (fuel : nat) (actions : list Action) : M unit :=
  load_state ;;
  main_loop fuel actions.

End Program.


(* ------------------------------------------------------------------ *)
(** * Vocabulary of the proofs *)

(** [keeps P c]: running [c] relates the machine before to the machine
    after by [P], whatever the result. *)
Definition keeps (P : Machine -> Machine -> Prop) {A : Type} (c : M A) : Prop :=
  forall m, P m (snd (c m)).

(** [steady Q m m']: from [m] to [m'] the global [state] and the file are
    untouched, and the events added all satisfy [Q]. *)
Definition steady (Q : event -> Prop) (m m' : Machine) : Prop :=
  state m' = state m /\
  state_yaml m' = state_yaml m /\
  exists evs, trace m' = (trace m ++ evs)%list /\ Forall Q evs.

Abbreviation stays Q := (keeps (steady Q)).


(** The first of [n] polls, the first one reading capture number [start],
    whose screen passes [test]. *)
Fixpoint first_hit (test : string -> bool) (screens : nat -> string) (start n : nat)
  : option nat :=
  match n with
  | O => None
  | S n' =>
      if test (screens start) then Some O
      else option_map S (first_hit test screens (S start) n')
  end.

(** The events of [k] polls that saw nothing. *)
Fixpoint poll_events (screens : nat -> string) (start k : nat) : list event :=
  match k with
  | O => []
  | S k' => EvCapture (screens start) :: EvSleep 1000 :: poll_events screens (S start) k'
  end.

(** The machine after [k] polls that saw nothing and, when [hit], one more
    capture: one second has passed for each poll that saw nothing. *)
Definition after_polls (env : Env) (m : Machine) (k : nat) (hit : bool) : Machine :=
  {| state := state m; slide_on_screen := slide_on_screen m; state_yaml := state_yaml m;
     clock := clock m + 1000 * Z.of_nat k;
     captures := captures m + k + (if hit then 1 else 0);
     keypresses := keypresses m; prompts := prompts m; uuids := uuids m;
     randoms := randoms m;
     trace := trace m ++ poll_events (tmux_capture env) (captures m) k
              ++ (if hit then [EvCapture (tmux_capture env (captures m + k))] else []) |}.

(** Both polling loops are this one, for a test on the screen and an
    exception. *)
Fixpoint poll_loop (env : Env) (test : string -> bool) (e : exn) (fuel : nat) (deadline : Z) : M unit :=
  match fuel with
  | O => out_of_fuel
  | S f =>
      now <- time_time ;;
      if now <? deadline then
        output <- capture_pane env ;;
        if test output then ret tt
        else time_sleep 1000 ;; poll_loop env test e f deadline
      else raise e
  end.


(** What [wait_for_prompt] looks for on a screen: once the trailing line
    feeds are trimmed, the text ends with a line feed and [$], or with a
    line feed and [/ #]. *)
Definition shows_prompt (screen : string) : Prop :=
  exists p, rstrip_nl screen = p ++ nl ++ "$" \/ rstrip_nl screen = p ++ nl ++ "/ #".

(** A looser reading of a prompt: the trimmed text ends with a line that
    ends in [$], or in [#] after a blank. *)
Definition ends_in_sentinel_line (screen : string) : bool :=
  let output := rstrip_nl screen in
  endswith output "$" || endswith output " #" || endswith output (String "009" "#").

(* ------------------------------------------------------------------ *)
(** * Environments and machines to run the program on *)

Module Demo.

(** The environment of an operator and a terminal given by their
    sequences of keys, numbers and screens, with the matcher of [PyRe]. *)
Definition env_of (screens : nat -> string) (keys : nat -> string) (numbers : nat -> Z) : Env :=
  {| re_findall := PyRe.findall;
     tmux_capture := screens;
     click_getchar := keys;
     click_prompt := numbers;
     uuid4_hex := fun _ => "0123456789abcdef0123456789abcdef";
     random_ms := fun _ => 100 |}.

(** A terminal that always shows [screen]; the operator only presses [y]. *)
Definition still (screen : string) : Env :=
  env_of (fun _ => screen) (fun _ => "y") (fun _ => 0).

(** A terminal whose first [n] captures show [before], the later ones
    [after]. *)
Definition turning (n : nat) (before after : string) : Env :=
  env_of (fun k => if (k <? n)%nat then before else after) (fun _ => "y") (fun _ => 0).

(** A terminal that always shows [screen]; the operator presses [keys] in
    turn, then [y] for ever, and enters 0 when asked for a number. *)
Definition operator (screen : string) (keys : list string) : Env :=
  env_of (fun _ => screen) (fun k => nth k keys "y") (fun _ => 0).

(** A machine in state [s], nothing done yet. *)
Definition machine_of (s : State) : Machine :=
  {| state := s; slide_on_screen := 0; state_yaml := Missing; clock := 0;
     captures := 0; keypresses := 0; prompts := 0; uuids := 0; randoms := 0;
     trace := [] |}.

(** The state of a run that goes on by itself, typing in bulk. *)
Definition unattended (verify : bool) (step : Z) : State :=
  {| interactive := false; verify_status := verify; simulate_type := false;
     next_step := step |}.

(** A screen on which the shell has answered the question of
    [check_exit_status] with [code]. *)
Definition answered (code : string) : string :=
  "$ echo 0123456789abcdef0123456789abcdef $?" ++ nl
  ++ "0123456789abcdef0123456789abcdef " ++ code ++ nl ++ "$".

End Demo.

(* ------------------------------------------------------------------ *)
(** * Triples *)

(** [hoare I c V J]: from a machine in [I], [c] ends in a machine in [J]
    whatever its result, and a value it returns is in [V]. *)
Definition hoare {A : Type} (I : Machine -> Prop) (c : M A) (V : A -> Prop)
           (J : Machine -> Prop) : Prop :=
  forall m, I m -> J (snd (c m)) /\ forall a, fst (c m) = Ok a -> V a.

Definition is_save (e : event) : bool :=
  match e with EvSave _ => true | _ => false end.

Definition is_send (e : event) : bool :=
  match e with EvSendKeys _ => true | _ => false end.

(** The ways one turn of the loop moves [next_step]: not at all, one
    forward, one back on a retreat key, or to a number the operator
    entered. *)
Definition turn (env : Env) (m m' : Machine) : Prop :=
  let c := next_step (state m) in
  let c' := next_step (state m') in
  c' = c \/ c' = c + 1 \/
  (c' = c - 1 /\ exists k, str_in (click_getchar env k) ["p"; esc ++ "[D"] = true) \/
  (exists k, c' = click_prompt env k).

(** [saved Q m0 m]: [m] comes after the save of the state of [m0]: the file
    holds that state, and the trace of [m0] was extended by that save and
    then by events in [Q]. *)
Definition saved (Q : event -> Prop) (m0 m : Machine) : Prop :=
  state_yaml m = Document (dump (state m0)) /\
  exists evs, trace m = (trace m0 ++ EvSave (state m0) :: evs)%list /\ Forall Q evs.

Definition before (Q : event -> Prop) (m0 m : Machine) : Prop :=
  state m = state m0 /\ saved Q m0 m.

Definition after (env : Env) (Q : event -> Prop) (m0 m : Machine) : Prop :=
  saved Q m0 m /\ turn env m0 m.

(** The events of a turn that started in [m0]: no second save, and the
    method logged as running is the one of the action at the saved
    [next_step]. *)
Definition running (actions : list Action) (m0 : Machine) (e : event) : Prop :=
  is_save e = false /\
  forall mth d, e = EvLog INFO "Running with method {}: {}" [mth; d] ->
                exists a, py_index actions (next_step (state m0)) = Ok a /\ method a = mth.

(** The range of the cursor: [0 <= next_step <= len(actions)]. *)
Definition in_range (actions : list Action) (m : Machine) : Prop :=
  0 <= next_step (state m) <= Z.of_nat (List.length actions).

(** The state a restart finds after loading what [s] was saved as. *)
Definition resumed (s : State) : State :=
  {| interactive := true; verify_status := verify_status s;
     simulate_type := simulate_type s; next_step := next_step s |}.

(* ------------------------------------------------------------------ *)
(** * The protocols, step by step *)

(** How a [bash] action completes: by the method of the next action. *)
Definition bash_completion (env : Env) (next : Action) : M unit :=
  if String.eqb (method next) "wait" then wait_for_string env (data next) TIMEOUT
  else if String.eqb (method next) "longwait" then wait_for_string env (data next) (10 * TIMEOUT)
  else (wait_for_prompt env ;; check_exit_status env).

(** A [bash] action: wait for a prompt, send the payload with its
    continuation lines stripped and a line feed added, settle for half a
    second, complete. *)
Definition bash_protocol (env : Env) (payload : string) (completion : M unit) : M unit :=
  wait_for_prompt env ;;
  send_keys env (sub_nl_spaces payload ++ nl) ;;
  time_sleep 500 ;;
  completion.


(** The flags of the search of [check_exit_status]: [re.MULTILINE]. *)
Definition status_flags : PyRe.flags := {| PyRe.multiline := true; PyRe.dotall := false |}.

(** The flags of the search of the [copypaste] method: [re.DOTALL]. *)
Definition copypaste_flags : PyRe.flags := {| PyRe.multiline := false; PyRe.dotall := true |}.

(** The lines of a text. *)
Fixpoint unlines (ls : list string) : string :=
  match ls with
  | [] => ""
  | [l] => l
  | l :: rest => l ++ nl ++ unlines rest
  end.

(** A line without its leading spaces. *)
Fixpoint drop_spaces (s : string) : string :=
  match s with
  | EmptyString => EmptyString
  | String c t => if Ascii.eqb c " " then drop_spaces t else s
  end.

Fixpoint no_nl (s : string) : bool :=
  match s with
  | EmptyString => true
  | String c t => negb (Ascii.eqb c nl_char) && no_nl t
  end.

(** The events that [m'] has after those of [m]. *)
Definition added (m m' : Machine) : list event :=
  skipn (List.length (trace m)) (trace m').

(** [guarded seen evs]: in [evs] nothing is sent to the terminal before a
    capture has shown a prompt ([seen]: one has been shown already). *)
Fixpoint guarded (seen : bool) (evs : list event) : bool :=
  match evs with
  | [] => true
  | EvCapture screen :: rest => guarded (seen || at_prompt screen) rest
  | EvSendKeys _ :: rest => seen && guarded seen rest
  | _ :: rest => guarded seen rest
  end.

(** The data of an action as the loop hands it to the dispatch: white
    space stripped at both ends, backticks removed. *)
Definition clean (data : string) : string :=
  let data := strip data in
  if contains "`" data then replace "`" "" data else data.

(** The two-action deck: a command and the string that ends it. *)
Definition hi_deck : list Action :=
  [ {| slide := 1; method := "bash"; data := "echo hi" |};
    {| slide := 1; method := "wait"; data := "hi" |} ].

(** How an unattended run of [hi_deck] ends when its first capture is
    capture number [start]: a prompt within sixty polls, then, from the
    capture after it, the string "hi" within sixty polls. *)
Definition hi_outcome (env : Env) (start : nat) : res unit :=
  match first_hit at_prompt (tmux_capture env) start 60 with
  | None => Raise (Exception "Timed out while waiting for prompt!")
  | Some k =>
      match first_hit (contains "hi") (tmux_capture env) (start + k + 1) 60 with
      | None => Raise (Exception "Timed out while waiting for hi!")
      | Some _ => Ok tt
      end
  end.

(** [total c]: [c] never runs out of fuel. *)
Definition total {A : Type} (c : M A) : Prop := forall m, fst (c m) <> OutOfFuel.

(* ------------------------------------------------------------------ *)
(** * Vocabulary for the rest of the program *)

(** [k] line feeds. *)
Fixpoint newlines (k : nat) : string :=
  match k with
  | O => ""
  | S k' => String nl_char (newlines k')
  end.

(** The keys of the [tmux send-keys] calls among some events, in order. *)
Fixpoint sent_keys (evs : list event) : list string :=
  match evs with
  | [] => []
  | EvSendKeys keys :: rest => keys :: sent_keys rest
  | _ :: rest => sent_keys rest
  end.

(** The time slept in some events, in milliseconds. *)
Fixpoint slept (evs : list event) : Z :=
  match evs with
  | [] => 0
  | EvSleep ms :: rest => ms + slept rest
  | _ :: rest => slept rest
  end.

(** The key that the typing loop of [send_keys] sends for a character. *)
Definition key_of (c : ascii) : string :=
  if Ascii.eqb c ";" then "\;" else String c "".

(** The line feeds of a text. *)
Fixpoint count_nl (s : string) : Z :=
  match s with
  | EmptyString => 0
  | String c t => (if Ascii.eqb c nl_char then 1 else 0) + count_nl t
  end.

(** The sum of [n] random delays, from draw number [start] on. *)
Fixpoint jitter (env : Env) (start n : nat) : Z :=
  match n with
  | O => 0
  | S n' => random_ms env start + jitter env (S start) n'
  end.

(** The events by which the program asks the operator: a key or a number. *)
Definition is_ask (e : event) : bool :=
  match e with EvGetchar _ | EvPrompt _ => true | _ => false end.

(** The events of the slide show: a jump and the workspace switches. *)
Definition is_slide (e : event) : bool :=
  match e with EvGotoSlide _ | EvWorkspace _ => true | _ => false end.

Definition is_goto (e : event) : bool :=
  match e with EvGotoSlide _ => true | _ => false end.

(** [hands_off m m']: from [m] to [m'] the three flags are kept and the
    operator is asked nothing. *)
Definition hands_off (m m' : Machine) : Prop :=
  interactive (state m') = interactive (state m) /\
  verify_status (state m') = verify_status (state m) /\
  simulate_type (state m') = simulate_type (state m) /\
  exists evs, trace m' = (trace m ++ evs)%list /\ Forall (fun e => is_ask e = false) evs.

(** The events of running an action: a capture, a send, a sleep, a page
    opened in the browser. *)
Definition is_run (e : event) : bool :=
  match e with
  | EvCapture _ | EvSendKeys _ | EvSleep _ | EvOpen _ => true
  | _ => false
  end.

(** [idle m0 m]: [m] is interactive and no action was run since [m0]. *)
Definition idle (m0 m : Machine) : Prop :=
  interactive (state m) = true /\
  exists evs, trace m = (trace m0 ++ evs)%list /\ Forall (fun e => is_run e = false) evs.

(** The keys by which the operator has an action run: the three that run
    the action shown, and the one that lets the program go on by itself. *)
Definition go_keys : list string := ["y"; String "013" ""; " "; "c"].

(** [s] without the characters [c]. *)
Fixpoint without (c : ascii) (s : string) : string :=
  match s with
  | EmptyString => EmptyString
  | String d t => if Ascii.eqb d c then without c t else String d (without c t)
  end.

(** What happens in an unattended turn from its start to the dispatch of
    its action [a]: the state [s] is saved, the slides are brought from
    slide [on_screen] to the slide of [a], the terminal is focused and the
    action is logged. *)
Definition head_events (s : State) (on_screen : Z) (a : Action) : list event :=
  EvSave s
  :: (if on_screen =? slide a then []
      else [EvGotoSlide (slide a); EvWorkspace 3; EvWorkspace 1])
  ++ (if contains "`" (strip (data a)) then [EvLog INFO "Stripping ` from snippet." []]
      else [])
  ++ [EvWorkspace 2; EvWorkspace 1;
      EvLog INFO "Running with method {}: {}" [method a; clean (data a)]].


Definition is_log (e : event) : bool :=
  match e with EvLog _ _ _ => true | _ => false end.

(* ------------------------------------------------------------------ *)
(** * The deck: slides, snippets and actions *)

(** [s.split(sep)] for a non-empty [sep]: the pieces of [s] between the
    occurrences of [sep], which are found from left to right without
    overlap.  [skip] counts the characters of an occurrence still to be
    dropped. *)
Fixpoint split_from (sep : string) (skip : nat) (s : string) : list string :=
  match s with
  | EmptyString => [""]
  | String c t =>
      match skip with
      | S k => split_from sep k t
      | O =>
          if startswith s sep
          then "" :: split_from sep (String.length sep - 1) t
          else match split_from sep O t with
               | piece :: rest => String c piece :: rest
               | [] => [String c ""]
               end
      end
  end.

Definition split (sep s : string) : list string := split_from sep O s.

(** [s.split(sep, 1)] for a one-character [sep]: [s] alone when [sep] is
    not in it, else what is before and what is after the first [sep]. *)
Fixpoint split_once (sep : ascii) (s : string) : list string :=
  match s with
  | EmptyString => [""]
  | String c t =>
      if Ascii.eqb c sep then [""; t]
      else match split_once sep t with
           | piece :: rest => String c piece :: rest
           | [] => [String c ""]
           end
  end.

(** [re.split("\n---?\n", s)]: the separator is a line of two or of three
    dashes. *)
Fixpoint split_slides_from (skip : nat) (s : string) : list string :=
  match s with
  | EmptyString => [""]
  | String c t =>
      match skip with
      | S k => split_slides_from k t
      | O =>
          if startswith s (nl ++ "---" ++ nl) then "" :: split_slides_from 4 t
          else if startswith s (nl ++ "--" ++ nl) then "" :: split_slides_from 3 t
          else match split_slides_from O t with
               | piece :: rest => String c piece :: rest
               | [] => [String c ""]
               end
      end
  end.

Definition split_slides (s : string) : list string := split_slides_from O s.

(** [l[1::2]] *)
Fixpoint odd_items {A : Type} (l : list A) : list A :=
  match l with
  | _ :: x :: rest => x :: odd_items rest
  | _ => []
  end.

(** [a, b = l] *)
Definition unpack2 {A : Type} (l : list A) : res (A * A) :=
  match l with
  | [a; b] => Ok (a, b)
  | _ => Raise ValueError
  end.

(** A [Slide]; of a [Snippet] only the content is kept. *)
Record Slide := {
  number : Z;
  content : string;
  snippets : list string
}.

Definition fence : string := "```".

(** The separator of the speaker notes. *)
Definition notes_rule : string := nl ++ "???" ++ nl.

Section Deck.

Variable env : Env.

(** The loop over the exercises in [Slide.__init__]. *)
Fixpoint add_snippets (number : Z) (exercises : list PyRe.found) (snippets : list string)
  : M (list string) :=
  match exercises with
  | [] => ret snippets
  | exercise :: rest =>
      snippets <-
        match exercise with
        | PyRe.FStr e =>
            if contains fence e then ret (snippets ++ odd_items (split fence e))%list
            else
              logging WARNING "Exercise on slide {} does not have any ``` snippet."
                      [str_of_int number] ;;
              ret snippets
        | PyRe.FTuple l =>
            if str_in fence l then raise AttributeError
            else
              logging WARNING "Exercise on slide {} does not have any ``` snippet."
                      [str_of_int number] ;;
              ret snippets
        end ;;
      add_snippets number rest snippets
  end.

(** [Slide(content)], from the class counter [Slide.current_slide] to its
    new value and the slide. *)
Definition Slide_init (current_slide : Z) (content : string) : M (Z * Slide) :=
  let current_slide := current_slide + 1 in
  let number := current_slide in
  let content := hd "" (split notes_rule content) in
  exercises <- findall env "\.exercise\[(.*)\]"
                       {| PyRe.multiline := false; PyRe.dotall := true |} content ;;
  snippets <- add_snippets number exercises [] ;;
  ret (current_slide, {| number := number; content := content; snippets := snippets |}).

(** [for slide in re.split("\n---?\n", content): ...], given the set of
    the excluded classes. *)
Fixpoint slides_loop (excluded_classes : list string) (current_slide : Z)
         (pieces : list string) (slides : list Slide) : M (Z * list Slide) :=
  match pieces with
  | [] => ret (current_slide, slides)
  | slide :: rest =>
      found <- findall env "class: (.*)"
                       {| PyRe.multiline := false; PyRe.dotall := false |} slide ;;
      slide_classes <-
        match found with
        | [] => ret []
        | PyRe.FStr c :: _ => ret (map strip (split "," c))
        | PyRe.FTuple _ :: _ => raise AttributeError
        end ;;
      if existsb (fun c => str_in c excluded_classes) slide_classes then
        logging INFO "Skipping excluded slide." [] ;;
        slides_loop excluded_classes current_slide rest slides
      else
        made <- Slide_init current_slide slide ;;
        slides_loop excluded_classes (fst made) rest (slides ++ [snd made])%list
  end.

End Deck.

(** The body of the loop that fills [actions]: the method and the data of
    a snippet. *)
Definition snippet_action (number : Z) (content : string) : res Action :=
  match unpack2 (if contains nl content
                 then split_once nl_char content
                 else split_once " " content) with
  | Ok (method, data) => Ok {| slide := number; method := method; data := data |}
  | Raise e => Raise e
  | OutOfFuel => OutOfFuel
  end.

(** [for snippet in slide.snippets: ...] *)
Fixpoint snippets_loop (number : Z) (snippets : list string) (actions : list Action)
  : res (list Action) :=
  match snippets with
  | [] => Ok actions
  | content :: rest =>
      match snippet_action number content with
      | Ok a => snippets_loop number rest (actions ++ [a])%list
      | Raise e => Raise e
      | OutOfFuel => OutOfFuel
      end
  end.

(** [for slide in slides: ...] *)
Fixpoint actions_loop (slides : list Slide) (actions : list Action) : res (list Action) :=
  match slides with
  | [] => Ok actions
  | slide :: rest =>
      match snippets_loop (number slide) (snippets slide) actions with
      | Ok actions => actions_loop rest actions
      | Raise e => Raise e
      | OutOfFuel => OutOfFuel
      end
  end.

(** The deck read from [content]: its slides, then its actions. *)
Definition load_deck (env : Env) (excluded_classes : list string) (content : string)
  : M (list Action) :=
  made <- slides_loop env excluded_classes 0 (split_slides content) [] ;;
  lift (actions_loop (snd made) []).

(** The slide numbers that the actions of some slides carry: the number
    of a slide once for each of its snippets. *)
Definition slide_numbers (slides : list Slide) : list Z :=
  flat_map (fun s => repeat (number s) (List.length (snippets s))) slides.

(** [rising l]: the numbers of [l] never go down. *)
Fixpoint rising (l : list Z) : bool :=
  match l with
  | a :: (b :: _) as rest => (a <=? b) && rising rest
  | _ => true
  end.

(** [join sep l]: [sep.join(l)] *)
Fixpoint join (sep : string) (l : list string) : string :=
  match l with
  | [] => ""
  | [a] => a
  | a :: rest => a ++ sep ++ join sep rest
  end.

Definition a_deck : string :=
  "class: title" ++ nl ++ "Hello" ++ nl ++ "---" ++ nl
  ++ "Run it" ++ nl ++ ".exercise[" ++ nl
  ++ "```bash" ++ nl ++ "echo hi" ++ nl ++ "```" ++ nl
  ++ "and" ++ nl ++ "```wait hi```" ++ nl ++ "]" ++ nl ++ "???" ++ nl ++ "notes" ++ nl
  ++ "--" ++ nl
  ++ "class: extra" ++ nl ++ ".exercise[```bash" ++ nl ++ "false```]" ++ nl ++ "---" ++ nl
  ++ ".exercise[```keys ^C```]".

(** The snippets of some slides in the order of the deck, each with the
    number of its slide. *)
Definition deck_snippets (slides : list Slide) : list (Z * string) :=
  flat_map (fun s => map (fun c => (number s, c)) (snippets s)) slides.

(** A snippet that the loop can cut: it has a line feed or a space. *)
Definition cuttable (content : string) : bool :=
  contains nl content || contains " " content.

(** The log of a slide left out. *)
Definition is_skip (e : event) : bool :=
  match e with
  | EvLog INFO fmt [] => String.eqb fmt "Skipping excluded slide."
  | _ => false
  end.

(* ------------------------------------------------------------------ *)
(** * Vocabulary for what reaches the terminal *)

(** The [tmux send-keys] calls by which [send_keys] sends a text that is
    not empty in state [s]: one call per character when typing is
    simulated and the text does not start with [^], else a single call
    with the whole text. *)
Definition keys_for (s : State) (data : string) : list string :=
  match data with
  | String c _ =>
      if simulate_type s && negb (Ascii.eqb c "^")
      then map key_of (list_ascii_of_string data)
      else [data]
  | EmptyString => [data]
  end.

(** The events of typing: a send or a sleep. *)
Definition is_typing (e : event) : bool :=
  match e with EvSendKeys _ | EvSleep _ => true | _ => false end.

(** The keys of the retreat command. *)
Definition retreat_keys : list string := ["p"; esc ++ "[D"].

(** The keys that have the action run. *)
Definition run_keys : list string := ["y"; String "013" ""; " "].

(** The turns of a run of the loop: the fuel left and the machine at the
    head of each. *)
Fixpoint turns (env : Env) (fuel : nat) (actions : list Action) (m : Machine)
  : list (nat * Machine) :=
  match fuel with
  | O => []
  | S f =>
      if next_step (state m) <? Z.of_nat (List.length actions) then
        (f, m) :: match iteration env f actions m with
                  | (Ok Continue, m1) => turns env f actions m1
                  | _ => []
                  end
      else []
  end.

(** [leaves env actions f m]: the turn that starts in [m] takes the cursor
    out of the range in one of two ways: by a retreat at cursor 0, or by a
    jump to a number that is out of the range. *)
Definition leaves (env : Env) (actions : list Action) (f : nat) (m : Machine) : Prop :=
  let m' := snd (iteration env f actions m) in
  (next_step (state m) = 0 /\ next_step (state m') = -1 /\
   exists key, In (EvGetchar key) (added m m') /\ str_in key retreat_keys = true) \/
  (exists n, In (EvPrompt n) (added m m') /\ next_step (state m') = n /\
             ~ 0 <= n <= Z.of_nat (List.length actions)).

(** The key that the turn takes for its command, read after the slides
    were caught up in [m2]; [y] when the run is unattended. *)
Definition command_of (env : Env) (s : State) (m2 : Machine) : string :=
  if interactive s then click_getchar env (keypresses m2) else "y".

(** What a turn does with its command: the branches of the loop, for the
    method and the cleaned data of the action at the cursor. *)
Definition command_branch (env : Env) (actions : list Action) (command method data : string)
  : M ctl :=
  if str_in command ["n"; esc ++ "[C"] then
    add_next_step 1 ;; ret Continue
  else if str_in command ["p"; esc ++ "[D"] then
    add_next_step (-1) ;; ret Continue
  else if String.eqb command "s" then
    s <- get_state ;; set_simulate_type (negb (simulate_type s)) ;; ret Continue
  else if String.eqb command "v" then
    s <- get_state ;; set_verify_status (negb (verify_status s)) ;; ret Continue
  else if String.eqb command "g" then
    n <- prompt_int env ;;
    set_next_step n ;;
    s <- get_state ;;
    (if next_step s =? 0 then goto 1 else ret tt) ;;
    ret Continue
  else if String.eqb command "q" then
    ret Break
  else if String.eqb command "c" then
    set_interactive false ;; ret Continue
  else if str_in command ["y"; String "013" ""; " "] then
    focus_terminal ;;
    logging INFO "Running with method {}: {}" [method; data] ;;
    dispatch env actions method data ;;
    add_next_step 1 ;;
    ret Continue
  else
    logging WARNING "Unknown command {}." [command] ;; ret Continue.

(** The machine in which a turn takes its command: after the key was read
    (when the run is interactive) and the stripping of backticks was
    logged (when there are any). *)
Definition at_command (env : Env) (s : State) (a : Action) (m2 : Machine) : Machine :=
  let m3 := if interactive s then snd (getchar env m2) else m2 in
  if contains "`" (strip (data a))
  then snd (logging INFO "Stripping ` from snippet." [] m3)
  else m3.
(* ------------------------------------------------------------------ *)
(** * Reasoning about programs *)

Lemma bind_ok {A B : Type} (c : M A) (k : A -> M B) (m m1 : Machine) (a : A) :
  c m = (Ok a, m1) -> bind c k m = k a m1.
Proof. intros H. unfold bind. rewrite H. reflexivity. Qed.

Lemma bind_raise {A B : Type} (c : M A) (k : A -> M B) (m m1 : Machine) (e : exn) :
  c m = (Raise e, m1) -> bind c k m = (Raise e, m1).
Proof. intros H. unfold bind. rewrite H. reflexivity. Qed.

Lemma bind_out_of_fuel {A B : Type} (c : M A) (k : A -> M B) (m m1 : Machine) :
  c m = (OutOfFuel, m1) -> bind c k m = (OutOfFuel, m1).
Proof. intros H. unfold bind. rewrite H. reflexivity. Qed.


Lemma bind_cong {A B : Type} (c : M A) (k1 k2 : A -> M B) (m : Machine) :
  (forall a m1, c m = (Ok a, m1) -> k1 a m1 = k2 a m1) ->
  bind c k1 m = bind c k2 m.
Proof.
  intros H. unfold bind. destruct (c m) as [[a | e |] m1]; auto.
Qed.

(** Projections of a machine given by its fields. *)
Ltac fields :=
  cbn [state slide_on_screen state_yaml clock captures keypresses prompts uuids randoms
       trace interactive verify_status simulate_type next_step].

(** ** Relations that every step of a program keeps *)

Section Keeps.

Variable P : Machine -> Machine -> Prop.
Hypothesis P_refl : forall m, P m m.
Hypothesis P_trans : forall a b c, P a b -> P b c -> P a c.

Lemma keeps_ret {A : Type} (a : A) : keeps P (ret a).
Proof. intros m. apply P_refl. Qed.

Lemma keeps_raise {A : Type} (e : exn) : keeps P (@raise A e).
Proof. intros m. apply P_refl. Qed.

Lemma keeps_out_of_fuel {A : Type} : keeps P (@out_of_fuel A).
Proof. intros m. apply P_refl. Qed.

Lemma keeps_lift {A : Type} (r : res A) : keeps P (lift r).
Proof. intros m. apply P_refl. Qed.

Lemma keeps_bind {A B : Type} (c : M A) (k : A -> M B) :
  keeps P c -> (forall a, keeps P (k a)) -> keeps P (bind c k).
Proof.
  intros Hc Hk m. unfold bind. specialize (Hc m).
  destruct (c m) as [[a | e |] m1]; simpl in *; auto.
  eapply P_trans; [exact Hc | apply Hk].
Qed.

Lemma keeps_try_except {A : Type} (c : M A) (h : exn -> M A) :
  keeps P c -> (forall e, keeps P (h e)) -> keeps P (try_except c h).
Proof.
  intros Hc Hh m. unfold try_except. specialize (Hc m).
  destruct (c m) as [[a | e |] m1]; simpl in *; auto.
  eapply P_trans; [exact Hc | apply Hh].
Qed.

Lemma keeps_if {A : Type} (b : bool) (c1 c2 : M A) :
  keeps P c1 -> keeps P c2 -> keeps P (if b then c1 else c2).
Proof. destruct b; auto. Qed.

End Keeps.

Lemma steady_refl (Q : event -> Prop) (m : Machine) : steady Q m m.
Proof.
  repeat split. exists []. split; [now rewrite app_nil_r | constructor].
Qed.

Lemma steady_trans (Q : event -> Prop) (a b c : Machine) :
  steady Q a b -> steady Q b c -> steady Q a c.
Proof.
  intros (S1 & F1 & e1 & T1 & Q1) (S2 & F2 & e2 & T2 & Q2).
  repeat split; try congruence.
  exists (e1 ++ e2)%list. split.
  - rewrite T2, T1, app_assoc. reflexivity.
  - apply Forall_app. split; assumption.
Qed.

Lemma steady_one (Q : event -> Prop) (m m' : Machine) (e : event) :
  state m' = state m -> state_yaml m' = state_yaml m ->
  trace m' = (trace m ++ [e])%list -> Q e -> steady Q m m'.
Proof.
  intros S1 F1 T1 Q1. repeat split; auto.
  exists [e]. split; auto.
Qed.

Lemma steady_silent (Q : event -> Prop) (m m' : Machine) :
  state m' = state m -> state_yaml m' = state_yaml m ->
  trace m' = trace m -> steady Q m m'.
Proof.
  intros S1 F1 T1. repeat split; auto.
  exists []. split; [now rewrite app_nil_r | constructor].
Qed.

Lemma steady_weaken (Q Q' : event -> Prop) (m m' : Machine) :
  (forall e, Q e -> Q' e) -> steady Q m m' -> steady Q' m m'.
Proof.
  intros H (S1 & F1 & evs & T1 & Q1). repeat split; auto.
  exists evs. split; auto. eapply Forall_impl; eauto.
Qed.

Ltac stays_step :=
  match goal with
  | |- keeps _ (bind _ _) =>
      apply (keeps_bind _ (steady_trans _)); [ | intros ? ]
  | |- keeps _ (ret _) => apply keeps_ret, steady_refl
  | |- keeps _ (raise _) => apply keeps_raise, steady_refl
  | |- keeps _ (lift _) => apply keeps_lift, steady_refl
  | |- keeps _ out_of_fuel => apply keeps_out_of_fuel, steady_refl
  | |- keeps _ (if ?b then _ else _) => destruct b
  | |- keeps _ (match ?x with _ => _ end) => destruct x
  end.

Section Steady.

Variable env : Env.
Variable Q : event -> Prop.

Lemma emit_stays (e : event) : Q e -> stays Q (emit e).
Proof. intros H m. apply steady_one with (e := e); auto. Qed.

Lemma logging_stays (l : level) (fmt : string) (args : list string) :
  Q (EvLog l fmt args) -> stays Q (logging l fmt args).
Proof. apply emit_stays. Qed.

Lemma time_sleep_stays (ms : Z) : Q (EvSleep ms) -> stays Q (time_sleep ms).
Proof. intros H m. apply steady_one with (e := EvSleep ms); auto. Qed.

Lemma time_time_stays : stays Q time_time.
Proof. intros m. apply steady_refl. Qed.

Lemma get_state_stays : stays Q get_state.
Proof. intros m. apply steady_refl. Qed.

Lemma get_slide_on_screen_stays : stays Q get_slide_on_screen.
Proof. intros m. apply steady_refl. Qed.

Lemma set_slide_on_screen_stays (n : Z) : stays Q (set_slide_on_screen n).
Proof. intros m. apply steady_silent; reflexivity. Qed.

Lemma capture_pane_stays : (forall s, Q (EvCapture s)) -> stays Q (capture_pane env).
Proof.
  intros H m. apply steady_one with (e := EvCapture (tmux_capture env (captures m))); auto.
Qed.

Lemma getchar_stays : (forall c, Q (EvGetchar c)) -> stays Q (getchar env).
Proof.
  intros H m. apply steady_one with (e := EvGetchar (click_getchar env (keypresses m))); auto.
Qed.

Lemma uuid4_stays : stays Q (uuid4 env).
Proof. intros m. apply steady_silent; reflexivity. Qed.

Lemma random_delay_stays : stays Q (random_delay env).
Proof. intros m. apply steady_silent; reflexivity. Qed.

Lemma findall_stays (p : string) (fl : PyRe.flags) (t : string) : stays Q (findall env p fl t).
Proof. unfold findall. destruct (re_findall env p fl t); intros m; apply steady_refl. Qed.

Hypothesis Q_capture : forall s, Q (EvCapture s).
Hypothesis Q_sleep : forall ms, Q (EvSleep ms).

Lemma wait_for_prompt_loop_stays (fuel : nat) (deadline : Z) :
  stays Q (wait_for_prompt_loop env fuel deadline).
Proof.
  induction fuel as [| f IH]; simpl;
    repeat (stays_step; auto using time_time_stays, capture_pane_stays, time_sleep_stays).
Qed.

Lemma wait_for_prompt_stays : stays Q (wait_for_prompt env).
Proof.
  unfold wait_for_prompt. stays_step; [apply time_time_stays |].
  apply wait_for_prompt_loop_stays.
Qed.

Lemma wait_for_string_loop_stays (fuel : nat) (s : string) (deadline : Z) :
  stays Q (wait_for_string_loop env fuel s deadline).
Proof.
  induction fuel as [| f IH]; simpl;
    repeat (stays_step; auto using time_time_stays, capture_pane_stays, time_sleep_stays).
Qed.

Lemma wait_for_string_stays (s : string) (timeout : Z) :
  stays Q (wait_for_string env s timeout).
Proof.
  unfold wait_for_string. stays_step; [apply time_time_stays |].
  apply wait_for_string_loop_stays.
Qed.

Hypothesis Q_send : forall keys, Q (EvSendKeys keys).

Lemma type_keys_stays (data : string) : stays Q (type_keys env data).
Proof.
  induction data as [| c rest IH]; simpl.
  - stays_step.
  - repeat (stays_step; auto using time_sleep_stays, emit_stays, random_delay_stays).
Qed.

Lemma send_keys_stays (data : string) : stays Q (send_keys env data).
Proof.
  unfold send_keys.
  repeat (stays_step; auto using get_state_stays, type_keys_stays, emit_stays).
Qed.

Lemma check_exit_status_stays : stays Q (check_exit_status env).
Proof.
  unfold check_exit_status.
  repeat (stays_step;
          auto using get_state_stays, uuid4_stays, send_keys_stays, time_sleep_stays,
                     wait_for_prompt_stays, capture_pane_stays, findall_stays).
Qed.

End Steady.

(* ------------------------------------------------------------------ *)
(** * The polling loops *)

Lemma endswith_spec (s suffix : string) :
  endswith s suffix = true <-> exists p, s = p ++ suffix.
Proof.
  split.
  - induction s as [| c t IH]; cbn [endswith]; intros H.
    + rewrite orb_false_r in H. apply String.eqb_eq in H. exists "". now subst.
    + apply orb_true_iff in H. destruct H as [H | H].
      * apply String.eqb_eq in H. exists "". now subst.
      * destruct (IH H) as [p Hp]. exists (String c p). simpl. now rewrite Hp.
  - intros [p Hp]. revert s Hp. induction p as [| c p IH]; intros s Hp; simpl in Hp; subst s.
    + destruct suffix; cbn [endswith]; rewrite String.eqb_refl; reflexivity.
    + cbn [endswith append]. rewrite (IH _ eq_refl). apply orb_true_r.
Qed.

Lemma startswith_spec (s p : string) :
  startswith s p = true <-> exists t, s = p ++ t.
Proof.
  revert s. induction p as [| c p IH]; intros s; simpl.
  - split; [intros _; now exists s | reflexivity].
  - destruct s as [| d s]; [split; [discriminate | intros [t H]; discriminate] |].
    destruct (Ascii.eqb_spec c d) as [-> | Hne]; simpl.
    + rewrite IH. split; intros [t H]; exists t; simpl in *; congruence.
    + split; [discriminate | intros [t H]; simpl in H; congruence].
Qed.

Lemma contains_spec (needle s : string) :
  contains needle s = true <-> exists a b, s = a ++ needle ++ b.
Proof.
  split.
  - induction s as [| c t IH]; cbn [contains]; intros H.
    + rewrite orb_false_r in H. apply startswith_spec in H. destruct H as [b Hb].
      exists "", b. exact Hb.
    + apply orb_true_iff in H. destruct H as [H | H].
      * apply startswith_spec in H. destruct H as [b Hb]. exists "", b. exact Hb.
      * destruct (IH H) as (a & b & Hab). exists (String c a), b. simpl. now rewrite Hab.
  - intros (a & b & H). revert s H. induction a as [| c a IH]; intros s H; simpl in H; subst s.
    + assert (P : startswith (needle ++ b) needle = true)
        by (apply startswith_spec; now exists b).
      destruct (needle ++ b); cbn [contains]; rewrite P; reflexivity.
    + cbn [contains append]. rewrite (IH _ eq_refl). apply orb_true_r.
Qed.

Lemma first_hit_some (test : string -> bool) (screens : nat -> string) (n start k : nat) :
  first_hit test screens start n = Some k ->
  (k < n)%nat /\ test (screens (start + k)%nat) = true /\
  forall j, (j < k)%nat -> test (screens (start + j)%nat) = false.
Proof.
  revert start k. induction n as [| n IH]; intros start k H; simpl in H; [discriminate |].
  destruct (test (screens start)) eqn:T.
  - inversion H; subst. rewrite Nat.add_0_r. repeat split; [lia | assumption | lia].
  - destruct (first_hit test screens (S start) n) as [k' |] eqn:F; [| discriminate].
    inversion H; subst. destruct (IH _ _ F) as (L & Hit & Before).
    repeat split; [lia | now rewrite Nat.add_succ_r |].
    intros [| j] Hj; [now rewrite Nat.add_0_r |].
    rewrite Nat.add_succ_r. apply (Before j). lia.
Qed.

Lemma first_hit_none (test : string -> bool) (screens : nat -> string) (n start : nat) :
  first_hit test screens start n = None ->
  forall j, (j < n)%nat -> test (screens (start + j)%nat) = false.
Proof.
  revert start. induction n as [| n IH]; intros start H j Hj; [lia |].
  simpl in H. destruct (test (screens start)) eqn:T; [discriminate |].
  destruct (first_hit test screens (S start) n) eqn:F; [discriminate |].
  destruct j as [| j]; [now rewrite Nat.add_0_r |].
  rewrite Nat.add_succ_r. apply (IH (S start) F j). lia.
Qed.

Lemma first_hit_exists (test : string -> bool) (screens : nat -> string) (n start k : nat) :
  (k < n)%nat -> test (screens (start + k)%nat) = true ->
  exists k', first_hit test screens start n = Some k'.
Proof.
  intros L T. destruct (first_hit test screens start n) as [k' |] eqn:F; [now exists k' |].
  rewrite (first_hit_none _ _ _ _ F k L) in T. discriminate.
Qed.

Section Polling.

Variable env : Env.

Lemma wait_for_prompt_loop_poll (fuel : nat) (deadline : Z) (m : Machine) :
  wait_for_prompt_loop env fuel deadline m
  = poll_loop env at_prompt (Exception "Timed out while waiting for prompt!") fuel deadline m.
Proof.
  revert m. induction fuel as [| f IH]; intros m; [reflexivity |].
  unfold at_prompt. simpl. unfold bind, time_time, capture_pane. simpl.
  destruct (clock m <? deadline); [| reflexivity].
  destruct (endswith _ (String nl_char "$")); [reflexivity |].
  destruct (endswith _ (String nl_char "/ #")); [reflexivity |].
  simpl. apply IH.
Qed.

Lemma wait_for_string_loop_poll (fuel : nat) (s : string) (deadline : Z) (m : Machine) :
  wait_for_string_loop env fuel s deadline m
  = poll_loop env (contains s) (Exception ("Timed out while waiting for " ++ s ++ "!"))
              fuel deadline m.
Proof.
  revert m. induction fuel as [| f IH]; intros m; [reflexivity |].
  simpl. unfold bind, time_time, capture_pane.
  destruct (clock m <? deadline); [| reflexivity].
  destruct (contains s _); [reflexivity |].
  simpl. apply IH.
Qed.

Lemma after_polls_shift (m : Machine) (k : nat) (hit : bool) :
  after_polls env
    {| state := state m; slide_on_screen := slide_on_screen m; state_yaml := state_yaml m;
       clock := clock m + 1000; captures := S (captures m); keypresses := keypresses m;
       prompts := prompts m; uuids := uuids m; randoms := randoms m;
       trace := (trace m ++ [EvCapture (tmux_capture env (captures m))]) ++ [EvSleep 1000] |}
    k hit
  = after_polls env m (S k) hit.
Proof.
  unfold after_polls. fields. cbn [poll_events]. f_equal.
  - lia.
  - lia.
  - rewrite <- !app_assoc. cbn [app]. repeat f_equal.
    replace (S (captures m) + k)%nat with (captures m + S k)%nat by lia. reflexivity.
Qed.

(** With [n] seconds left before the deadline the loop polls until the
    first hit among [n] captures, or raises after [n] polls. *)
Lemma poll_loop_spec (test : string -> bool) (e : exn) (n fuel : nat) (deadline : Z)
      (m : Machine) :
  (n < fuel)%nat ->
  deadline <= clock m + 1000 * Z.of_nat n ->
  clock m + 1000 * Z.of_nat n < deadline + 1000 ->
  poll_loop env test e fuel deadline m
  = match first_hit test (tmux_capture env) (captures m) n with
    | Some k => (Ok tt, after_polls env m k true)
    | None => (Raise e, after_polls env m n false)
    end.
Proof.
  revert fuel m. induction n as [| n IH]; intros fuel m Hf Hge Hlt;
    (destruct fuel as [| f]; [lia |]); cbn [poll_loop first_hit].
  - unfold bind, time_time.
    replace (clock m <? deadline) with false by (symmetry; apply Z.ltb_ge; lia).
    unfold raise, after_polls. destruct m; fields. cbn [poll_events]. f_equal. f_equal.
    + lia.
    + lia.
    + now rewrite !app_nil_r.
  - unfold bind at 1. unfold time_time.
    replace (clock m <? deadline) with true by (symmetry; apply Z.ltb_lt; lia).
    unfold bind at 1. unfold capture_pane.
    destruct (test (tmux_capture env (captures m))) eqn:T.
    + unfold ret, after_polls. fields. cbn [poll_events app]. f_equal. f_equal.
      * lia.
      * lia.
      * now rewrite Nat.add_0_r.
    + unfold bind, time_sleep. fields.
      rewrite IH by (fields; lia). fields.
      destruct (first_hit test (tmux_capture env) (S (captures m)) n) as [k |];
        cbn [option_map]; now rewrite after_polls_shift.
Qed.

(** [wait_for_prompt]: sixty polls, one second apart. *)
Lemma wait_for_prompt_spec (m : Machine) :
  wait_for_prompt env m
  = match first_hit at_prompt (tmux_capture env) (captures m) 60 with
    | Some k => (Ok tt, after_polls env m k true)
    | None => (Raise (Exception "Timed out while waiting for prompt!"),
               after_polls env m 60 false)
    end.
Proof.
  unfold wait_for_prompt, bind, time_time.
  rewrite wait_for_prompt_loop_poll.
  apply poll_loop_spec; unfold polls, TIMEOUT; simpl; lia.
Qed.

(** [wait_for_string] with a timeout of [n] seconds: [n] polls. *)
Lemma wait_for_string_spec (s : string) (n : nat) (m : Machine) :
  wait_for_string env s (1000 * Z.of_nat n) m
  = match first_hit (contains s) (tmux_capture env) (captures m) n with
    | Some k => (Ok tt, after_polls env m k true)
    | None => (Raise (Exception ("Timed out while waiting for " ++ s ++ "!")),
               after_polls env m n false)
    end.
Proof.
  unfold wait_for_string, bind, time_time.
  rewrite wait_for_string_loop_poll.
  apply poll_loop_spec; unfold polls; try lia.
  replace (1000 * Z.of_nat n / 1000) with (Z.of_nat n)
    by (symmetry; rewrite Z.mul_comm; apply Z.div_mul; lia).
  lia.
Qed.

End Polling.

(* ------------------------------------------------------------------ *)
(** * More steady programs *)

Section Steady_loop.

Variable env : Env.
Variable Q : event -> Prop.

Hypothesis Q_capture : forall s, Q (EvCapture s).
Hypothesis Q_sleep : forall ms, Q (EvSleep ms).
Hypothesis Q_send : forall keys, Q (EvSendKeys keys).
Hypothesis Q_goto : forall n, Q (EvGotoSlide n).
Hypothesis Q_workspace : forall n, Q (EvWorkspace n).
Hypothesis Q_open : forall url, Q (EvOpen url).
Hypothesis Q_getchar : forall c, Q (EvGetchar c).
Hypothesis Q_warning : forall fmt args, Q (EvLog WARNING fmt args).

Lemma focus_slides_stays : stays Q focus_slides.
Proof. unfold focus_slides. repeat (stays_step; auto using emit_stays). Qed.

Lemma focus_terminal_stays : stays Q focus_terminal.
Proof. unfold focus_terminal. repeat (stays_step; auto using emit_stays). Qed.

Lemma focus_browser_stays : stays Q focus_browser.
Proof. unfold focus_browser. repeat (stays_step; auto using emit_stays). Qed.

Lemma goto_stays (n : Z) : stays Q (goto n).
Proof.
  unfold goto.
  repeat (stays_step; auto using emit_stays, set_slide_on_screen_stays, focus_slides_stays).
Qed.

Lemma catchup_loop_stays (fuel : nat) (n : Z) : stays Q (catchup_loop env fuel n).
Proof.
  induction fuel as [| f IH]; cbn [catchup_loop];
    repeat (stays_step;
            auto using get_slide_on_screen_stays, get_state_stays, getchar_stays, goto_stays).
Qed.

Lemma catchup_stays (fuel : nat) (n : Z) : stays Q (catchup env fuel n).
Proof.
  unfold catchup.
  repeat (stays_step; auto using get_slide_on_screen_stays, goto_stays, catchup_loop_stays).
Qed.

Lemma dispatch_stays (actions : list Action) (method data : string) :
  stays Q (dispatch env actions method data).
Proof.
  unfold dispatch, global_status.
  repeat (stays_step;
          auto using send_keys_stays, wait_for_prompt_stays, wait_for_string_stays,
                     time_sleep_stays, get_state_stays, check_exit_status_stays,
                     capture_pane_stays, findall_stays, emit_stays, focus_browser_stays,
                     getchar_stays, logging_stays).
Qed.

End Steady_loop.

(* ------------------------------------------------------------------ *)
(** * Rules for triples *)

Lemma hoare_ret {A : Type} (I J : Machine -> Prop) (V : A -> Prop) (a : A) :
  (forall m, I m -> J m) -> V a -> hoare I (ret a) V J.
Proof. intros HJ HV m Hm. split; [now apply HJ | intros b E; inversion E; now subst]. Qed.

Lemma hoare_raise {A : Type} (I J : Machine -> Prop) (V : A -> Prop) (e : exn) :
  (forall m, I m -> J m) -> hoare I (raise e) V J.
Proof. intros HJ m Hm. split; [now apply HJ | intros b E; inversion E]. Qed.

Lemma hoare_out_of_fuel {A : Type} (I J : Machine -> Prop) (V : A -> Prop) :
  (forall m, I m -> J m) -> hoare I out_of_fuel V J.
Proof. intros HJ m Hm. split; [now apply HJ | intros b E; inversion E]. Qed.

Lemma hoare_lift {A : Type} (I J : Machine -> Prop) (V : A -> Prop) (r : res A) :
  (forall m, I m -> J m) -> (forall a, r = Ok a -> V a) -> hoare I (lift r) V J.
Proof. intros HJ HV m Hm. split; [now apply HJ | intros b E; now apply HV]. Qed.

Lemma hoare_bind {A B : Type} (I J1 J : Machine -> Prop) (V1 : A -> Prop) (V : B -> Prop)
      (c : M A) (k : A -> M B) :
  hoare I c V1 J1 ->
  (forall a, V1 a -> hoare J1 (k a) V J) ->
  (forall m, J1 m -> J m) ->
  hoare I (bind c k) V J.
Proof.
  intros Hc Hk HJ m Hm. destruct (Hc m Hm) as [H1 H2]. unfold bind.
  destruct (c m) as [[a | e |] m1]; simpl in *.
  - apply (Hk a (H2 a eq_refl) m1 H1).
  - split; [now apply HJ | intros b E; inversion E].
  - split; [now apply HJ | intros b E; inversion E].
Qed.

Lemma hoare_conseq {A : Type} (I I' J J' : Machine -> Prop) (V V' : A -> Prop) (c : M A) :
  hoare I c V J ->
  (forall m, I' m -> I m) -> (forall a, V a -> V' a) -> (forall m, J m -> J' m) ->
  hoare I' c V' J'.
Proof.
  intros H HI HV HJ m Hm. destruct (H m (HI m Hm)) as [H1 H2]. split; auto.
Qed.

Lemma hoare_if {A : Type} (I J : Machine -> Prop) (V : A -> Prop) (b : bool) (c1 c2 : M A) :
  (b = true -> hoare I c1 V J) -> (b = false -> hoare I c2 V J) ->
  hoare I (if b then c1 else c2) V J.
Proof. destruct b; auto. Qed.

(** A steady program keeps every [I] that steady steps cannot break. *)
Lemma hoare_stays {A : Type} (Q : event -> Prop) (I : Machine -> Prop) (c : M A) :
  stays Q c ->
  (forall m1 m2, I m1 -> steady Q m1 m2 -> I m2) ->
  hoare I c (fun _ => True) I.
Proof. intros Hc HI m Hm. split; [apply (HI m); [exact Hm | apply Hc] | trivial]. Qed.

Lemma hoare_get_state (I : Machine -> Prop) :
  hoare I get_state (fun s => exists m, I m /\ s = state m) I.
Proof.
  intros m Hm. split; [exact Hm |]. intros a E. inversion E. exists m. now split.
Qed.

(* ------------------------------------------------------------------ *)
(** * One turn of the loop *)

Section Turn.

Variable env : Env.
Variable Q : event -> Prop.
Variable m0 : Machine.

Lemma saved_steady (m1 m2 : Machine) : saved Q m0 m1 -> steady Q m1 m2 -> saved Q m0 m2.
Proof.
  intros (F & evs & T & HQ) (S2 & F2 & evs2 & T2 & HQ2). split; [congruence |].
  exists (evs ++ evs2)%list. split.
  - rewrite T2, T, <- app_assoc. reflexivity.
  - apply Forall_app. now split.
Qed.

Lemma before_steady (m1 m2 : Machine) : before Q m0 m1 -> steady Q m1 m2 -> before Q m0 m2.
Proof.
  intros [S1 H1] H2. split; [destruct H2; congruence | eapply saved_steady; eauto].
Qed.

Lemma after_steady (m1 m2 : Machine) :
  after env Q m0 m1 -> steady Q m1 m2 -> after env Q m0 m2.
Proof.
  intros [H1 T1] H2. split; [eapply saved_steady; eauto |].
  unfold turn in *. destruct H2 as (S2 & _). rewrite S2. exact T1.
Qed.

Lemma before_after (m : Machine) : before Q m0 m -> after env Q m0 m.
Proof. intros [S1 H1]. split; [exact H1 | left; now rewrite S1]. Qed.

Lemma hoare_before_stays {A : Type} (c : M A) :
  stays Q c -> hoare (before Q m0) c (fun _ => True) (before Q m0).
Proof. intros H. apply (hoare_stays Q); [exact H | apply before_steady]. Qed.

Lemma hoare_after_stays {A : Type} (c : M A) :
  stays Q c -> hoare (after env Q m0) c (fun _ => True) (after env Q m0).
Proof. intros H. apply (hoare_stays Q); [exact H | apply after_steady]. Qed.

Lemma hoare_before_get_state :
  hoare (before Q m0) get_state (fun s => s = state m0) (before Q m0).
Proof. intros m Hm. split; [exact Hm |]. intros a E. inversion E. apply Hm. Qed.

Lemma hoare_before_lift {A : Type} (r : res A) :
  hoare (before Q m0) (lift r) (fun a => r = Ok a) (before Q m0).
Proof. apply hoare_lift; auto. Qed.

Lemma hoare_before_getchar :
  (forall c, Q (EvGetchar c)) ->
  hoare (before Q m0) (getchar env) (fun c => exists k, c = click_getchar env k) (before Q m0).
Proof.
  intros HQ m Hm. split.
  - apply (before_steady m); [exact Hm | now apply getchar_stays].
  - intros a E. inversion E. now exists (keypresses m).
Qed.

Lemma hoare_before_prompt_int :
  (forall n, Q (EvPrompt n)) ->
  hoare (before Q m0) (prompt_int env) (fun n => exists k, n = click_prompt env k)
        (before Q m0).
Proof.
  intros HQ m Hm. split.
  - apply (before_steady m); [exact Hm |].
    apply steady_one with (e := EvPrompt (click_prompt env (prompts m))); auto.
  - intros a E. inversion E. now exists (prompts m).
Qed.

(** A change of the state that moves [next_step] as [turn] allows. *)
Lemma hoare_before_change {A : Type} (c : M A) :
  (forall m, state_yaml (snd (c m)) = state_yaml m /\ trace (snd (c m)) = trace m) ->
  (forall m, state m = state m0 -> turn env m0 (snd (c m))) ->
  hoare (before Q m0) c (fun _ => True) (after env Q m0).
Proof.
  intros Hc Ht m [S1 (F & evs & T & HQ)]. split; [| trivial].
  destruct (Hc m) as [F' T']. split; [| now apply Ht].
  split; [congruence |]. exists evs. split; [congruence | exact HQ].
Qed.

End Turn.

Tactic Notation "hbind" tactic3(tac) "as" ident(x) ident(H) :=
  eapply hoare_bind; [ tac | intros x H; cbv beta in H | try apply before_after; auto ].

Ltac set_turn :=
  unfold add_next_step, set_next_step, set_simulate_type, set_verify_status, set_interactive,
         bind, get_state, set_state;
  cbn [snd]; fields.

Lemma iteration_effect (env : Env) (fuel : nat) (actions : list Action) (m0 : Machine) :
  hoare (fun m => m = m0) (iteration env fuel actions)
        (fun r => r = Break -> exists k, click_getchar env k = "q")
        (after env (running actions m0) m0).
Proof.
  set (Q := running actions m0).
  assert (Q_capture : forall s, Q (EvCapture s)) by (split; [reflexivity | discriminate]).
  assert (Q_sleep : forall ms, Q (EvSleep ms)) by (split; [reflexivity | discriminate]).
  assert (Q_send : forall keys, Q (EvSendKeys keys)) by (split; [reflexivity | discriminate]).
  assert (Q_goto : forall n, Q (EvGotoSlide n)) by (split; [reflexivity | discriminate]).
  assert (Q_workspace : forall n, Q (EvWorkspace n)) by (split; [reflexivity | discriminate]).
  assert (Q_open : forall url, Q (EvOpen url)) by (split; [reflexivity | discriminate]).
  assert (Q_getchar : forall c, Q (EvGetchar c)) by (split; [reflexivity | discriminate]).
  assert (Q_prompt : forall n, Q (EvPrompt n)) by (split; [reflexivity | discriminate]).
  assert (Q_warning : forall fmt args, Q (EvLog WARNING fmt args))
    by (split; [reflexivity | discriminate]).
  unfold iteration.
  (* state.save() *)
  eapply hoare_bind with (J1 := before Q m0) (V1 := fun _ => True);
    [ | intros _ _ | apply before_after ].
  { intros m ->. split; [| trivial].
    unfold State_save, bind, get_state, write_file, emit. cbn [snd]. fields.
    split; [reflexivity |]. split; [reflexivity |].
    exists []. split; [reflexivity | constructor]. }
  (* the action at the cursor *)
  hbind (apply hoare_before_get_state) as s Hs. subst s.
  hbind (apply hoare_before_lift) as a Hact.
  destruct a as [slide_number mth dat].
  hbind (apply hoare_before_stays, catchup_stays; auto) as u1 Hu1.
  hbind (apply hoare_before_get_state) as s Hs. subst s.
  (* the command *)
  eapply hoare_bind with (J1 := before Q m0)
                         (V1 := fun c => c = "y" \/ exists k, c = click_getchar env k);
    [ | intros command Hcommand | apply before_after ].
  { apply hoare_if; intros _.
    - eapply hoare_conseq;
        [exact (hoare_before_getchar env Q m0 Q_getchar) | auto | | auto].
      intros c Hc. now right.
    - apply hoare_ret; auto. }
  eapply hoare_bind with (J1 := before Q m0) (V1 := fun _ => True);
    [ | intros data' _ | apply before_after ].
  { apply hoare_if; intros _.
    - hbind (apply hoare_before_stays, logging_stays; split; [reflexivity | discriminate])
        as u2 Hu2.
      apply hoare_ret; auto.
    - apply hoare_ret; auto. }
  (* n *)
  apply hoare_if; intros Hn.
  { hbind (apply (hoare_before_change env); [intros m; now split |]) as u2 Hu2.
    - intros m Hm. right. left. set_turn. now rewrite Hm.
    - apply hoare_ret; [auto | discriminate]. }
  (* p *)
  apply hoare_if; intros Hp.
  { hbind (apply (hoare_before_change env); [intros m; now split |]) as u2 Hu2.
    - intros m Hm. right. right. left. set_turn. rewrite Hm. split; [lia |].
      destruct Hcommand as [-> | [k ->]]; [discriminate Hp | now exists k].
    - apply hoare_ret; [auto | discriminate]. }
  (* s *)
  apply hoare_if; intros Hs.
  { hbind (apply hoare_before_get_state) as s1 Hs1.
    hbind (apply (hoare_before_change env); [intros m; now split |]) as u2 Hu2.
    - intros m Hm. left. set_turn. now rewrite Hm.
    - apply hoare_ret; [auto | discriminate]. }
  (* v *)
  apply hoare_if; intros Hv.
  { hbind (apply hoare_before_get_state) as s1 Hs1.
    hbind (apply (hoare_before_change env); [intros m; now split |]) as u2 Hu2.
    - intros m Hm. left. set_turn. now rewrite Hm.
    - apply hoare_ret; [auto | discriminate]. }
  (* g *)
  apply hoare_if; intros Hg.
  { hbind (apply hoare_before_prompt_int; auto) as n Hk.
    destruct Hk as [k ->].
    hbind (apply (hoare_before_change env); [intros m; now split |]) as u2 Hu2.
    - intros m Hm. right. right. right. exists k. set_turn. reflexivity.
    - eapply hoare_bind with (J1 := after env Q m0) (V1 := fun _ => True);
        [ | intros s1 _ | auto ].
      { intros m Hm. split; [exact Hm | trivial]. }
      eapply hoare_bind with (J1 := after env Q m0) (V1 := fun _ => True);
        [ | intros _ _ | auto ].
      { apply hoare_if; intros _.
        - apply hoare_after_stays, goto_stays; auto.
        - apply hoare_ret; auto. }
      apply hoare_ret; [auto | discriminate]. }
  (* q *)
  apply hoare_if; intros Hq.
  { apply hoare_ret; [apply before_after |]. intros _.
    apply String.eqb_eq in Hq. subst command.
    destruct Hcommand as [H | [k H]]; [discriminate H | now exists k]. }
  (* c *)
  apply hoare_if; intros Hc.
  { hbind (apply (hoare_before_change env); [intros m; now split |]) as u2 Hu2.
    - intros m Hm. left. set_turn. now rewrite Hm.
    - apply hoare_ret; [auto | discriminate]. }
  (* y *)
  apply hoare_if; intros Hy.
  { hbind (apply hoare_before_stays, focus_terminal_stays; auto) as u2 Hu2.
    hbind (apply hoare_before_stays, logging_stays) as u3 Hu3.
    { split; [reflexivity |]. intros mth' d E. inversion E; subst.
      eexists. split; [exact Hact | reflexivity]. }
    hbind (apply hoare_before_stays, dispatch_stays; auto) as u4 Hu4.
    hbind (apply (hoare_before_change env); [intros m; now split |]) as u5 Hu5.
    - intros m Hm. right. left. set_turn. now rewrite Hm.
    - apply hoare_ret; [auto | discriminate]. }
  (* anything else *)
  hbind (apply hoare_before_stays, logging_stays; auto) as u2 Hu2.
  apply hoare_ret; [apply before_after | discriminate].
Qed.

(* ------------------------------------------------------------------ *)
(** * The matcher on some patterns *)

Example findall_id :
  PyRe.findall "id: (\w+)" copypaste_flags ("id: abc" ++ nl ++ "id: def" ++ nl)
  = Some [PyRe.FStr "abc"; PyRe.FStr "def"].
Proof. vm_compute. reflexivity. Qed.

Example findall_bracket :
  PyRe.findall "^\[(.*)\]" status_flags
               ("[10.0.0.1] node1" ++ nl ++ "x [no]" ++ nl ++ "[10.0.0.2] [b] node2" ++ nl)
  = Some [PyRe.FStr "10.0.0.1"; PyRe.FStr "10.0.0.2] [b"].
Proof. vm_compute. reflexivity. Qed.

Example findall_alternation :
  PyRe.findall "a|b" copypaste_flags "cab" = Some [PyRe.FStr "a"; PyRe.FStr "b"].
Proof. vm_compute. reflexivity. Qed.

Example findall_two_groups :
  PyRe.findall "(a)(b)?" copypaste_flags "ab a"
  = Some [PyRe.FTuple ["a"; "b"]; PyRe.FTuple ["a"; ""]].
Proof. vm_compute. reflexivity. Qed.

Example findall_empty_matches :
  PyRe.findall "x*" copypaste_flags "axxb"
  = Some [PyRe.FStr ""; PyRe.FStr "xx"; PyRe.FStr ""; PyRe.FStr ""].
Proof. vm_compute. reflexivity. Qed.

Example findall_lazy :
  PyRe.findall "<.*?>" copypaste_flags "<a><b>" = Some [PyRe.FStr "<a>"; PyRe.FStr "<b>"].
Proof. vm_compute. reflexivity. Qed.

Example findall_negated_class :
  PyRe.findall "[^,]+" copypaste_flags "a,b" = Some [PyRe.FStr "a"; PyRe.FStr "b"].
Proof. vm_compute. reflexivity. Qed.

Example findall_dot_stops_at_line_feed :
  PyRe.findall "a.*" status_flags ("ab" ++ nl ++ "ac") = Some [PyRe.FStr "ab"; PyRe.FStr "ac"].
Proof. vm_compute. reflexivity. Qed.

Example findall_unsupported :
  PyRe.findall "a{2}" copypaste_flags "aa" = None.
Proof. vm_compute. reflexivity. Qed.

(* ------------------------------------------------------------------ *)
(** * [wait_for_prompt] *)

Lemma at_prompt_spec (screen : string) :
  at_prompt screen = true <-> shows_prompt screen.
Proof.
  unfold at_prompt, shows_prompt. rewrite orb_true_iff, !endswith_spec.
  split.
  - intros [[p H] | [p H]]; exists p; [left | right]; exact H.
  - intros [p [H | H]]; [left | right]; exists p; exact H.
Qed.

Lemma at_prompt_false (screen : string) :
  at_prompt screen = false <-> ~ shows_prompt screen.
Proof.
  rewrite <- at_prompt_spec. destruct (at_prompt screen); split; congruence.
Qed.

Lemma first_hit_least (test : string -> bool) (screens : nat -> string) (n start k : nat) :
  (k < n)%nat -> test (screens (start + k)%nat) = true ->
  (forall j, (j < k)%nat -> test (screens (start + j)%nat) = false) ->
  first_hit test screens start n = Some k.
Proof.
  intros L T B. destruct (first_hit_exists test screens n start k L T) as [k' F].
  destruct (first_hit_some _ _ _ _ _ F) as (L' & T' & B').
  destruct (Nat.lt_trichotomy k k') as [Hlt | [Heq | Hgt]].
  - rewrite (B' k Hlt) in T. discriminate.
  - now subst.
  - rewrite (B k' Hgt) in T'. discriminate.
Qed.

(** C7 (amended).  [wait_for_prompt] polls the screen once per second, at
    most sixty times.  It returns at the first poll whose capture, once its
    trailing line feeds are trimmed, ends with a line feed followed by [$]
    or with a line feed followed by [/ #] (a last line that is exactly [$]
    or [/ #]), after one second of sleep for every earlier poll.  When none
    of the sixty polls shows that, it raises the exception "Timed out while
    waiting for prompt!" once the sixty seconds have passed. *)
Theorem wait_for_prompt_returns_iff (env : Env) (m : Machine) :
  (fst (wait_for_prompt env m) = Ok tt <->
   exists k, (k < 60)%nat /\ shows_prompt (tmux_capture env (captures m + k)%nat)) /\
  (fst (wait_for_prompt env m) = Raise (Exception "Timed out while waiting for prompt!") <->
   forall k, (k < 60)%nat -> ~ shows_prompt (tmux_capture env (captures m + k)%nat)) /\
  (forall k, (k < 60)%nat ->
     shows_prompt (tmux_capture env (captures m + k)%nat) ->
     (forall j, (j < k)%nat -> ~ shows_prompt (tmux_capture env (captures m + j)%nat)) ->
     wait_for_prompt env m = (Ok tt, after_polls env m k true)) /\
  ((forall k, (k < 60)%nat -> ~ shows_prompt (tmux_capture env (captures m + k)%nat)) ->
   wait_for_prompt env m
   = (Raise (Exception "Timed out while waiting for prompt!"), after_polls env m 60 false)).
Proof.
  rewrite wait_for_prompt_spec.
  destruct (first_hit at_prompt (tmux_capture env) (captures m) 60) as [k |] eqn:F.
  - destruct (first_hit_some _ _ _ _ _ F) as (L & T & B).
    assert (Hk : exists k, (k < 60)%nat /\ shows_prompt (tmux_capture env (captures m + k)%nat))
      by (exists k; split; [exact L | now apply at_prompt_spec]).
    repeat split.
    + intros _. exact Hk.
    + discriminate.
    + intros H. destruct Hk as (k0 & L0 & S0). elim (H k0 L0 S0).
    + intros k0 L0 S0 B0. f_equal. f_equal.
      assert (E : Some k = Some k0); [| now inversion E].
      rewrite <- F. apply first_hit_least; auto.
      * now apply at_prompt_spec.
      * intros j Hj. apply at_prompt_false. now apply B0.
    + intros H. destruct Hk as (k0 & L0 & S0). elim (H k0 L0 S0).
  - pose proof (first_hit_none _ _ _ _ F) as N.
    assert (Hn : forall k, (k < 60)%nat ->
                           ~ shows_prompt (tmux_capture env (captures m + k)%nat))
      by (intros k L; apply at_prompt_false; now apply N).
    repeat split.
    + discriminate.
    + intros (k & L & S0). elim (Hn k L S0).
    + intros _. exact Hn.
    + intros k L S0 _. elim (Hn k L S0).
Qed.

(** A prompt that shows at the third capture is seen after two seconds. *)
Lemma wait_for_prompt_returns_iff_witness :
  wait_for_prompt (Demo.turning 2 "make" (nl ++ "$")) (boot Missing)
  = (Ok tt, after_polls (Demo.turning 2 "make" (nl ++ "$")) (boot Missing) 2 true).
Proof.
  apply (proj1 (proj2 (proj2
           (wait_for_prompt_returns_iff (Demo.turning 2 "make" (nl ++ "$")) (boot Missing))))).
  - lia.
  - exists "". left. reflexivity.
  - intros j Hj. apply at_prompt_false.
    destruct j as [| [| j]]; [reflexivity | reflexivity | lia].
Defined.

(** A screen whose last line ends in [$] without being [$] alone is no
    prompt for the program: it times out on it. *)
Lemma wait_for_prompt_sentinel_line_fails :
  ~ (forall env m,
        fst (wait_for_prompt env m) = Ok tt <->
        exists k, (k < 60)%nat /\
                  ends_in_sentinel_line (tmux_capture env (captures m + k)%nat) = true).
Proof.
  intros H.
  assert (E : fst (wait_for_prompt (Demo.still "docker@node1:~$") (boot Missing)) = Ok tt).
  { apply H. exists 0%nat. split; [lia | reflexivity]. }
  vm_compute in E. discriminate.
Qed.

(* ------------------------------------------------------------------ *)
(** * The state file *)

Lemma State_load_dump (s : State) (m : Machine) :
  state_yaml m = Document (dump s) ->
  fst (State_load m) = Ok tt /\ state (snd (State_load m)) = s.
Proof.
  intros F. unfold State_load, bind, read_file. rewrite F.
  destruct s as [i v t n]. split; reflexivity.
Qed.

Lemma load_state_dump (s : State) (m : Machine) :
  state_yaml m = Document (dump s) ->
  fst (load_state m) = Ok tt /\ state (snd (load_state m)) = resumed s.
Proof.
  intros F. unfold load_state, try_except, bind at 1, State_load, bind, read_file. rewrite F.
  destruct s as [i v t n]. split; reflexivity.
Qed.

(** C10.  A state whose cursor lies in [0, len(actions)], with any three
    flags, is read back by [State.load] exactly as [State.save] wrote it,
    whatever the state object held before the load. *)
Theorem save_load_roundtrip (actions : list Action) (m m' : Machine) :
  0 <= next_step (state m) <= Z.of_nat (List.length actions) ->
  state_yaml m' = state_yaml (snd (State_save m)) ->
  fst (State_load m') = Ok tt /\ state (snd (State_load m')) = state m.
Proof.
  intros _ F. apply State_load_dump. rewrite F. reflexivity.
Qed.

Lemma save_load_roundtrip_witness :
  state (snd (State_load (snd (State_save (Demo.machine_of (Demo.unattended true 1))))))
  = Demo.unattended true 1.
Proof.
  apply (save_load_roundtrip
           [ {| slide := 1; method := "bash"; data := "true" |} ]
           (Demo.machine_of (Demo.unattended true 1))
           (snd (State_save (Demo.machine_of (Demo.unattended true 1))))).
  - simpl. lia.
  - reflexivity.
Defined.

(** The round trip does not depend on the range of the cursor. *)
Lemma save_load_any_cursor (m : Machine) :
  (State_save ;; State_load) m
  = (Ok tt, snd (State_save m)).
Proof.
  destruct m as [[i v t n] sl f cl ca ke pr uu ra tr]. reflexivity.
Qed.

(* ------------------------------------------------------------------ *)
(** * The cursor *)

Lemma iteration_turn (env : Env) (fuel : nat) (actions : list Action) (m : Machine) :
  after env (running actions m) m (snd (iteration env fuel actions m)) /\
  (fst (iteration env fuel actions m) = Ok Break -> exists k, click_getchar env k = "q").
Proof.
  destruct (iteration_effect env fuel actions m m eq_refl) as [H1 H2].
  split; [exact H1 | intros E; now apply (H2 Break)].
Qed.

Lemma main_loop_step (env : Env) (f : nat) (actions : list Action) (m : Machine) :
  main_loop env (S f) actions m
  = if next_step (state m) <? Z.of_nat (List.length actions)
    then match iteration env f actions m with
         | (Ok Continue, m1) => main_loop env f actions m1
         | (Ok Break, m1) => (Ok tt, m1)
         | (Raise e, m1) => (Raise e, m1)
         | (OutOfFuel, m1) => (OutOfFuel, m1)
         end
    else (Ok tt, m).
Proof.
  cbn [main_loop]. unfold bind, get_state.
  destruct (next_step (state m) <? Z.of_nat (List.length actions)); [| reflexivity].
  destruct (iteration env f actions m) as [[[|] | e |] m1]; reflexivity.
Qed.

(** C8.  A turn of the loop starts by writing the whole state (the cursor
    and the three flags) to the file, and writes the file no more: while
    the action runs, the file holds the cursor of the turn, which is the
    index at which the action that runs was taken from the list.  A restart
    from that file resumes at this cursor, with [interactive] forced on. *)
Theorem state_saved_before_action (env : Env) (fuel : nat) (actions : list Action)
        (m : Machine) :
  let m' := snd (iteration env fuel actions m) in
  (exists evs,
      trace m' = (trace m ++ EvSave (state m) :: evs)%list /\
      Forall (fun e => is_save e = false) evs /\
      forall mth d,
        In (EvLog INFO "Running with method {}: {}" [mth; d]) evs ->
        exists a, py_index actions (next_step (state m)) = Ok a /\ method a = mth) /\
  state_yaml m' = Document (dump (state m)) /\
  fst (load_state (boot (state_yaml m'))) = Ok tt /\
  state (snd (load_state (boot (state_yaml m')))) = resumed (state m).
Proof.
  intros m'. destruct (iteration_turn env fuel actions m) as [[(F & evs & T & HQ) _] _].
  fold m' in F, T. split; [| split; [exact F | now apply load_state_dump]].
  exists evs. split; [exact T |]. split.
  - eapply Forall_impl; [| exact HQ]. intros e [H _]. exact H.
  - intros mth d Hin. rewrite Forall_forall in HQ.
    destruct (HQ _ Hin) as [_ H]. exact (H mth d eq_refl).
Qed.

Example two_action_run_completes :
  fst (main_loop (Demo.operator (nl ++ "$") ["z"]) 6
                 [ {| slide := 1; method := "bash"; data := "echo hi" |};
                   {| slide := 1; method := "wait"; data := "$" |} ]
                 (boot Missing)) = Ok tt.
Proof. vm_compute. reflexivity. Qed.

(** A retreat at cursor 0 leaves the range: the cursor becomes -1. *)
Lemma cursor_leaves_range :
  ~ (forall env fuel actions m,
        0 <= next_step (state m) <= Z.of_nat (List.length actions) ->
        0 <= next_step (state (snd (iteration env fuel actions m)))
        <= Z.of_nat (List.length actions)).
Proof.
  intros H.
  specialize (H (Demo.env_of (fun _ => nl ++ "$")
                             (fun k => match k with O => "z" | _ => "p" end)
                             (fun _ => 0))
                3%nat [ {| slide := 1; method := "bash"; data := "true" |} ]
                (boot Missing)).
  vm_compute in H. destruct H as [H _]; [split; discriminate | apply H; reflexivity].
Qed.

(** A jump takes the cursor wherever the operator says. *)
Lemma jump_leaves_range :
  next_step
    (state (snd (iteration
                   (Demo.env_of (fun _ => nl ++ "$")
                                (fun k => match k with O => "z" | _ => "g" end)
                                (fun _ => 99))
                   3 [ {| slide := 1; method := "bash"; data := "true" |} ]
                   (boot Missing))))
  = 99.
Proof. vm_compute. reflexivity. Qed.

(* ------------------------------------------------------------------ *)
(** * The [bash] method *)

Lemma py_index_end {A : Type} (l : list A) : py_index l (Z.of_nat (List.length l)) = Raise IndexError.
Proof.
  unfold py_index.
  replace (Z.of_nat (List.length l) <? 0) with false by (symmetry; apply Z.ltb_ge; lia).
  replace (Z.of_nat (List.length l) <? Z.of_nat (List.length l)) with false
    by (symmetry; apply Z.ltb_ge; lia).
  now rewrite andb_false_r.
Qed.

Lemma py_last_app {A : Type} (l : list A) (x : A) : py_last (l ++ [x]) = Ok x.
Proof.
  unfold py_last, py_index. rewrite length_app. cbn [List.length].
  replace (-1 <? 0) with true by reflexivity.
  replace (0 <=? Z.of_nat (List.length l + 1) + -1) with true by (symmetry; apply Z.leb_le; lia).
  replace (Z.of_nat (List.length l + 1) + -1 <? Z.of_nat (List.length l + 1)) with true
    by (symmetry; apply Z.ltb_lt; lia).
  cbn [andb].
  replace (Z.to_nat (Z.of_nat (List.length l + 1) + -1)) with (List.length l) by lia.
  rewrite nth_error_app2 by lia. rewrite Nat.sub_diag. reflexivity.
Qed.

Lemma state_after_prompt (env : Env) (m : Machine) :
  state (snd (wait_for_prompt env m)) = state m.
Proof.
  destruct (wait_for_prompt_stays env (fun _ => True) (fun _ => I) (fun _ => I) m) as [H _].
  exact H.
Qed.

Lemma state_after_send (env : Env) (keys : string) (m : Machine) :
  state (snd (send_keys env keys m)) = state m.
Proof.
  destruct (send_keys_stays env (fun _ => True) (fun _ => I) (fun _ => I) keys m) as [H _].
  exact H.
Qed.

(** What the [bash] branch does, the look-ahead left as in the program. *)
Lemma dispatch_bash (env : Env) (actions : list Action) (payload : string) (m : Machine)
      (r : res Action) :
  py_index actions (next_step (state m) + 1) = r ->
  dispatch env actions "bash" payload m
  = bash_protocol env payload (next <- lift r ;; bash_completion env next) m.
Proof.
  intros Hr. unfold dispatch, bash_protocol. simpl (String.eqb "bash" _). cbv iota.
  apply bind_cong. intros [] m1 E1.
  apply bind_cong. intros [] m2 E2.
  apply bind_cong. intros [] m3 E3.
  assert (S3 : state m3 = state m).
  { inversion E3; subst m3. fields.
    pose proof (state_after_send env (sub_nl_spaces payload ++ nl) m1) as S2.
    rewrite E2 in S2. cbn [snd] in S2. rewrite S2.
    pose proof (state_after_prompt env m) as S1. rewrite E1 in S1. exact S1. }
  unfold bind at 1. unfold get_state at 1. rewrite S3, Hr.
  unfold bind, lift. destruct r as [[sl mth dat] | e |]; reflexivity.
Qed.

Lemma append_empty_r (s : string) : s ++ "" = s.
Proof. induction s as [| c s IH]; simpl; [reflexivity | now rewrite IH]. Qed.

Lemma append_assoc (a b c : string) : (a ++ b) ++ c = a ++ b ++ c.
Proof. induction a as [| x a IH]; simpl; [reflexivity | now rewrite IH]. Qed.

Lemma sub_nl_spaces_line (l t : string) :
  no_nl l = true ->
  sub_nl_spaces_from false (l ++ t) = l ++ sub_nl_spaces_from false t.
Proof.
  induction l as [| c l IH]; intros H; [reflexivity |].
  cbn [no_nl] in H. apply andb_true_iff in H. destruct H as [Hc Hl].
  apply negb_true_iff in Hc. cbn [append sub_nl_spaces_from andb].
  rewrite Hc, (IH Hl). reflexivity.
Qed.

Lemma sub_nl_spaces_after_nl (s : string) :
  sub_nl_spaces_from true s = sub_nl_spaces_from false (drop_spaces s).
Proof.
  induction s as [| c s IH]; [reflexivity |].
  cbn [sub_nl_spaces_from drop_spaces andb].
  destruct (Ascii.eqb c " "); [exact IH | reflexivity].
Qed.

Lemma drop_spaces_line (l t : string) :
  drop_spaces (l ++ String nl_char t) = drop_spaces l ++ String nl_char t.
Proof.
  induction l as [| c l IH]; [reflexivity |].
  cbn [append drop_spaces]. destruct (Ascii.eqb c " "); [exact IH | reflexivity].
Qed.

Lemma no_nl_drop_spaces (l : string) : no_nl l = true -> no_nl (drop_spaces l) = true.
Proof.
  induction l as [| c l IH]; intros H; [reflexivity |].
  cbn [drop_spaces]. destruct (Ascii.eqb c " "); [| exact H].
  cbn [no_nl] in H. apply andb_true_iff in H. now apply IH.
Qed.

Lemma drop_spaces_unlines (l : string) (ls : list string) :
  drop_spaces (unlines (l :: ls)) = unlines (drop_spaces l :: ls).
Proof.
  destruct ls as [| l1 ls]; [reflexivity |].
  cbn [unlines]. unfold nl. cbn [append]. apply drop_spaces_line.
Qed.

(** [re.sub("\n +", "\n", s)] on a text given by its lines: every line but
    the first loses its leading spaces. *)
Lemma sub_nl_spaces_unlines (ls : list string) (l : string) :
  forallb no_nl (l :: ls) = true ->
  sub_nl_spaces (unlines (l :: ls)) = unlines (l :: map drop_spaces ls).
Proof.
  unfold sub_nl_spaces. revert l. induction ls as [| l1 ls IH]; intros l H.
  - cbn [forallb] in H. rewrite andb_true_r in H. cbn [unlines map].
    rewrite <- (append_empty_r l) at 1. rewrite (sub_nl_spaces_line l "" H).
    apply append_empty_r.
  - cbn [forallb] in H. apply andb_true_iff in H. destruct H as [Hl H].
    change (unlines (l :: l1 :: ls)) with (l ++ nl ++ unlines (l1 :: ls)).
    change (unlines (l :: map drop_spaces (l1 :: ls)))
      with (l ++ nl ++ unlines (drop_spaces l1 :: map drop_spaces ls)).
    rewrite (sub_nl_spaces_line l _ Hl). f_equal.
    unfold nl. cbn [append sub_nl_spaces_from andb]. rewrite Ascii.eqb_refl. f_equal.
    rewrite sub_nl_spaces_after_nl, drop_spaces_unlines. apply IH.
    cbn [forallb] in *. apply andb_true_iff in H. destruct H as [H1 H2].
    rewrite (no_nl_drop_spaces _ H1). exact H2.
Qed.



Lemma type_keys_ok (env : Env) (data : string) (m : Machine) :
  exists m1, type_keys env data m = (Ok tt, m1) /\
             state m1 = state m /\ captures m1 = captures m.
Proof.
  revert m. induction data as [| c rest IH]; intros m.
  - eexists. split; [reflexivity | split; reflexivity].
  - cbn [type_keys].
    set (key := if Ascii.eqb c ";" then "\;" else String c "").
    destruct (String.eqb key nl).
    + match goal with
      | |- exists m1, bind _ (fun _ => bind _ (fun _ => bind _ (fun d => bind _ (fun _ =>
             bind _ (fun _ => type_keys env rest))))) m = _ /\ _ =>
          idtac
      end.
      unfold bind at 1 2 3 4 5. unfold time_sleep, emit, random_delay. fields.
      match goal with |- context [type_keys env rest ?m'] => destruct (IH m') as (m1 & E & S1 & C1) end.
      exists m1. split; [exact E | split; assumption].
    + unfold bind at 1 2 3 4 5. unfold time_sleep, emit, random_delay, ret. fields.
      match goal with |- context [type_keys env rest ?m'] => destruct (IH m') as (m1 & E & S1 & C1) end.
      exists m1. split; [exact E | split; assumption].
Qed.

Lemma send_keys_ok (env : Env) (data : string) (m : Machine) :
  data <> "" ->
  exists m1, send_keys env data m = (Ok tt, m1) /\
             state m1 = state m /\ captures m1 = captures m.
Proof.
  intros Hd. unfold send_keys, bind at 1, get_state at 1.
  destruct data as [| c rest]; [now elim Hd |].
  destruct (simulate_type (state m)).
  - unfold bind at 1, ret at 1. destruct (negb (Ascii.eqb c "^")).
    + apply type_keys_ok.
    + eexists. split; [reflexivity | split; reflexivity].
  - unfold bind at 1, ret at 1. eexists. split; [reflexivity | split; reflexivity].
Qed.



(** A terminal that shows "hi" and no prompt after the send: the run ends
    with the cursor at 2.  A terminal that keeps showing a prompt and no
    "hi": the run times out on "hi". *)
Example two_action_traces :
  let start := Demo.machine_of (Demo.unattended false 0) in
  let shows_hi := Demo.turning 1 (nl ++ "$") ("$ echo hi" ++ nl ++ "hi") in
  let keeps_prompt := Demo.still (nl ++ "$") in
  fst (main_loop shows_hi 4 hi_deck start) = Ok tt /\
  next_step (state (snd (main_loop shows_hi 4 hi_deck start))) = 2 /\
  added start (snd (iteration shows_hi 3 hi_deck start))
  = [ EvSave (Demo.unattended false 0);
      EvGotoSlide 1; EvWorkspace 3; EvWorkspace 1; EvWorkspace 2; EvWorkspace 1;
      EvLog INFO "Running with method {}: {}" ["bash"; "echo hi"];
      EvCapture (nl ++ "$");
      EvSendKeys ("echo hi" ++ nl);
      EvSleep 500;
      EvCapture ("$ echo hi" ++ nl ++ "hi") ] /\
  fst (main_loop keeps_prompt 4 hi_deck start)
  = Raise (Exception "Timed out while waiting for hi!") /\
  next_step (state (snd (main_loop keeps_prompt 4 hi_deck start))) = 0.
Proof. vm_compute. repeat split; reflexivity. Qed.

(* ------------------------------------------------------------------ *)
(** * [check_exit_status] *)



Example exit_status_zero :
  fst (check_exit_status (Demo.still (Demo.answered "0"))
                         (Demo.machine_of (Demo.unattended true 0))) = Ok tt.
Proof. vm_compute. reflexivity. Qed.

Example exit_status_one :
  fst (check_exit_status (Demo.still (Demo.answered "1"))
                         (Demo.machine_of (Demo.unattended true 0)))
  = Raise (Exception "Non-zero exit status: 1.").
Proof. vm_compute. reflexivity. Qed.

Example exit_status_missing :
  fst (check_exit_status (Demo.still (nl ++ "$"))
                         (Demo.machine_of (Demo.unattended true 0)))
  = Raise (Exception
             "Couldn't retrieve status code 0123456789abcdef0123456789abcdef. Timed out?").
Proof. vm_compute. reflexivity. Qed.

Example exit_status_twice :
  fst (check_exit_status
         (Demo.still (Demo.answered "0" ++ " true" ++ nl
                      ++ "0123456789abcdef0123456789abcdef 0" ++ nl ++ "$"))
         (Demo.machine_of (Demo.unattended true 0)))
  = Raise (Exception
             ("More than one status code 0123456789abcdef0123456789abcdef. "
              ++ "I'm seeing double! Shoot them both.")).
Proof. vm_compute. reflexivity. Qed.

Example exit_status_adjacent_lines :
  re_findall (Demo.still "") (nl ++ "t" ++ " ([0-9]+)" ++ nl) status_flags
             ("$ echo t $?" ++ nl ++ "t 0" ++ nl ++ "t 1" ++ nl ++ "$")
  = Some [PyRe.FStr "0"].
Proof. vm_compute. reflexivity. Qed.

(* ------------------------------------------------------------------ *)
(** * The [copypaste] method *)

Lemma replace_nl_no_nl (s : string) : no_nl (replace nl "" s) = true.
Proof.
  unfold replace, nl. induction s as [| c s IH]; [reflexivity |].
  cbn [replace_from startswith String.length Nat.sub append].
  rewrite andb_true_r, Ascii.eqb_sym.
  destruct (Ascii.eqb c nl_char) eqn:E; [exact IH |].
  cbn [no_nl]. rewrite E. exact IH.
Qed.

Example copypaste_two_matches :
  added (Demo.machine_of (Demo.unattended false 0))
        (snd (dispatch (Demo.still ("id: abc" ++ nl ++ "id: def" ++ nl ++ "$")) []
                       "copypaste" "id: (\w+)" (Demo.machine_of (Demo.unattended false 0))))
  = [ EvCapture ("id: abc" ++ nl ++ "id: def" ++ nl ++ "$");
      EvSendKeys ("def" ++ nl);
      EvCapture ("id: abc" ++ nl ++ "id: def" ++ nl ++ "$") ].
Proof. vm_compute. reflexivity. Qed.

Example copypaste_no_match :
  fst (dispatch (Demo.still (nl ++ "$")) [] "copypaste" "id: (\w+)"
                (Demo.machine_of (Demo.unattended false 0)))
  = Raise (Exception "Could not find regex id: (\w+) in output.").
Proof. vm_compute. reflexivity. Qed.

(* ------------------------------------------------------------------ *)
(** * Sending after a prompt *)

Lemma skipn_length_app {A : Type} (l x : list A) : skipn (List.length l) (l ++ x) = x.
Proof. induction l as [| a l IH]; [reflexivity | exact IH]. Qed.

Lemma added_app (m m' : Machine) (evs : list event) :
  trace m' = (trace m ++ evs)%list -> added m m' = evs.
Proof. intros T. unfold added. rewrite T. apply skipn_length_app. Qed.

Lemma guarded_seen (evs : list event) : guarded true evs = true.
Proof. induction evs as [| e evs IH]; [reflexivity | destruct e; exact IH]. Qed.

Lemma guarded_quiet (seen : bool) (evs : list event) :
  Forall (fun e => is_send e = false) evs -> guarded seen evs = true.
Proof.
  intros H. revert seen. induction H as [| e evs He _ IH]; intros seen; [reflexivity |].
  destruct e; try apply IH. discriminate He.
Qed.

Lemma guarded_after_prompt (seen : bool) (pre post : list event) (screen : string) :
  Forall (fun e => is_send e = false) pre ->
  at_prompt screen = true ->
  guarded seen (pre ++ EvCapture screen :: post) = true.
Proof.
  intros H P. revert seen. induction H as [| e evs He _ IH]; intros seen.
  - cbn [app guarded]. rewrite P, orb_true_r. apply guarded_seen.
  - destruct e; try apply IH. discriminate He.
Qed.

Lemma poll_events_quiet (screens : nat -> string) (start k : nat) :
  Forall (fun e => is_send e = false) (poll_events screens start k).
Proof.
  revert start. induction k as [| k IH]; intros start; [constructor |].
  cbn [poll_events]. repeat constructor. apply IH.
Qed.

Lemma bash_completion_stays (env : Env) (r : res Action) :
  stays (fun _ => True) (next <- lift r ;; bash_completion env next).
Proof.
  unfold bash_completion.
  repeat (stays_step;
          auto using wait_for_string_stays, wait_for_prompt_stays, check_exit_status_stays).
Qed.

Lemma dispatch_open_quiet (env : Env) (actions : list Action) (payload : string) :
  stays (fun e => is_send e = false) (dispatch env actions "open" payload).
Proof.
  unfold dispatch, global_status. simpl (String.eqb "open" _). cbv iota.
  repeat (stays_step;
          auto using capture_pane_stays, findall_stays, emit_stays, focus_browser_stays,
                     getchar_stays).
Qed.

(** C5 (amended).  A [bash] action sends nothing to the terminal before a
    capture has shown a prompt, and an [open] action sends nothing to the
    terminal at all.  (A [copypaste] action, like a [keys] action, sends
    without a prompt shown first: its wait for a prompt comes after the
    send.) *)
Theorem no_send_before_prompt (env : Env) (actions : list Action) (payload : string)
        (m : Machine) :
  guarded false (added m (snd (dispatch env actions "bash" payload m))) = true /\
  forallb (fun e => negb (is_send e))
          (added m (snd (dispatch env actions "open" payload m))) = true.
Proof.
  split.
  - rewrite (dispatch_bash env actions payload m _ eq_refl).
    unfold bash_protocol. unfold bind at 1. rewrite wait_for_prompt_spec.
    destruct (first_hit at_prompt (tmux_capture env) (captures m) 60) as [k |] eqn:F.
    + destruct (first_hit_some _ _ _ _ _ F) as (_ & P & _).
      match goal with
      | |- context [snd (?c (after_polls env m k true))] =>
          assert (S : steady (fun _ => True) (after_polls env m k true)
                             (snd (c (after_polls env m k true))))
      end.
      { apply (keeps_bind _ (steady_trans _)).
        - apply send_keys_stays; auto.
        - intros _. apply (keeps_bind _ (steady_trans _)).
          + apply time_sleep_stays; auto.
          + intros _. apply bash_completion_stays. }
      destruct S as (_ & _ & evs & T & _).
      rewrite (added_app _ _ (poll_events (tmux_capture env) (captures m) k
                              ++ EvCapture (tmux_capture env (captures m + k)) :: evs)).
      * apply guarded_after_prompt; [apply poll_events_quiet | exact P].
      * rewrite T. unfold after_polls. fields. now rewrite <- !app_assoc.
    + cbn [snd]. rewrite (added_app _ _ (poll_events (tmux_capture env) (captures m) 60)).
      * apply guarded_quiet, poll_events_quiet.
      * unfold after_polls. fields. now rewrite app_nil_r.
  - destruct (dispatch_open_quiet env actions payload m) as (_ & _ & evs & T & H).
    rewrite (added_app _ _ evs T). apply forallb_forall. intros e He.
    rewrite Forall_forall in H. now rewrite (H e He).
Qed.

(** On a screen without a prompt, [copypaste] sends what it found. *)
Lemma copypaste_sends_unprompted :
  ~ (forall env actions mth payload m,
        mth <> "keys" ->
        guarded false (added m (snd (dispatch env actions mth payload m))) = true).
Proof.
  intros H.
  specialize (H (Demo.still ("id: abc" ++ nl ++ "pulling image")) []
                "copypaste" "id: (\w+)" (Demo.machine_of (Demo.unattended false 0))).
  assert (N : "copypaste" <> "keys") by discriminate.
  specialize (H N). vm_compute in H. discriminate H.
Qed.

Example copypaste_unprompted_trace :
  firstn 2 (added (Demo.machine_of (Demo.unattended false 0))
                  (snd (dispatch (Demo.still ("id: abc" ++ nl ++ "pulling image")) []
                                 "copypaste" "id: (\w+)"
                                 (Demo.machine_of (Demo.unattended false 0)))))
  = [ EvCapture ("id: abc" ++ nl ++ "pulling image"); EvSendKeys ("abc" ++ nl) ].
Proof. vm_compute. reflexivity. Qed.

(* ------------------------------------------------------------------ *)
(** * The [open] method *)

Lemma bind_never {A B : Type} (c : M A) (k : A -> M B) (m : Machine) (b : B) :
  (forall a m1, fst (k a m1) <> Ok b) -> fst (bind c k m) <> Ok b.
Proof.
  intros H. unfold bind. destruct (c m) as [[a | e |] m1]; [apply H | discriminate ..].
Qed.

Lemma dispatch_open_never_returns (env : Env) (actions : list Action) (payload : string)
      (m : Machine) :
  fst (dispatch env actions "open" payload m) <> Ok tt.
Proof.
  unfold dispatch, global_status. simpl (String.eqb "open" _). cbv iota.
  do 5 (apply bind_never; intros ? ?).
  unfold bind, raise. discriminate.
Qed.

Ltac find_event :=
  repeat match goal with |- _ \/ _ => first [left; reflexivity | right] end.

(** C6 (the failing input).  An [open] action on a screen that shows a
    bracketed address: the URL is built and opened, the browser gets the
    focus, and then the read of the unbound name [status] raises
    [NameError]; no key is awaited after the command key, and the cursor
    stays at the action, with [interactive] on as with it off. *)
Theorem open_raises_name_error :
  let deck := [ {| slide := 1; method := "open"; data := "http://node1:8000/" |} ] in
  let env := Demo.operator ("[10.0.0.7] node1" ++ nl ++ "$") ["z"; "y"] in
  let attended := main_loop env 3 deck (boot Missing) in
  let unattended := main_loop env 3 deck (Demo.machine_of (Demo.unattended false 0)) in
  fst attended = Raise (NameError "status") /\
  next_step (state (snd attended)) = 0 /\
  keypresses (snd attended) = 2%nat /\
  In (EvOpen "http://10.0.0.7:8000/") (trace (snd attended)) /\
  fst unattended = Raise (NameError "status") /\
  next_step (state (snd unattended)) = 0 /\
  keypresses (snd unattended) = 0%nat /\
  In (EvOpen "http://10.0.0.7:8000/") (trace (snd unattended)).
Proof.
  vm_compute. repeat split; try reflexivity; find_event.
Qed.

(* ------------------------------------------------------------------ *)
(** * Loading the state *)

Lemma total_bind {A B : Type} (c : M A) (k : A -> M B) :
  total c -> (forall a, total (k a)) -> total (bind c k).
Proof.
  intros Hc Hk m. unfold bind. specialize (Hc m).
  destruct (c m) as [[a | e |] m1]; [apply Hk | discriminate | now elim Hc].
Qed.

Lemma total_lift {A : Type} (r : res A) : r <> OutOfFuel -> total (lift r).
Proof. intros H m. exact H. Qed.

Lemma py_getitem_total (d : value) (key : string) : py_getitem d key <> OutOfFuel.
Proof.
  destruct d; try discriminate. unfold py_getitem. destruct (assoc key kv); discriminate.
Qed.

Lemma py_int_total (v : value) : py_int v <> OutOfFuel.
Proof.
  destruct v; try discriminate. unfold py_int. destruct (int_of_str s); discriminate.
Qed.

Lemma State_load_total : total State_load.
Proof.
  unfold State_load.
  apply total_bind; [discriminate | intros f].
  apply total_bind; [destruct f; discriminate | intros d].
  repeat (apply total_bind;
          [first [apply total_lift, py_getitem_total | apply total_lift, py_int_total
                 | discriminate] | intros ?]).
  discriminate.
Qed.

(** The load is recovered from: [load_state] always returns. *)
Lemma load_state_recovers (m : Machine) : fst (load_state m) = Ok tt.
Proof.
  unfold load_state, try_except.
  assert (T : total (State_load ;;
                     logging INFO "Successfully loaded state from file." [] ;;
                     set_interactive true)).
  { apply total_bind; [apply State_load_total | intros _].
    apply total_bind; [discriminate | intros _]. discriminate. }
  specialize (T m).
  destruct ((State_load ;;
             logging INFO "Successfully loaded state from file." [] ;;
             set_interactive true) m) as [[[] | e |] m1]; [reflexivity .. | ].
  now elim T.
Qed.

(** A load that fails before any field was read leaves the state alone. *)
Lemma load_state_nothing_read (m : Machine) :
  match state_yaml m with
  | Missing | Unparsable => True
  | Document d => py_getitem d "interactive" <> Ok (VBool true) /\
                  forall v, py_getitem d "interactive" <> Ok v
  end ->
  state (snd (load_state m)) = state m.
Proof.
  unfold load_state, try_except, bind at 1, State_load, bind, read_file.
  destruct (state_yaml m) as [| | d]; try reflexivity.
  intros [_ H]. cbn [ret]. unfold lift.
  destruct (py_getitem d "interactive") as [v1 | e |]; try reflexivity.
  elim (H v1 eq_refl).
Qed.

(** C9 (the failing input).  A state file cut short after two of its
    lines: the load reads [interactive: false], fails on the missing
    [verify_status], and the run goes on with [interactive] off, which is
    not the default state. *)
Theorem load_state_keeps_partial_record :
  let cut_short := Document (VDict [("interactive", VBool false); ("next_step", VInt 3)]) in
  fst (load_state (boot cut_short)) = Ok tt /\
  state (snd (load_state (boot cut_short)))
  = {| interactive := false; verify_status := false; simulate_type := true; next_step := 0 |} /\
  state (snd (load_state (boot cut_short))) <> State_init /\
  In (EvLog WARNING "Using default values." []) (trace (snd (load_state (boot cut_short)))).
Proof.
  vm_compute. repeat split; try reflexivity; try discriminate; find_event.
Qed.

(** A file whose [next_step] is no integer: the three flags of the file
    are kept. *)
Example load_state_keeps_flags :
  state (snd (load_state
                (boot (Document (VDict [("interactive", VBool false);
                                        ("verify_status", VBool true);
                                        ("simulate_type", VBool false);
                                        ("next_step", VStr "three")])))))
  = {| interactive := false; verify_status := true; simulate_type := false; next_step := 0 |}.
Proof. vm_compute. reflexivity. Qed.

Example load_state_missing_file :
  state (snd (load_state (boot Missing))) = State_init.
Proof. reflexivity. Qed.

(* ------------------------------------------------------------------ *)
(** * [wait_for_string] *)

(** X1.  [wait_for_string] with a timeout of [n] seconds polls the screen
    once per second, at most [n] times; it returns at the first poll whose
    capture contains the string, and raises "Timed out while waiting for
    <string>!" after [n] polls and [n] seconds when none does (at once,
    without a capture, when [n] is 0). *)
Theorem wait_for_string_returns_iff (env : Env) (s : string) (n : nat) (m : Machine) :
  (fst (wait_for_string env s (1000 * Z.of_nat n) m) = Ok tt <->
   exists k, (k < n)%nat /\ exists a b, tmux_capture env (captures m + k)%nat = a ++ s ++ b) /\
  (fst (wait_for_string env s (1000 * Z.of_nat n) m)
   = Raise (Exception ("Timed out while waiting for " ++ s ++ "!")) <->
   forall k, (k < n)%nat ->
             ~ exists a b, tmux_capture env (captures m + k)%nat = a ++ s ++ b) /\
  (forall k, (k < n)%nat ->
     (exists a b, tmux_capture env (captures m + k)%nat = a ++ s ++ b) ->
     (forall j, (j < k)%nat ->
                ~ exists a b, tmux_capture env (captures m + j)%nat = a ++ s ++ b) ->
     wait_for_string env s (1000 * Z.of_nat n) m = (Ok tt, after_polls env m k true)) /\
  ((forall k, (k < n)%nat ->
              ~ exists a b, tmux_capture env (captures m + k)%nat = a ++ s ++ b) ->
   wait_for_string env s (1000 * Z.of_nat n) m
   = (Raise (Exception ("Timed out while waiting for " ++ s ++ "!")),
      after_polls env m n false)).
Proof.
  assert (No : forall x, contains s x = false <-> ~ exists a b, x = a ++ s ++ b).
  { intros x. rewrite <- contains_spec. destruct (contains s x); split; congruence. }
  rewrite wait_for_string_spec.
  destruct (first_hit (contains s) (tmux_capture env) (captures m) n) as [k |] eqn:F.
  - destruct (first_hit_some _ _ _ _ _ F) as (L & T & B).
    assert (Hk : exists k, (k < n)%nat /\
                           exists a b, tmux_capture env (captures m + k)%nat = a ++ s ++ b)
      by (exists k; split; [exact L | now apply contains_spec]).
    repeat split.
    + intros _. exact Hk.
    + discriminate.
    + intros H. destruct Hk as (k0 & L0 & S0). elim (H k0 L0 S0).
    + intros k0 L0 S0 B0. f_equal. f_equal.
      assert (E : Some k = Some k0); [| now inversion E].
      rewrite <- F. apply first_hit_least; auto.
      * now apply contains_spec.
      * intros j Hj. apply No. now apply B0.
    + intros H. destruct Hk as (k0 & L0 & S0). elim (H k0 L0 S0).
  - pose proof (first_hit_none _ _ _ _ F) as N.
    assert (Hn : forall k, (k < n)%nat ->
                           ~ exists a b, tmux_capture env (captures m + k)%nat = a ++ s ++ b)
      by (intros k L; apply No; now apply N).
    repeat split.
    + discriminate.
    + intros (k & L & S0). elim (Hn k L S0).
    + intros _. exact Hn.
    + intros k L S0 _. elim (Hn k L S0).
Qed.

Lemma wait_for_string_returns_iff_witness :
  wait_for_string (Demo.turning 3 "pulling" "pulled: done") "done" (1000 * Z.of_nat 60)
                  (boot Missing)
  = (Ok tt, after_polls (Demo.turning 3 "pulling" "pulled: done") (boot Missing) 3 true).
Proof.
  apply (proj1 (proj2 (proj2
           (wait_for_string_returns_iff (Demo.turning 3 "pulling" "pulled: done") "done" 60
                                        (boot Missing))))).
  - lia.
  - exists "pulled: ", "". reflexivity.
  - intros j Hj. rewrite <- contains_spec.
    destruct j as [| [| [| j]]]; [vm_compute; discriminate .. | lia].
Defined.

(* ------------------------------------------------------------------ *)
(** * The prompt *)

Lemma rstrip_nl_newline (s : string) : rstrip_nl (s ++ String nl_char "") = rstrip_nl s.
Proof.
  induction s as [| c s IH]; [reflexivity |].
  cbn [append rstrip_nl]. rewrite IH. reflexivity.
Qed.

Lemma rstrip_nl_newlines (s : string) (k : nat) : rstrip_nl (s ++ newlines k) = rstrip_nl s.
Proof.
  revert s. induction k as [| k IH]; intros s; cbn [newlines].
  - now rewrite append_empty_r.
  - change (String nl_char (newlines k)) with (String nl_char "" ++ newlines k).
    rewrite <- append_assoc, IH. apply rstrip_nl_newline.
Qed.

Lemma no_nl_rstrip_nl (s : string) : no_nl s = true -> rstrip_nl s = s.
Proof.
  induction s as [| c s IH]; intros H; [reflexivity |].
  cbn [no_nl] in H. apply andb_true_iff in H. destruct H as [Hc Hs].
  cbn [rstrip_nl]. rewrite (IH Hs). apply negb_true_iff in Hc. rewrite Hc.
  destruct s; reflexivity.
Qed.

Lemma no_nl_app_nl (p t : string) : no_nl (p ++ String nl_char t) = false.
Proof.
  induction p as [| c p IH]; cbn [append no_nl].
  - now rewrite Ascii.eqb_refl.
  - rewrite IH. apply andb_false_r.
Qed.

(** X2.  The prompt test does not see the blank lines under the prompt: a
    screen and the same screen followed by line feeds are prompts
    together.  And a prompt is never the first line: a screen without a
    line feed is no prompt. *)
Theorem prompt_ignores_trailing_newlines (screen : string) (k : nat) :
  at_prompt (screen ++ newlines k) = at_prompt screen /\
  (no_nl screen = true -> at_prompt screen = false).
Proof.
  split.
  - unfold at_prompt. now rewrite rstrip_nl_newlines.
  - intros H. destruct (at_prompt screen) eqn:P; [| reflexivity].
    apply at_prompt_spec in P. destruct P as [p P]. rewrite (no_nl_rstrip_nl _ H) in P.
    unfold nl in P. cbn [append] in P.
    destruct P as [P | P]; rewrite P, no_nl_app_nl in H; discriminate H.
Qed.

Lemma prompt_ignores_trailing_newlines_witness : at_prompt "docker@node1:~$" = false.
Proof.
  apply (proj2 (prompt_ignores_trailing_newlines "docker@node1:~$" 0)). reflexivity.
Defined.

(* ------------------------------------------------------------------ *)
(** * [send_keys] *)

Lemma key_of_nl (c : ascii) : String.eqb (key_of c) nl = Ascii.eqb c nl_char.
Proof.
  unfold key_of. destruct (Ascii.eqb_spec c ";") as [-> | N]; [reflexivity |].
  unfold nl. cbn [String.eqb]. destruct (Ascii.eqb c nl_char); reflexivity.
Qed.

Lemma sent_keys_app (a b : list event) : sent_keys (a ++ b) = (sent_keys a ++ sent_keys b)%list.
Proof.
  induction a as [| e a IH]; [reflexivity |]. destruct e; cbn [app sent_keys]; now rewrite IH.
Qed.

Lemma slept_app (a b : list event) : slept (a ++ b) = slept a + slept b.
Proof.
  induction a as [| e a IH]; [reflexivity |].
  destruct e; cbn [app slept]; rewrite IH; lia.
Qed.

(** The typing loop: one key per character, a draw of the random delay
    per character, one second before and after a line feed. *)
Lemma type_keys_run (env : Env) (data : string) (m : Machine) :
  exists m' evs,
    type_keys env data m = (Ok tt, m') /\
    trace m' = (trace m ++ evs)%list /\
    sent_keys evs = map key_of (list_ascii_of_string data) /\
    slept evs = 2000 * count_nl data + jitter env (randoms m) (String.length data) /\
    clock m' = clock m + slept evs /\
    randoms m' = (randoms m + String.length data)%nat.
Proof.
  revert m. induction data as [| c rest IH]; intros m.
  - exists m, []. cbn [type_keys ret]. repeat split; try reflexivity.
    + now rewrite app_nil_r.
    + cbn. lia.
    + cbn. lia.
  - cbn [type_keys]. fold (key_of c). rewrite key_of_nl.
    destruct (Ascii.eqb c nl_char) eqn:N.
    + unfold bind at 1 2 3 4 5. unfold time_sleep, emit, random_delay. fields.
      match goal with
      | |- context [type_keys env rest ?m1] =>
          destruct (IH m1) as (m' & evs & E & T & K & Sl & C & R)
      end.
      fields. cbn [randoms trace clock] in *.
      exists m'.
      exists ([EvSleep 1000; EvSendKeys (key_of c); EvSleep (random_ms env (randoms m));
               EvSleep 1000] ++ evs)%list.
      split; [exact E |]. split; [rewrite T; now rewrite <- !app_assoc |].
      split; [cbn [app sent_keys list_ascii_of_string map]; now rewrite K |].
      split; [cbn [app slept count_nl jitter String.length]; rewrite Sl, N; lia |].
      split; [rewrite C; cbn [app slept]; lia |].
      rewrite R. cbn [String.length]. lia.
    + unfold bind at 1 2 3 4 5. unfold time_sleep, emit, random_delay, ret. fields.
      match goal with
      | |- context [type_keys env rest ?m1] =>
          destruct (IH m1) as (m' & evs & E & T & K & Sl & C & R)
      end.
      fields. cbn [randoms trace clock] in *.
      exists m'.
      exists ([EvSendKeys (key_of c); EvSleep (random_ms env (randoms m))] ++ evs)%list.
      split; [exact E |]. split; [rewrite T; now rewrite <- !app_assoc |].
      split; [cbn [app sent_keys list_ascii_of_string map]; now rewrite K |].
      split; [cbn [app slept count_nl jitter String.length]; rewrite Sl, N; lia |].
      split; [rewrite C; cbn [app slept]; lia |].
      rewrite R. cbn [String.length]. lia.
Qed.

Lemma send_keys_typed (env : Env) (c : ascii) (rest : string) (m : Machine) :
  simulate_type (state m) = true -> c <> "^"%char ->
  send_keys env (String c rest) m = type_keys env (String c rest) m.
Proof.
  intros Hs Hc. unfold send_keys, bind at 1, get_state at 1. rewrite Hs.
  unfold bind at 1, ret at 1.
  replace (Ascii.eqb c "^") with false by (symmetry; now apply Ascii.eqb_neq).
  reflexivity.
Qed.



(** X4.  Simulated typing takes the sum of its random delays, one per
    character, and two more seconds for every line feed of the text. *)
Theorem send_keys_typing_time (env : Env) (c : ascii) (rest : string) (m : Machine) :
  simulate_type (state m) = true -> c <> "^"%char ->
  clock (snd (send_keys env (String c rest) m))
  = clock m + 2000 * count_nl (String c rest)
    + jitter env (randoms m) (String.length (String c rest)) /\
  randoms (snd (send_keys env (String c rest) m))
  = (randoms m + String.length (String c rest))%nat.
Proof.
  intros Hs Hc. rewrite (send_keys_typed env c rest m Hs Hc).
  destruct (type_keys_run env (String c rest) m) as (m' & evs & E & T & K & Sl & C & R).
  rewrite E. cbn [fst snd]. split; [rewrite C, Sl; lia | exact R].
Qed.

Lemma send_keys_typing_time_witness :
  clock (snd (send_keys (Demo.still "") ("ls" ++ nl) (boot Missing))) = 2300.
Proof.
  apply (proj1 (send_keys_typing_time (Demo.still "") "l" ("s" ++ nl) (boot Missing)
                                      eq_refl ltac:(discriminate))).
Defined.

(** X5.  [send_keys] raises [IndexError] on the empty text with simulated
    typing on, where it reads the first character of the text, and there
    only; nothing is sent then.  With simulated typing off, or for a text
    that starts with [^], what it does is one [tmux send-keys] call with
    the whole text, and no sleep. *)
Theorem send_keys_faults_on_empty (env : Env) (data : string) (m : Machine) :
  (fst (send_keys env data m) = Raise IndexError <->
   simulate_type (state m) = true /\ data = "") /\
  (simulate_type (state m) = true -> send_keys env "" m = (Raise IndexError, m)) /\
  (simulate_type (state m) = false \/ (exists rest, data = String "^" rest) ->
   added m (snd (send_keys env data m)) = [EvSendKeys data]).
Proof.
  assert (A : forall x, added m (snd (emit (EvSendKeys x) m)) = [EvSendKeys x])
    by (intros x; apply added_app; reflexivity).
  destruct (simulate_type (state m)) eqn:Hs.
  - assert (E0 : send_keys env "" m = (Raise IndexError, m))
      by (unfold send_keys, bind, get_state; now rewrite Hs).
    destruct data as [| c rest].
    + rewrite E0. cbn [fst]. split; [| split].
      * split; auto.
      * intros _. reflexivity.
      * intros [H | [r H]]; discriminate.
    + destruct (Ascii.eqb_spec c "^") as [-> | N].
      * assert (E : send_keys env (String "^" rest) m
                    = (Ok tt, snd (emit (EvSendKeys (String "^" rest)) m)))
          by (unfold send_keys, bind, get_state; now rewrite Hs).
        rewrite E. cbn [fst snd]. split; [| split].
        -- split; [discriminate | intros [_ H]; discriminate].
        -- intros _. exact E0.
        -- intros _. apply A.
      * rewrite (send_keys_typed env c rest m Hs N).
        destruct (type_keys_run env (String c rest) m) as (m' & evs & E & _).
        rewrite E. cbn [fst]. split; [| split].
        -- split; [discriminate | intros [_ H]; discriminate].
        -- intros _. exact E0.
        -- intros [H | [r H]]; [discriminate | inversion H; now elim N].
  - assert (E : send_keys env data m = (Ok tt, snd (emit (EvSendKeys data) m)))
      by (unfold send_keys, bind, get_state; now rewrite Hs).
    rewrite E. cbn [fst snd]. split; [| split].
    + split; [discriminate | intros [H _]; discriminate].
    + discriminate.
    + intros _. apply A.
Qed.

Lemma send_keys_faults_on_empty_witness :
  added (boot Missing) (snd (send_keys (Demo.still "") "^C" (boot Missing)))
  = [EvSendKeys "^C"].
Proof.
  apply (proj2 (proj2 (send_keys_faults_on_empty (Demo.still "") "^C" (boot Missing)))).
  right. exists "C". reflexivity.
Defined.

(* ------------------------------------------------------------------ *)
(** * [Remote.catchup] *)

Lemma goto_run (n : Z) (m : Machine) :
  goto n m = (Ok tt, snd (goto n m)) /\
  slide_on_screen (snd (goto n m)) = n /\
  keypresses (snd (goto n m)) = keypresses m /\
  trace (snd (goto n m)) = (trace m ++ [EvGotoSlide n; EvWorkspace 3; EvWorkspace 1])%list.
Proof.
  repeat split. cbn. now rewrite <- !app_assoc.
Qed.

(** X6.  Unattended, [catchup] never asks: when the slide on screen is
    already the wanted one it does nothing at all, otherwise it jumps
    straight to it with a single [gotoslide], from a slide before it as
    from a slide after it. *)
Theorem catchup_unattended_lands (env : Env) (fuel : nat) (n : Z) (m : Machine) :
  interactive (state m) = false -> (2 <= fuel)%nat ->
  fst (catchup env fuel n m) = Ok tt /\
  slide_on_screen (snd (catchup env fuel n m)) = n /\
  keypresses (snd (catchup env fuel n m)) = keypresses m /\
  added m (snd (catchup env fuel n m))
  = if slide_on_screen m =? n then []
    else [EvGotoSlide n; EvWorkspace 3; EvWorkspace 1].
Proof.
  intros Hi Hf. destruct fuel as [| [| f]]; try lia. clear Hf.
  destruct (goto_run n m) as (G1 & G2 & G3 & G4).
  assert (E : catchup env (S (S f)) n m
              = if slide_on_screen m =? n then (Ok tt, m) else (Ok tt, snd (goto n m))).
  { unfold catchup, bind at 1, get_slide_on_screen at 1.
    destruct (slide_on_screen m >? n) eqn:G.
    - replace (slide_on_screen m =? n) with false by (symmetry; apply Z.eqb_neq; lia).
      exact G1.
    - cbn [catchup_loop]. unfold bind at 1, get_slide_on_screen at 1.
      destruct (slide_on_screen m <? n) eqn:L.
      + replace (slide_on_screen m =? n) with false by (symmetry; apply Z.eqb_neq; lia).
        unfold bind at 1, get_state at 1. rewrite Hi.
        unfold bind at 1, ret at 1. simpl (str_in "z" _). cbv iota.
        unfold bind at 1. rewrite G1.
        unfold bind at 1, get_slide_on_screen at 1. rewrite G2, Z.ltb_irrefl.
        reflexivity.
      + replace (slide_on_screen m =? n) with true by (symmetry; apply Z.eqb_eq; lia).
        reflexivity. }
  rewrite E. destruct (slide_on_screen m =? n) eqn:Q; cbn [fst snd].
  - apply Z.eqb_eq in Q. repeat split; auto.
    apply added_app. now rewrite app_nil_r.
  - repeat split; auto. now apply added_app.
Qed.

Lemma catchup_unattended_lands_witness :
  added (Demo.machine_of (Demo.unattended false 0))
        (snd (catchup (Demo.still "") 2 5 (Demo.machine_of (Demo.unattended false 0))))
  = [EvGotoSlide 5; EvWorkspace 3; EvWorkspace 1].
Proof.
  apply (catchup_unattended_lands (Demo.still "") 2 5
                                  (Demo.machine_of (Demo.unattended false 0)) eq_refl).
  lia.
Defined.

Lemma catchup_loop_lands (env : Env) (n : Z) (fuel : nat) (m m' : Machine) :
  slide_on_screen m <= n ->
  catchup_loop env fuel n m = (Ok tt, m') ->
  slide_on_screen m' = n \/ exists k, click_getchar env k = "q".
Proof.
  revert m. induction fuel as [| f IH]; intros m Hle H; [discriminate H |].
  cbn [catchup_loop] in H. unfold bind at 1, get_slide_on_screen at 1 in H.
  destruct (slide_on_screen m <? n) eqn:L.
  - apply Z.ltb_lt in L. unfold bind at 1, get_state at 1 in H.
    assert (Step : forall d m1,
               slide_on_screen m1 = slide_on_screen m ->
               d <= n ->
               (goto d ;; catchup_loop env f n) m1 = (Ok tt, m') ->
               slide_on_screen m' = n \/ exists k, click_getchar env k = "q").
    { intros d m1 _ Hd Hg. unfold bind at 1 in Hg.
      destruct (goto_run d m1) as (G1 & G2 & _). rewrite G1 in Hg.
      apply (IH (snd (goto d m1))); [rewrite G2; exact Hd | exact Hg]. }
    destruct (interactive (state m)).
    + unfold bind at 1, getchar at 1 in H.
      set (key := click_getchar env (keypresses m)) in *.
      match type of H with
      | ?c ?mm = _ => set (m1 := mm) in *
      end.
      destruct (str_in key ["z"; String "013" ""]).
      { apply (Step n m1); [reflexivity | lia | exact H]. }
      destruct (str_in key ["n"; esc ++ "[C"; " "]).
      { apply (Step (slide_on_screen m + 1) m1); [reflexivity | lia | exact H]. }
      destruct (str_in key ["p"; esc ++ "[D"]).
      { apply (Step (slide_on_screen m - 1) m1); [reflexivity | lia | exact H]. }
      destruct (String.eqb key "q") eqn:Q.
      { right. exists (keypresses m). now apply String.eqb_eq. }
      apply (IH m1); [exact Hle | exact H].
    + unfold bind at 1, ret at 1 in H. simpl (str_in "z" _) in H. cbv iota in H.
      apply (Step n m); [reflexivity | lia | exact H].
  - apply Z.ltb_ge in L. inversion H; subst m'. left. lia.
Qed.

(** X7.  Whoever runs it, when [catchup] returns the wanted slide is on
    screen, unless the operator pressed [q] to give up.  When the slide on
    screen is after the wanted one, it jumps straight back to it without
    asking.  And it only drives the slides and reads keys: the state, the
    state file and the terminal are left alone. *)
Theorem catchup_lands_or_quit (env : Env) (fuel : nat) (n : Z) (m : Machine) :
  (fst (catchup env fuel n m) = Ok tt ->
   slide_on_screen (snd (catchup env fuel n m)) = n \/
   exists k, click_getchar env k = "q") /\
  (slide_on_screen m > n -> catchup env fuel n m = goto n m) /\
  state (snd (catchup env fuel n m)) = state m /\
  state_yaml (snd (catchup env fuel n m)) = state_yaml m /\
  Forall (fun e => is_slide e = true \/ is_ask e = true)
         (added m (snd (catchup env fuel n m))).
Proof.
  split; [| split].
  - unfold catchup, bind at 1 2, get_slide_on_screen at 1 2.
    destruct (slide_on_screen m >? n) eqn:G.
    + intros _. left. apply goto_run.
    + destruct (catchup_loop env fuel n m) as [r m'] eqn:E. cbn [fst snd].
      intros ->. apply (catchup_loop_lands env n fuel m m'); [lia | exact E].
  - intros G. unfold catchup, bind, get_slide_on_screen.
    replace (slide_on_screen m >? n) with true by (symmetry; apply Z.gtb_lt; lia).
    reflexivity.
  - destruct (catchup_stays env (fun e => is_slide e = true \/ is_ask e = true)
                (fun _ => or_introl eq_refl) (fun _ => or_introl eq_refl)
                (fun _ => or_intror eq_refl) fuel n m) as (S1 & F1 & evs & T & Q).
    split; [exact S1 |]. split; [exact F1 |]. now rewrite (added_app _ _ evs T).
Qed.

Lemma catchup_lands_or_quit_witness :
  catchup (Demo.operator "" ["n"]) 3 5 (snd (goto 8 (boot Missing)))
  = goto 5 (snd (goto 8 (boot Missing))).
Proof.
  apply (proj1 (proj2 (catchup_lands_or_quit (Demo.operator "" ["n"]) 3 5
                                             (snd (goto 8 (boot Missing)))))).
  cbn. lia.
Defined.

(* ------------------------------------------------------------------ *)
(** * What a dispatch leaves alone *)

(** X8.  Running an action, whatever its method, changes neither the
    cursor nor the three flags, does not write the state file, does not
    move the slides and asks the operator nothing. *)
Theorem dispatch_leaves_state (env : Env) (actions : list Action) (method data : string)
        (m : Machine) :
  state (snd (dispatch env actions method data m)) = state m /\
  state_yaml (snd (dispatch env actions method data m)) = state_yaml m /\
  Forall (fun e => is_save e = false /\ is_goto e = false /\ is_ask e = false)
         (added m (snd (dispatch env actions method data m))).
Proof.
  destruct (dispatch_stays env
              (fun e => is_save e = false /\ is_goto e = false /\ is_ask e = false)
              (fun _ => conj eq_refl (conj eq_refl eq_refl))
              (fun _ => conj eq_refl (conj eq_refl eq_refl))
              (fun _ => conj eq_refl (conj eq_refl eq_refl))
              (fun _ => conj eq_refl (conj eq_refl eq_refl))
              (fun _ => conj eq_refl (conj eq_refl eq_refl))
              (fun _ _ => conj eq_refl (conj eq_refl eq_refl))
              actions method data m) as (S1 & F1 & evs & T & Q).
  split; [exact S1 |]. split; [exact F1 |]. now rewrite (added_app _ _ evs T).
Qed.

(* ------------------------------------------------------------------ *)
(** * Unattended runs *)

Lemma py_index_cases {A : Type} (l : list A) (i : Z) :
  py_index l i = Raise IndexError \/ exists a, py_index l i = Ok a.
Proof.
  unfold py_index.
  destruct ((0 <=? _) && (_ <? _)); [| now left].
  destruct (nth_error l _) as [a |]; [right; now exists a | now left].
Qed.

Lemma total_wait_for_prompt (env : Env) : total (wait_for_prompt env).
Proof.
  intros m. rewrite wait_for_prompt_spec.
  destruct (first_hit _ _ _ _); discriminate.
Qed.

Lemma total_wait_for_string (env : Env) (s : string) (n : nat) :
  total (wait_for_string env s (1000 * Z.of_nat n)).
Proof.
  intros m. rewrite wait_for_string_spec.
  destruct (first_hit _ _ _ _); discriminate.
Qed.

Lemma total_send_keys (env : Env) (data : string) : total (send_keys env data).
Proof.
  intros m. unfold send_keys, bind at 1, get_state at 1.
  destruct (simulate_type (state m)); [| discriminate].
  destruct data as [| c rest]; [discriminate |].
  unfold bind at 1, ret at 1. destruct (negb (Ascii.eqb c "^")); [| discriminate].
  destruct (type_keys_run env (String c rest) m) as (m' & evs & E & _).
  rewrite E. discriminate.
Qed.

Lemma total_ret {A : Type} (a : A) : total (ret a).
Proof. intros m. discriminate. Qed.

Lemma total_raise {A : Type} (e : exn) : total (@raise A e).
Proof. intros m. discriminate. Qed.

Lemma total_findall (env : Env) (p : string) (fl : PyRe.flags) (t : string) :
  total (findall env p fl t).
Proof. intros m. unfold findall. destruct (re_findall env p fl t); discriminate. Qed.

Lemma py_index_total {A : Type} (l : list A) (i : Z) : py_index l i <> OutOfFuel.
Proof. destruct (py_index_cases l i) as [E | [a E]]; rewrite E; discriminate. Qed.

Ltac total_step :=
  match goal with
  | |- total (bind _ _) => apply total_bind; [ | intros ? ]
  | |- total (ret _) => apply total_ret
  | |- total (raise _) => apply total_raise
  | |- total (lift (py_index _ _)) => apply total_lift, py_index_total
  | |- total (lift (py_last _)) => apply total_lift, py_index_total
  | |- total (lift (int_of_found ?x)) =>
      apply total_lift; destruct x; [apply py_int_total | discriminate]
  | |- total (if ?b then _ else _) => destruct b
  | |- total (match ?x with _ => _ end) => destruct x
  | |- total (wait_for_prompt _) => apply total_wait_for_prompt
  | |- total (send_keys _ _) => apply total_send_keys
  | |- total (findall _ _ _ _) => apply total_findall
  | |- total _ => intros ?; discriminate
  end.

Lemma total_check_exit_status (env : Env) : total (check_exit_status env).
Proof. unfold check_exit_status. repeat total_step. Qed.

Lemma total_dispatch (env : Env) (actions : list Action) (method data : string) :
  total (dispatch env actions method data).
Proof.
  unfold dispatch, global_status.
  repeat (first [ apply total_check_exit_status
                | apply (total_wait_for_string env _ 60)
                | apply (total_wait_for_string env _ 600)
                | total_step ]).
Qed.

Lemma hands_off_refl (m : Machine) : hands_off m m.
Proof.
  repeat split. exists []. split; [now rewrite app_nil_r | constructor].
Qed.

Lemma hands_off_trans (a b c : Machine) : hands_off a b -> hands_off b c -> hands_off a c.
Proof.
  intros (I1 & V1 & S1 & e1 & T1 & Q1) (I2 & V2 & S2 & e2 & T2 & Q2).
  repeat split; try congruence.
  exists (e1 ++ e2)%list. split.
  - rewrite T2, T1, app_assoc. reflexivity.
  - apply Forall_app. now split.
Qed.

Lemma catchup_unattended_eq (env : Env) (f : nat) (n : Z) (m : Machine) :
  interactive (state m) = false ->
  catchup env (S (S f)) n m
  = if slide_on_screen m =? n then (Ok tt, m) else (Ok tt, snd (goto n m)).
Proof.
  intros Hi. destruct (goto_run n m) as (G1 & G2 & G3 & G4).
  unfold catchup, bind at 1, get_slide_on_screen at 1.
  destruct (slide_on_screen m >? n) eqn:G.
  - replace (slide_on_screen m =? n) with false by (symmetry; apply Z.eqb_neq; lia).
    exact G1.
  - cbn [catchup_loop]. unfold bind at 1, get_slide_on_screen at 1.
    destruct (slide_on_screen m <? n) eqn:L.
    + replace (slide_on_screen m =? n) with false by (symmetry; apply Z.eqb_neq; lia).
      unfold bind at 1, get_state at 1. rewrite Hi.
      unfold bind at 1, ret at 1. simpl (str_in "z" _). cbv iota.
      unfold bind at 1. rewrite G1.
      unfold bind at 1, get_slide_on_screen at 1. rewrite G2, Z.ltb_irrefl.
      reflexivity.
    + replace (slide_on_screen m =? n) with true by (symmetry; apply Z.eqb_eq; lia).
      reflexivity.
Qed.

(** The head of an unattended turn: the save, the slides, the focus and
    the log, up to the dispatch of the action at the cursor. *)
Lemma iteration_unattended_head (env : Env) (f : nat) (actions : list Action) (m : Machine)
      (a : Action) :
  interactive (state m) = false ->
  py_index actions (next_step (state m)) = Ok a ->
  exists m1,
    state m1 = state m /\
    state_yaml m1 = Document (dump (state m)) /\
    captures m1 = captures m /\
    slide_on_screen m1 = slide a /\
    trace m1 = (trace m ++ head_events (state m) (slide_on_screen m) a)%list /\
    iteration env (S (S f)) actions m
    = (dispatch env actions (method a) (clean (data a)) ;;
       add_next_step 1 ;; ret Continue) m1.
Proof.
  intros Hi Ha. unfold iteration.
  rewrite (bind_ok State_save _ m (snd (State_save m)) tt eq_refl).
  set (m0 := snd (State_save m)).
  rewrite (bind_ok get_state _ m0 m0 (state m) eq_refl).
  rewrite (bind_ok (lift (py_index actions (next_step (state m)))) _ m0 m0 a)
    by (unfold lift; now rewrite Ha).
  destruct a as [n mth dat]. cbv iota beta. cbn [method data slide].
  set (m2 := if slide_on_screen m0 =? n then m0 else snd (goto n m0)).
  rewrite (bind_ok (catchup env (S (S f)) n) _ m0 m2 tt)
    by (rewrite (catchup_unattended_eq env f n m0 Hi); unfold m2;
        now destruct (slide_on_screen m0 =? n)).
  assert (S2 : state m2 = state m) by (unfold m2; now destruct (slide_on_screen m0 =? n)).
  assert (N2 : slide_on_screen m2 = n).
  { unfold m2. destruct (slide_on_screen m0 =? n) eqn:E; [now apply Z.eqb_eq | reflexivity]. }
  rewrite (bind_ok get_state _ m2 m2 (state m2) eq_refl).
  rewrite S2, Hi.
  rewrite (bind_ok (ret "y") _ m2 m2 "y" eq_refl).
  unfold head_events, clean. cbn [method data slide].
  change (slide_on_screen m) with (slide_on_screen m0).
  destruct (contains "`" (strip dat)).
  - rewrite (bind_ok (logging INFO "Stripping ` from snippet." [] ;;
                      ret (replace "`" "" (strip dat))) _ m2
                     (snd (logging INFO "Stripping ` from snippet." [] m2))
                     (replace "`" "" (strip dat)) eq_refl).
    simpl (str_in "y" _). simpl (String.eqb "y" _). cbv iota.
    set (m3 := snd (logging INFO "Stripping ` from snippet." [] m2)).
    rewrite (bind_ok focus_terminal _ m3 (snd (focus_terminal m3)) tt eq_refl).
    set (m4 := snd (focus_terminal m3)).
    rewrite (bind_ok (logging INFO "Running with method {}: {}"
                              [mth; replace "`" "" (strip dat)])
                     _ m4 (snd (logging INFO "Running with method {}: {}"
                                        [mth; replace "`" "" (strip dat)] m4)) tt eq_refl).
    eexists. split; [| split; [| split; [| split; [| split; [| reflexivity]]]]].
    + exact S2.
    + unfold m4, m3, m2. now destruct (slide_on_screen m0 =? n).
    + unfold m4, m3, m2. now destruct (slide_on_screen m0 =? n).
    + exact N2.
    + unfold m4, m3, m2.
      destruct (slide_on_screen m0 =? n); cbn; rewrite <- !app_assoc; reflexivity.
  - rewrite (bind_ok (ret (strip dat)) _ m2 m2 (strip dat) eq_refl).
    simpl (str_in "y" _). simpl (String.eqb "y" _). cbv iota.
    rewrite (bind_ok focus_terminal _ m2 (snd (focus_terminal m2)) tt eq_refl).
    set (m4 := snd (focus_terminal m2)).
    rewrite (bind_ok (logging INFO "Running with method {}: {}" [mth; strip dat])
                     _ m4 (snd (logging INFO "Running with method {}: {}"
                                        [mth; strip dat] m4)) tt eq_refl).
    eexists. split; [| split; [| split; [| split; [| split; [| reflexivity]]]]].
    + exact S2.
    + unfold m4, m2. now destruct (slide_on_screen m0 =? n).
    + unfold m4, m2. now destruct (slide_on_screen m0 =? n).
    + exact N2.
    + unfold m4, m2.
      destruct (slide_on_screen m0 =? n); cbn; rewrite <- !app_assoc; reflexivity.
Qed.

Lemma head_events_ask (s : State) (n : Z) (a : Action) :
  Forall (fun e => is_ask e = false) (head_events s n a).
Proof.
  unfold head_events. constructor; [reflexivity |].
  apply Forall_app. split; [destruct (n =? slide a); repeat constructor |].
  apply Forall_app. split; [destruct (contains "`" (strip (data a))) |]; repeat constructor.
Qed.

(** A turn whose cursor indexes no action stops right after the save. *)
Lemma iteration_no_action (env : Env) (fuel : nat) (actions : list Action) (m : Machine) :
  py_index actions (next_step (state m)) = Raise IndexError ->
  iteration env fuel actions m = (Raise IndexError, snd (State_save m)).
Proof.
  intros Ha. unfold iteration.
  rewrite (bind_ok State_save _ m (snd (State_save m)) tt eq_refl).
  set (m0 := snd (State_save m)).
  rewrite (bind_ok get_state _ m0 m0 (state m) eq_refl).
  apply bind_raise. unfold lift. now rewrite Ha.
Qed.

(** An unattended turn: one step forward, or an exception with the state
    as it was saved. *)
Lemma unattended_turn (env : Env) (f : nat) (actions : list Action) (m : Machine) :
  interactive (state m) = false ->
  exists r m',
    iteration env (S (S f)) actions m = (r, m') /\
    hands_off m m' /\
    state_yaml m' = Document (dump (state m)) /\
    ((r = Ok Continue /\ next_step (state m') = next_step (state m) + 1) \/
     (exists e, r = Raise e /\ state m' = state m)).
Proof.
  intros Hi.
  destruct (py_index_cases actions (next_step (state m))) as [Ha | [a Ha]].
  - rewrite (iteration_no_action env _ actions m Ha).
    exists (Raise IndexError), (snd (State_save m)).
    split; [reflexivity |]. split; [| split; [reflexivity |]].
    + repeat split. exists [EvSave (state m)]. split; [reflexivity | repeat constructor].
    + right. exists IndexError. now split.
  - destruct (iteration_unattended_head env f actions m a Hi Ha)
      as (m1 & S1 & F1 & _ & _ & T1 & E).
    pose proof (head_events_ask (state m) (slide_on_screen m) a) as Q1.
    rewrite E. clear E.
    destruct (dispatch_stays env (fun e => is_ask e = false)
                (fun _ => eq_refl) (fun _ => eq_refl) (fun _ => eq_refl)
                (fun _ => eq_refl) (fun _ => eq_refl) (fun _ _ => eq_refl)
                actions (method a) (clean (data a)) m1) as (S2 & F2 & evs2 & T2 & Q2).
    pose proof (total_dispatch env actions (method a) (clean (data a)) m1) as Tot.
    unfold bind at 1.
    destruct (dispatch env actions (method a) (clean (data a)) m1) as [[[] | e |] m2];
      cbn [fst snd] in *; [| | now elim Tot].
    + eexists. eexists. split; [reflexivity |].
      cbn [snd add_next_step set_next_step bind get_state set_state ret state
           interactive verify_status simulate_type next_step state_yaml trace].
      split; [| split].
      * unfold hands_off. cbn [state interactive verify_status simulate_type trace].
        rewrite S2, S1. repeat split.
        exists (head_events (state m) (slide_on_screen m) a ++ evs2)%list. split.
        -- rewrite T2, T1, <- app_assoc. reflexivity.
        -- apply Forall_app. now split.
      * congruence.
      * left. split; [reflexivity |]. now rewrite S2, S1.
    + exists (Raise e), m2. split; [reflexivity |]. split; [| split].
      * unfold hands_off. rewrite S2, S1. repeat split.
        exists (head_events (state m) (slide_on_screen m) a ++ evs2)%list. split.
        -- rewrite T2, T1, <- app_assoc. reflexivity.
        -- apply Forall_app. now split.
      * congruence.
      * right. exists e. split; [reflexivity | congruence].
Qed.

(** An unattended run with fuel for its turns. *)
Lemma unattended_run_all (env : Env) (actions : list Action) (fuel : nat) (m : Machine) :
  interactive (state m) = false ->
  next_step (state m) <= Z.of_nat (List.length actions) ->
  (Z.to_nat (Z.of_nat (List.length actions) - next_step (state m)) + 3 <= fuel)%nat ->
  exists r m',
    main_loop env fuel actions m = (r, m') /\
    hands_off m m' /\
    ((r = Ok tt /\ next_step (state m') = Z.of_nat (List.length actions) /\
      (next_step (state m) < Z.of_nat (List.length actions) ->
       state_yaml m'
       = Document (dump {| interactive := false;
                           verify_status := verify_status (state m);
                           simulate_type := simulate_type (state m);
                           next_step := Z.of_nat (List.length actions) - 1 |}))) \/
     (exists e, r = Raise e /\
                next_step (state m) <= next_step (state m') < Z.of_nat (List.length actions) /\
                state_yaml m' = Document (dump (state m')))).
Proof.
  revert m. induction fuel as [| fuel IH]; intros m Hi Hc Hf; [lia |].
  rewrite main_loop_step.
  destruct (next_step (state m) <? Z.of_nat (List.length actions)) eqn:C.
  - apply Z.ltb_lt in C.
    destruct fuel as [| [| f]]; try lia.
    destruct (unattended_turn env f actions m Hi) as (r & m1 & E & H1 & F1 & Hr).
    rewrite E.
    destruct Hr as [[-> N] | [e [-> S1]]].
    + destruct (IH m1) as (r2 & m2 & E2 & H2 & Hr2).
      * destruct H1 as (I1 & _). congruence.
      * lia.
      * lia.
      * exists r2, m2. split; [exact E2 |]. split; [eapply hands_off_trans; eauto |].
        destruct Hr2 as [(-> & L & F2) | (e & -> & B & F2)].
        -- left. split; [reflexivity |]. split; [exact L |]. intros _.
           destruct H1 as (I1 & V1 & S1 & _).
           destruct (Z.ltb_spec (next_step (state m1)) (Z.of_nat (List.length actions)))
             as [Lt | Ge].
           ++ rewrite (F2 Lt), V1, S1. reflexivity.
           ++ rewrite main_loop_step in E2.
              replace (next_step (state m1) <? Z.of_nat (List.length actions)) with false
                in E2 by (symmetry; apply Z.ltb_ge; lia).
              injection E2 as <-. rewrite F1.
              replace (Z.of_nat (List.length actions) - 1) with (next_step (state m)) by lia.
              rewrite <- Hi. now destruct (state m).
        -- right. exists e. split; [reflexivity |]. split; [lia | exact F2].
    + exists (Raise e), m1. split; [reflexivity |]. split; [exact H1 |].
      right. exists e. split; [reflexivity |]. rewrite S1. split; [lia | exact F1].
  - apply Z.ltb_ge in C. exists (Ok tt), m. split; [reflexivity |].
    split; [apply hands_off_refl |]. left. split; [reflexivity |]. split; lia.
Qed.

(** X9.  Run to failure.  An unattended run that starts with the cursor at
    most at the end of the list, with fuel for the turns left, ends in one
    of two ways: normally, with the cursor at the end of the list; or with
    the exception of the first action that failed, the cursor still on that
    action and the state file holding exactly the state in memory, so that
    a restart resumes at the failed action. *)
Theorem unattended_run_outcome (env : Env) (actions : list Action) (fuel : nat)
        (m : Machine) :
  interactive (state m) = false ->
  next_step (state m) <= Z.of_nat (List.length actions) ->
  (Z.to_nat (Z.of_nat (List.length actions) - next_step (state m)) + 3 <= fuel)%nat ->
  (fst (main_loop env fuel actions m) = Ok tt /\
   next_step (state (snd (main_loop env fuel actions m))) = Z.of_nat (List.length actions)) \/
  (exists e,
      fst (main_loop env fuel actions m) = Raise e /\
      next_step (state m) <= next_step (state (snd (main_loop env fuel actions m)))
      < Z.of_nat (List.length actions) /\
      state_yaml (snd (main_loop env fuel actions m))
      = Document (dump (state (snd (main_loop env fuel actions m))))).
Proof.
  intros Hi Hc Hf.
  destruct (unattended_run_all env actions fuel m Hi Hc Hf) as (r & m' & E & _ & H).
  rewrite E. cbn [fst snd].
  destruct H as [(-> & L & _) | H]; [left; now split | right; exact H].
Qed.

Lemma unattended_run_outcome_witness :
  (fst (main_loop (Demo.still "pulling image") 5 hi_deck
                  (Demo.machine_of (Demo.unattended false 0))) = Ok tt /\
   next_step (state (snd (main_loop (Demo.still "pulling image") 5 hi_deck
                                    (Demo.machine_of (Demo.unattended false 0))))) = 2) \/
  (exists e,
      fst (main_loop (Demo.still "pulling image") 5 hi_deck
                     (Demo.machine_of (Demo.unattended false 0))) = Raise e /\
      0 <= next_step (state (snd (main_loop (Demo.still "pulling image") 5 hi_deck
                                            (Demo.machine_of (Demo.unattended false 0)))))
      < 2 /\
      state_yaml (snd (main_loop (Demo.still "pulling image") 5 hi_deck
                                 (Demo.machine_of (Demo.unattended false 0))))
      = Document (dump (state (snd (main_loop (Demo.still "pulling image") 5 hi_deck
                                              (Demo.machine_of (Demo.unattended false 0))))))).
Proof.
  apply (unattended_run_outcome (Demo.still "pulling image") hi_deck 5
                                (Demo.machine_of (Demo.unattended false 0))).
  - reflexivity.
  - cbn. lia.
  - cbn. lia.
Defined.

(** X10.  An unattended run stays unattended: it asks the operator for no
    key and no number, and it ends with the three flags it started with. *)
Theorem unattended_run_asks_nothing (env : Env) (actions : list Action) (fuel : nat)
        (m : Machine) :
  interactive (state m) = false ->
  next_step (state m) <= Z.of_nat (List.length actions) ->
  (Z.to_nat (Z.of_nat (List.length actions) - next_step (state m)) + 3 <= fuel)%nat ->
  interactive (state (snd (main_loop env fuel actions m))) = false /\
  verify_status (state (snd (main_loop env fuel actions m))) = verify_status (state m) /\
  simulate_type (state (snd (main_loop env fuel actions m))) = simulate_type (state m) /\
  Forall (fun e => is_ask e = false) (added m (snd (main_loop env fuel actions m))) /\
  fst (main_loop env fuel actions m) <> OutOfFuel.
Proof.
  intros Hi Hc Hf.
  destruct (unattended_run_all env actions fuel m Hi Hc Hf)
    as (r & m' & E & (I1 & V1 & S1 & evs & T & Q) & H).
  rewrite E. cbn [fst snd]. repeat split; try congruence.
  - now rewrite (added_app _ _ evs T).
  - destruct H as [(-> & _) | (e & -> & _)]; discriminate.
Qed.

Lemma unattended_run_asks_nothing_witness :
  Forall (fun e => is_ask e = false)
         (added (Demo.machine_of (Demo.unattended false 0))
                (snd (main_loop (Demo.still "pulling image") 5 hi_deck
                                (Demo.machine_of (Demo.unattended false 0))))).
Proof.
  apply (unattended_run_asks_nothing (Demo.still "pulling image") hi_deck 5
                                     (Demo.machine_of (Demo.unattended false 0))).
  - reflexivity.
  - cbn. lia.
  - cbn. lia.
Defined.

(** X11.  The state is saved at the head of a turn only, so the last step
    forward is never written: when an unattended run that had at least one
    action to run ends normally, the state file still holds the cursor of
    the last action, and a restart from it runs that action again. *)
Theorem completed_run_replays_last_action (env : Env) (actions : list Action) (fuel : nat)
        (m : Machine) :
  interactive (state m) = false ->
  next_step (state m) < Z.of_nat (List.length actions) ->
  (Z.to_nat (Z.of_nat (List.length actions) - next_step (state m)) + 3 <= fuel)%nat ->
  fst (main_loop env fuel actions m) = Ok tt ->
  next_step (state (snd (main_loop env fuel actions m))) = Z.of_nat (List.length actions) /\
  state_yaml (snd (main_loop env fuel actions m))
  = Document (dump {| interactive := false;
                      verify_status := verify_status (state m);
                      simulate_type := simulate_type (state m);
                      next_step := Z.of_nat (List.length actions) - 1 |}) /\
  state (snd (load_state (boot (state_yaml (snd (main_loop env fuel actions m))))))
  = {| interactive := true;
       verify_status := verify_status (state m);
       simulate_type := simulate_type (state m);
       next_step := Z.of_nat (List.length actions) - 1 |}.
Proof.
  intros Hi Hc Hf Hok.
  destruct (unattended_run_all env actions fuel m Hi (Z.lt_le_incl _ _ Hc) Hf)
    as (r & m' & E & _ & H).
  rewrite E in *. cbn [fst snd] in *.
  destruct H as [(_ & L & F) | (e & -> & _)]; [| discriminate].
  split; [exact L |]. split; [exact (F Hc) |].
  rewrite (F Hc). exact (proj2 (load_state_dump _ (boot _) eq_refl)).
Qed.

Lemma completed_run_replays_last_action_witness :
  state_yaml (snd (main_loop (Demo.turning 1 (nl ++ "$") "hi") 5 hi_deck
                             (Demo.machine_of (Demo.unattended false 0))))
  = Document (dump {| interactive := false; verify_status := false;
                      simulate_type := false; next_step := 1 |}).
Proof.
  apply (completed_run_replays_last_action
           (Demo.turning 1 (nl ++ "$") "hi") hi_deck 5
           (Demo.machine_of (Demo.unattended false 0))).
  - reflexivity.
  - cbn. lia.
  - cbn. lia.
  - vm_compute. reflexivity.
Defined.

(* ------------------------------------------------------------------ *)
(** * The cursor below the list *)

Lemma py_index_below {A : Type} (l : list A) (i : Z) :
  i < - Z.of_nat (List.length l) -> py_index l i = Raise IndexError.
Proof.
  intros H. unfold py_index.
  replace (i <? 0) with true by (symmetry; apply Z.ltb_lt; lia).
  replace (0 <=? Z.of_nat (List.length l) + i) with false
    by (symmetry; apply Z.leb_gt; lia).
  reflexivity.
Qed.

(** X12.  A cursor below [-len(actions)] (the operator can enter one at
    the jump, or retreat to it) ends the run with [IndexError] at the next
    turn, after that turn has saved it: every restart from the state file
    then ends the same way, before anything is done. *)
Theorem cursor_below_list_faults (env env' : Env) (actions : list Action) (f f' : nat)
        (m : Machine) :
  next_step (state m) < - Z.of_nat (List.length actions) ->
  main_loop env (S f) actions m = (Raise IndexError, snd (State_save m)) /\
  added m (snd (main_loop env (S f) actions m)) = [EvSave (state m)] /\
  fst (main env' (S f') actions (boot (state_yaml (snd (main_loop env (S f) actions m)))))
  = Raise IndexError.
Proof.
  intros H.
  assert (E : forall e g (x : Machine),
             next_step (state x) = next_step (state m) ->
             main_loop e (S g) actions x = (Raise IndexError, snd (State_save x))).
  { intros e g x Hx. rewrite main_loop_step.
    replace (next_step (state x) <? Z.of_nat (List.length actions)) with true
      by (symmetry; apply Z.ltb_lt; lia).
    rewrite iteration_no_action; [reflexivity |]. apply py_index_below. lia. }
  rewrite (E env f m eq_refl). split; [reflexivity |]. split.
  - apply (added_app _ _ [EvSave (state m)]). reflexivity.
  - cbn [snd State_save bind get_state write_file emit state_yaml fst].
    unfold main.
    destruct (load_state_dump (state m) (boot (Document (dump (state m)))) eq_refl)
      as [L1 L2].
    unfold bind at 1.
    destruct (load_state (boot (Document (dump (state m))))) as [[[] | e |] m1];
      cbn [fst snd] in *; try discriminate.
    rewrite (E env' f' m1); [reflexivity |]. now rewrite L2.
Qed.

Lemma cursor_below_list_faults_witness :
  fst (main (Demo.still "$") 3 hi_deck
            (boot (state_yaml
                     (snd (main_loop (Demo.still "$") 3 hi_deck
                                     (Demo.machine_of (Demo.unattended false (-3))))))))
  = Raise IndexError.
Proof.
  apply (cursor_below_list_faults (Demo.still "$") (Demo.still "$") hi_deck 2 2
                                  (Demo.machine_of (Demo.unattended false (-3)))).
  cbn. lia.
Defined.

(* ------------------------------------------------------------------ *)
(** * Nothing runs that the operator has not confirmed *)

Lemma idle_refl (m : Machine) : interactive (state m) = true -> idle m m.
Proof.
  intros H. split; [exact H |]. exists []. split; [now rewrite app_nil_r | constructor].
Qed.

Lemma idle_trans (a b c : Machine) : idle a b -> idle b c -> idle a c.
Proof.
  intros (I1 & e1 & T1 & Q1) (I2 & e2 & T2 & Q2). split; [exact I2 |].
  exists (e1 ++ e2)%list. split.
  - rewrite T2, T1, app_assoc. reflexivity.
  - apply Forall_app. now split.
Qed.

Lemma idle_steady (m0 m1 m2 : Machine) :
  idle m0 m1 -> steady (fun e => is_run e = false) m1 m2 -> idle m0 m2.
Proof.
  intros (I1 & e1 & T1 & Q1) (S2 & _ & e2 & T2 & Q2). split; [congruence |].
  exists (e1 ++ e2)%list. split.
  - rewrite T2, T1, app_assoc. reflexivity.
  - apply Forall_app. now split.
Qed.

Lemma hoare_idle_stays {A : Type} (m0 : Machine) (c : M A) :
  stays (fun e => is_run e = false) c -> hoare (idle m0) c (fun _ => True) (idle m0).
Proof.
  intros H. apply (hoare_stays (fun e => is_run e = false)); [exact H |].
  intros m1 m2. apply idle_steady.
Qed.

(** A change of the state that keeps [interactive] and the trace. *)
Lemma hoare_idle_change {A : Type} (m0 : Machine) (c : M A) :
  (forall m, interactive (state (snd (c m))) = interactive (state m) /\
             trace (snd (c m)) = trace m) ->
  hoare (idle m0) c (fun _ => True) (idle m0).
Proof.
  intros Hc m (I1 & evs & T & HQ). split; [| trivial].
  destruct (Hc m) as [I' T']. split; [congruence |].
  exists evs. split; [congruence | exact HQ].
Qed.

Lemma go_keys_split (command : string) :
  str_in command go_keys = false ->
  str_in command ["y"; String "013" ""; " "] = false /\ String.eqb command "c" = false.
Proof.
  unfold str_in, go_keys. cbn [existsb]. intros H.
  apply orb_false_elim in H as [H1 H].
  apply orb_false_elim in H as [H2 H].
  apply orb_false_elim in H as [H3 H].
  apply orb_false_elim in H as [H4 _].
  rewrite H1, H2, H3, H4. now split.
Qed.

(** A turn in which the operator presses none of the keys that run an
    action. *)
Lemma iteration_idle (env : Env) (fuel : nat) (actions : list Action) (m0 : Machine) :
  (forall k, str_in (click_getchar env k) go_keys = false) ->
  interactive (state m0) = true ->
  idle m0 (snd (iteration env fuel actions m0)).
Proof.
  intros Hkeys Hi.
  set (Q := fun e => is_run e = false).
  enough (H : hoare (idle m0) (iteration env fuel actions) (fun _ => True) (idle m0))
    by (apply H, idle_refl, Hi).
  unfold iteration.
  eapply hoare_bind with (J1 := idle m0) (V1 := fun _ => True); [ | intros _ _ | auto ].
  { intros m (I1 & evs & T & HQ). split; [| trivial].
    unfold State_save, bind, get_state, write_file, emit. cbn [snd]. fields.
    split; [exact I1 |]. exists (evs ++ [EvSave (state m)])%list. split.
    - rewrite T, app_assoc. reflexivity.
    - apply Forall_app. split; [exact HQ | repeat constructor]. }
  eapply hoare_bind with (J1 := idle m0) (V1 := fun _ => True); [ | intros s0 _ | auto ].
  { intros m Hm. split; [exact Hm | trivial]. }
  eapply hoare_bind with (J1 := idle m0) (V1 := fun _ => True); [ | intros a _ | auto ].
  { apply hoare_lift; auto. }
  destruct a as [slide_number mth dat].
  eapply hoare_bind with (J1 := idle m0) (V1 := fun _ => True); [ | intros _ _ | auto ].
  { apply hoare_idle_stays, catchup_stays; reflexivity. }
  eapply hoare_bind with (J1 := idle m0) (V1 := fun s => interactive s = true);
    [ | intros s Hs | auto ].
  { intros m Hm. split; [exact Hm |]. intros a E. inversion E. apply Hm. }
  rewrite Hs.
  eapply hoare_bind with (J1 := idle m0) (V1 := fun c => str_in c go_keys = false);
    [ | intros command Hcommand | auto ].
  { intros m Hm. split.
    - apply (idle_steady m0 m); [exact Hm |]. apply getchar_stays. reflexivity.
    - intros a E. inversion E. apply Hkeys. }
  destruct (go_keys_split command Hcommand) as [Hy Hc].
  eapply hoare_bind with (J1 := idle m0) (V1 := fun _ => True);
    [ | intros data' _ | auto ].
  { apply hoare_if; intros _.
    - eapply hoare_bind with (J1 := idle m0) (V1 := fun _ => True);
        [ | intros _ _ | auto ].
      + apply hoare_idle_stays, logging_stays. reflexivity.
      + apply hoare_ret; auto.
    - apply hoare_ret; auto. }
  (* n *)
  apply hoare_if; intros _.
  { eapply hoare_bind with (J1 := idle m0) (V1 := fun _ => True); [ | intros _ _ | auto ].
    - apply hoare_idle_change. intros m. now split.
    - apply hoare_ret; auto. }
  (* p *)
  apply hoare_if; intros _.
  { eapply hoare_bind with (J1 := idle m0) (V1 := fun _ => True); [ | intros _ _ | auto ].
    - apply hoare_idle_change. intros m. now split.
    - apply hoare_ret; auto. }
  (* s *)
  apply hoare_if; intros _.
  { eapply hoare_bind with (J1 := idle m0) (V1 := fun _ => True); [ | intros s1 _ | auto ].
    { intros m Hm. split; [exact Hm | trivial]. }
    eapply hoare_bind with (J1 := idle m0) (V1 := fun _ => True); [ | intros _ _ | auto ].
    - apply hoare_idle_change. intros m. now split.
    - apply hoare_ret; auto. }
  (* v *)
  apply hoare_if; intros _.
  { eapply hoare_bind with (J1 := idle m0) (V1 := fun _ => True); [ | intros s1 _ | auto ].
    { intros m Hm. split; [exact Hm | trivial]. }
    eapply hoare_bind with (J1 := idle m0) (V1 := fun _ => True); [ | intros _ _ | auto ].
    - apply hoare_idle_change. intros m. now split.
    - apply hoare_ret; auto. }
  (* g *)
  apply hoare_if; intros _.
  { eapply hoare_bind with (J1 := idle m0) (V1 := fun _ => True); [ | intros n _ | auto ].
    { intros m Hm. split; [| trivial]. apply (idle_steady m0 m); [exact Hm |].
      apply steady_one with (e := EvPrompt (click_prompt env (prompts m))); reflexivity. }
    eapply hoare_bind with (J1 := idle m0) (V1 := fun _ => True); [ | intros _ _ | auto ].
    { apply hoare_idle_change. intros m. now split. }
    eapply hoare_bind with (J1 := idle m0) (V1 := fun _ => True); [ | intros s1 _ | auto ].
    { intros m Hm. split; [exact Hm | trivial]. }
    eapply hoare_bind with (J1 := idle m0) (V1 := fun _ => True); [ | intros _ _ | auto ].
    { apply hoare_if; intros _.
      - apply hoare_idle_stays, goto_stays; reflexivity.
      - apply hoare_ret; auto. }
    apply hoare_ret; auto. }
  (* q *)
  apply hoare_if; intros _.
  { apply hoare_ret; auto. }
  (* c, y *)
  rewrite Hc, Hy.
  eapply hoare_bind with (J1 := idle m0) (V1 := fun _ => True); [ | intros _ _ | auto ].
  - apply hoare_idle_stays, logging_stays. reflexivity.
  - apply hoare_ret; auto.
Qed.

(** X13.  Nothing runs unconfirmed.  In interactive mode, as long as the
    operator presses none of [y], Enter, space and [c], the loop runs no
    action, however long it goes on: it captures no screen, sends no key,
    opens no page and never sleeps, and it stays interactive. *)
Theorem nothing_runs_unconfirmed (env : Env) (fuel : nat) (actions : list Action)
        (m : Machine) :
  interactive (state m) = true ->
  (forall k, str_in (click_getchar env k) go_keys = false) ->
  interactive (state (snd (main_loop env fuel actions m))) = true /\
  Forall (fun e => is_run e = false) (added m (snd (main_loop env fuel actions m))).
Proof.
  intros Hi Hkeys.
  enough (H : idle m (snd (main_loop env fuel actions m))).
  { destruct H as (I & evs & T & HQ). split; [exact I |].
    now rewrite (added_app _ _ evs T). }
  revert m Hi. induction fuel as [| f IH]; intros m Hi.
  - apply idle_refl, Hi.
  - rewrite main_loop_step.
    destruct (next_step (state m) <? Z.of_nat (List.length actions));
      [| apply idle_refl, Hi].
    pose proof (iteration_idle env f actions m Hkeys Hi) as H.
    destruct (iteration env f actions m) as [[[|] | e |] m1]; cbn [snd] in *; try exact H.
    eapply idle_trans; [exact H |]. apply IH. apply H.
Qed.

Lemma nothing_runs_unconfirmed_witness :
  Forall (fun e => is_run e = false)
         (added (boot Missing)
                (snd (main_loop (Demo.env_of (fun _ => "$") (fun _ => "n") (fun _ => 0))
                                4 hi_deck (boot Missing)))).
Proof.
  apply (nothing_runs_unconfirmed
           (Demo.env_of (fun _ => "$") (fun _ => "n") (fun _ => 0)) 4 hi_deck (boot Missing)).
  - reflexivity.
  - intros k. reflexivity.
Defined.

(* ------------------------------------------------------------------ *)
(** * The head of an unattended turn *)

(** X14.  Slides before snippets.  In an unattended turn with an action
    at the cursor, by the time the action is dispatched the slide show is
    on the slide of the action; up to there the turn has saved the state,
    moved the slides only if another slide was shown, focused the terminal
    and logged the action, with the data stripped and without backticks. *)
Theorem unattended_turn_shows_slide (env : Env) (f : nat) (actions : list Action)
        (m : Machine) (a : Action) :
  interactive (state m) = false ->
  py_index actions (next_step (state m)) = Ok a ->
  exists m1,
    iteration env (S (S f)) actions m
    = (dispatch env actions (method a) (clean (data a)) ;;
       add_next_step 1 ;; ret Continue) m1 /\
    slide_on_screen m1 = slide a /\
    state m1 = state m /\
    added m m1 = head_events (state m) (slide_on_screen m) a.
Proof.
  intros Hi Ha.
  destruct (iteration_unattended_head env f actions m a Hi Ha)
    as (m1 & S1 & _ & _ & N1 & T1 & E).
  exists m1. split; [exact E |]. split; [exact N1 |]. split; [exact S1 |].
  now apply added_app.
Qed.

Lemma unattended_turn_shows_slide_witness :
  exists m1,
    iteration (Demo.still "$") 2 hi_deck (Demo.machine_of (Demo.unattended false 0))
    = (dispatch (Demo.still "$") hi_deck "bash" (clean "echo hi") ;;
       add_next_step 1 ;; ret Continue) m1 /\
    slide_on_screen m1 = 1 /\
    state m1 = Demo.unattended false 0 /\
    added (Demo.machine_of (Demo.unattended false 0)) m1
    = head_events (Demo.unattended false 0) 0
                  {| slide := 1; method := "bash"; data := "echo hi" |}.
Proof.
  apply (unattended_turn_shows_slide
           (Demo.still "$") 0 hi_deck (Demo.machine_of (Demo.unattended false 0))
           {| slide := 1; method := "bash"; data := "echo hi" |}).
  - reflexivity.
  - reflexivity.
Defined.

(* ------------------------------------------------------------------ *)
(** * Backticks *)

Lemma replace_char_without (c : ascii) (s : string) :
  replace (String c "") "" s = without c s.
Proof.
  unfold replace. induction s as [| d t IH]; [reflexivity |].
  cbn [replace_from without startswith String.length Nat.sub].
  rewrite andb_true_r, (Ascii.eqb_sym c d).
  destruct (Ascii.eqb d c); cbn [append]; now rewrite IH.
Qed.

Lemma without_absent (c : ascii) (s : string) :
  contains (String c "") s = false -> without c s = s.
Proof.
  induction s as [| d t IH]; [reflexivity |].
  cbn [contains startswith without]. rewrite andb_true_r, (Ascii.eqb_sym c d).
  intros H. apply orb_false_elim in H as [H1 H2]. rewrite H1, (IH H2). reflexivity.
Qed.

Lemma contains_without (c : ascii) (s : string) :
  contains (String c "") (without c s) = false.
Proof.
  induction s as [| d t IH]; [reflexivity |].
  cbn [without]. destruct (Ascii.eqb d c) eqn:E; [exact IH |].
  cbn [contains startswith]. rewrite andb_true_r, (Ascii.eqb_sym c d), E, IH. reflexivity.
Qed.

(** The data of an action, cleaned: stripped of white space at both
    ends, and with the backticks, and only them, taken out. *)
Lemma clean_without (data : string) :
  clean data = without "`" (strip data) /\
  contains "`" (clean data) = false.
Proof.
  assert (E : clean data = without "`" (strip data)).
  { unfold clean. destruct (contains "`" (strip data)) eqn:C.
    - apply replace_char_without.
    - symmetry. now apply without_absent. }
  split; [exact E |]. rewrite E. apply contains_without.
Qed.

(* ------------------------------------------------------------------ *)
(** * The load at the start *)


(** X22.  The load at the start is safe.  Whatever the state file holds,
    the load returns, writes nothing to the file and does nothing but log;
    and since [next_step] is the last field read and a complete load turns
    [interactive] on, the program ends the load either interactive or
    with the cursor it had: it never starts by itself in the middle of the
    deck. *)
Theorem load_state_is_safe (m : Machine) :
  fst (load_state m) = Ok tt /\
  state_yaml (snd (load_state m)) = state_yaml m /\
  Forall (fun e => is_log e = true) (added m (snd (load_state m))) /\
  (interactive (state (snd (load_state m))) = true \/
   next_step (state (snd (load_state m))) = next_step (state m)).
Proof.
  split; [apply load_state_recovers |].
  unfold load_state, try_except, State_load, bind, read_file, lift.
  destruct (state_yaml m) as [| | d] eqn:F; cbn [raise ret].
  1, 2: split; [exact F |]; split; [| now right];
    rewrite (added_app _ _ [EvLog ERROR "Could not load state from file." [];
                            EvLog WARNING "Using default values." []]);
    [repeat constructor | cbn; now rewrite <- app_assoc].
  destruct (py_getitem d "interactive") as [v1 | e1 |]; cbn.
  2: { split; [exact F |]. split; [| now right].
       rewrite (added_app _ _ [EvLog ERROR "Could not load state from file." [];
                               EvLog WARNING "Using default values." []]);
         [repeat constructor | cbn; now rewrite <- app_assoc]. }
  2: { split; [exact F |]. split; [| now right].
       rewrite (added_app _ _ []); [constructor | cbn; now rewrite app_nil_r]. }
  destruct (py_getitem d "verify_status") as [v2 | e2 |]; cbn.
  2: { split; [exact F |]. split; [| now right].
       rewrite (added_app _ _ [EvLog ERROR "Could not load state from file." [];
                               EvLog WARNING "Using default values." []]);
         [repeat constructor | cbn; now rewrite <- app_assoc]. }
  2: { split; [exact F |]. split; [| now right].
       rewrite (added_app _ _ []); [constructor | cbn; now rewrite app_nil_r]. }
  destruct (py_getitem d "simulate_type") as [v3 | e3 |]; cbn.
  2: { split; [exact F |]. split; [| now right].
       rewrite (added_app _ _ [EvLog ERROR "Could not load state from file." [];
                               EvLog WARNING "Using default values." []]);
         [repeat constructor | cbn; now rewrite <- app_assoc]. }
  2: { split; [exact F |]. split; [| now right].
       rewrite (added_app _ _ []); [constructor | cbn; now rewrite app_nil_r]. }
  destruct (py_getitem d "next_step") as [v4 | e4 |]; cbn.
  2: { split; [exact F |]. split; [| now right].
       rewrite (added_app _ _ [EvLog ERROR "Could not load state from file." [];
                               EvLog WARNING "Using default values." []]);
         [repeat constructor | cbn; now rewrite <- app_assoc]. }
  2: { split; [exact F |]. split; [| now right].
       rewrite (added_app _ _ []); [constructor | cbn; now rewrite app_nil_r]. }
  destruct (py_int v4) as [n | e5 |]; cbn.
  - split; [exact F |]. split; [| now left].
    rewrite (added_app _ _ [EvLog INFO "Successfully loaded state from file." []]);
      [repeat constructor | reflexivity].
  - split; [exact F |]. split; [| now right].
    rewrite (added_app _ _ [EvLog ERROR "Could not load state from file." [];
                            EvLog WARNING "Using default values." []]);
      [repeat constructor | cbn; now rewrite <- app_assoc].
  - split; [exact F |]. split; [| now right].
    rewrite (added_app _ _ []); [constructor | cbn; now rewrite app_nil_r].
Qed.

(* ------------------------------------------------------------------ *)
(** * From snippets to actions *)

Lemma contains_char (c d : ascii) (t : string) :
  contains (String c "") (String d t) = Ascii.eqb c d || contains (String c "") t.
Proof. cbn [contains startswith]. now rewrite andb_true_r. Qed.

Lemma split_once_absent (c : ascii) (s : string) :
  contains (String c "") s = false -> split_once c s = [s].
Proof.
  induction s as [| d t IH]; [reflexivity |].
  rewrite contains_char. intros H. apply orb_false_elim in H as [H1 H2].
  cbn [split_once]. rewrite (Ascii.eqb_sym d c), H1, (IH H2). reflexivity.
Qed.

Lemma split_once_present (c : ascii) (s : string) :
  contains (String c "") s = true ->
  exists a b, split_once c s = [a; b] /\ s = a ++ String c b /\
              contains (String c "") a = false.
Proof.
  induction s as [| d t IH]; [discriminate |].
  rewrite contains_char. intros H. cbn [split_once]. rewrite (Ascii.eqb_sym d c).
  destruct (Ascii.eqb c d) eqn:E.
  - apply Ascii.eqb_eq in E. subst d. exists "", t. repeat split.
  - destruct (IH H) as (a & b & S1 & S2 & S3). rewrite S1.
    exists (String d a), b. split; [reflexivity |]. split; [now rewrite S2 |].
    rewrite contains_char, E, S3. reflexivity.
Qed.

(** X17.  What the loop makes of a snippet.  The method is what stands
    before the first line feed of the snippet, the data what stands after
    it; a snippet of one line is cut at its first space instead.  Method,
    separator and data put together are the snippet again, and nothing is
    stripped.  A snippet that has neither a line feed nor a space raises
    [ValueError], and nothing else does. *)
Theorem snippet_action_cuts_once (n : Z) (content : string) :
  match snippet_action n content with
  | Ok a =>
      slide a = n /\
      exists sep,
        (sep = nl_char \/
         (sep = " "%char /\ contains nl content = false)) /\
        content = method a ++ String sep (data a) /\
        contains (String sep "") (method a) = false
  | Raise e =>
      e = ValueError /\ contains nl content = false /\ contains " " content = false
  | OutOfFuel => False
  end.
Proof.
  unfold snippet_action. destruct (contains nl content) eqn:N.
  - destruct (split_once_present nl_char content N) as (a & b & -> & E & C).
    cbn. split; [reflexivity |]. exists nl_char. split; [now left |]. now split.
  - destruct (contains " " content) eqn:P.
    + destruct (split_once_present " " content P) as (a & b & -> & E & C).
      cbn. split; [reflexivity |]. exists " "%char. split; [now right |]. now split.
    + rewrite (split_once_absent " " content P). cbn. now repeat split.
Qed.

Lemma snippet_action_ok (n : Z) (content : string) :
  cuttable content = true ->
  exists a, snippet_action n content = Ok a /\ slide a = n.
Proof.
  unfold cuttable. intros H. pose proof (snippet_action_cuts_once n content) as S.
  destruct (snippet_action n content) as [a | e |]; [| | contradiction].
  - exists a. split; [reflexivity | apply S].
  - destruct S as (_ & S1 & S2). rewrite S1, S2 in H. discriminate.
Qed.

Lemma snippet_action_raise (n : Z) (content : string) :
  cuttable content = false -> snippet_action n content = Raise ValueError.
Proof.
  unfold cuttable. intros H. apply orb_false_elim in H as [N P].
  unfold snippet_action. rewrite N, (split_once_absent " " content P). reflexivity.
Qed.

Lemma snippets_loop_spec (n : Z) (snippets : list string) (actions : list Action) :
  if forallb cuttable snippets
  then exists new, snippets_loop n snippets actions = Ok (actions ++ new)%list /\
                   map Ok new = map (snippet_action n) snippets /\
                   map slide new = repeat n (List.length snippets)
  else snippets_loop n snippets actions = Raise ValueError.
Proof.
  revert actions. induction snippets as [| c rest IH]; intros actions.
  - cbn. exists []. split; [now rewrite app_nil_r | now split].
  - cbn [forallb snippets_loop].
    destruct (cuttable c) eqn:C; cbn [andb].
    + destruct (snippet_action_ok n c C) as (a & Ea & Sa). rewrite Ea.
      specialize (IH (actions ++ [a])%list).
      destruct (forallb cuttable rest).
      * destruct IH as (new & E & Mn & Sn). exists (a :: new). split; [| split].
        -- rewrite E, <- app_assoc. reflexivity.
        -- cbn [map]. now rewrite Ea, Mn.
        -- cbn [map List.length repeat]. now rewrite Sa, Sn.
      * exact IH.
    + now rewrite (snippet_action_raise n c C).
Qed.

Lemma actions_loop_spec (slides : list Slide) (actions : list Action) :
  if forallb (fun s => forallb cuttable (snippets s)) slides
  then exists new, actions_loop slides actions = Ok (actions ++ new)%list /\
                   map Ok new
                   = map (fun p => snippet_action (fst p) (snd p)) (deck_snippets slides) /\
                   map slide new = slide_numbers slides
  else actions_loop slides actions = Raise ValueError.
Proof.
  revert actions. induction slides as [| s rest IH]; intros actions.
  - cbn. exists []. split; [now rewrite app_nil_r | now split].
  - cbn [forallb actions_loop].
    pose proof (snippets_loop_spec (number s) (snippets s) actions) as S.
    destruct (forallb cuttable (snippets s)); cbn [andb].
    + destruct S as (new1 & -> & M1 & N1). specialize (IH (actions ++ new1)%list).
      destruct (forallb (fun s => forallb cuttable (snippets s)) rest).
      * destruct IH as (new2 & E & M2 & N2). exists (new1 ++ new2)%list.
        split; [| split].
        -- rewrite E, <- app_assoc. reflexivity.
        -- unfold deck_snippets. cbn [flat_map].
           rewrite !map_app, M1, map_map. f_equal. exact M2.
        -- unfold slide_numbers. cbn [flat_map]. rewrite map_app, N1. f_equal. exact N2.
      * exact IH.
    + now rewrite S.
Qed.

(** X18.  All the actions or none.  When every snippet of the deck has a
    line feed or a space, the loop makes one action of each snippet, in
    the order of the deck, each cut as above and with the number of its
    slide.  When one snippet has neither, the loop raises [ValueError] and
    there is no list of actions at all. *)
Theorem actions_all_or_none (slides : list Slide) :
  if forallb (fun s => forallb cuttable (snippets s)) slides
  then exists actions,
      actions_loop slides [] = Ok actions /\
      map Ok actions
      = map (fun p => snippet_action (fst p) (snd p)) (deck_snippets slides) /\
      map slide actions = slide_numbers slides
  else actions_loop slides [] = Raise ValueError.
Proof. exact (actions_loop_spec slides []). Qed.

(* ------------------------------------------------------------------ *)
(** * The pieces of a split *)

Lemma split_from_cons (sep : string) (skip : nat) (s : string) :
  exists piece rest, split_from sep skip s = piece :: rest.
Proof.
  revert skip. induction s as [| c t IH]; intros skip; [now exists "", [] |].
  cbn [split_from]. destruct skip as [| k]; [| apply IH].
  destruct (startswith (String c t) sep); [now eexists; eexists |].
  destruct (IH O) as (p & r & ->). now eexists; eexists.
Qed.

(** The first piece is the text up to the first separator. *)
Lemma split_head_prefix (sep s piece : string) (rest : list string) :
  split_from sep O s = piece :: rest -> exists u, s = piece ++ u.
Proof.
  revert piece rest. induction s as [| c t IH]; intros piece rest.
  - cbn. intros E. inversion E. now exists "".
  - cbn [split_from]. destruct (startswith (String c t) sep).
    + intros E. inversion E. now exists (String c t).
    + destruct (split_from_cons sep O t) as (p & r & E0). rewrite E0.
      intros E. injection E as <- <-. destruct (IH p r E0) as [u ->]. now exists u.
Qed.

Lemma startswith_app (s p u : string) :
  startswith s p = true -> startswith (s ++ u) p = true.
Proof.
  intros H. apply startswith_spec in H as [t ->]. apply startswith_spec.
  exists (t ++ u). apply append_assoc.
Qed.

(** No piece of a split has the separator in it. *)
Lemma split_from_pieces (sep : string) (skip : nat) (s : string) :
  sep <> "" ->
  Forall (fun piece => contains sep piece = false) (split_from sep skip s).
Proof.
  intros Hsep.
  assert (E0 : contains sep "" = false) by (destruct sep; [congruence | reflexivity]).
  revert skip. induction s as [| c t IH]; intros skip.
  - repeat constructor. exact E0.
  - cbn [split_from]. destruct skip as [| k]; [| apply IH].
    destruct (startswith (String c t) sep) eqn:P.
    + constructor; [exact E0 | apply IH].
    + specialize (IH O). destruct (split_from_cons sep O t) as (p & r & E).
      rewrite E in IH |- *.
      pose proof (Forall_inv IH) as Hp. pose proof (Forall_inv_tail IH) as Hr.
      constructor; [| exact Hr].
      cbn [contains]. rewrite Hp, orb_false_r.
      destruct (startswith (String c p) sep) eqn:P'; [| reflexivity].
      destruct (split_head_prefix sep t p r E) as [u ->].
      apply (startswith_app _ _ u) in P'. cbn [append] in P'. congruence.
Qed.

Lemma odd_items_Forall {A : Type} (P : A -> Prop) (l : list A) :
  Forall P l -> Forall P (odd_items l).
Proof.
  revert l. fix IH 1. intros [| a [| b rest]] H; cbn [odd_items]; try constructor.
  - inversion H as [| ? ? _ H1]; subst. now inversion H1.
  - apply IH. inversion H as [| ? ? _ H1]; subst. now inversion H1.
Qed.

(* ------------------------------------------------------------------ *)
(** * Slides *)

Lemma add_snippets_fenceless (number : Z) (exercises : list PyRe.found)
      (acc snippets : list string) (m m' : Machine) :
  add_snippets number exercises acc m = (Ok snippets, m') ->
  Forall (fun c => contains fence c = false) acc ->
  Forall (fun c => contains fence c = false) snippets.
Proof.
  revert acc m. induction exercises as [| x rest IH]; intros acc m.
  - cbn. intros E. now inversion E.
  - cbn [add_snippets]. unfold bind at 1.
    destruct x as [e | l].
    + destruct (contains fence e).
      * cbn [ret]. intros E Hacc. apply (IH _ _ E). apply Forall_app. split; [exact Hacc |].
        apply odd_items_Forall, split_from_pieces. discriminate.
      * cbn. intros E Hacc. exact (IH _ _ E Hacc).
    + destruct (str_in fence l).
      * cbn. discriminate.
      * cbn. intros E Hacc. exact (IH _ _ E Hacc).
Qed.

Lemma add_snippets_stays (Q : event -> Prop) (number : Z) (exercises : list PyRe.found)
      (acc : list string) :
  (forall fmt args, Q (EvLog WARNING fmt args)) ->
  stays Q (add_snippets number exercises acc).
Proof.
  intros HQ. revert acc. induction exercises as [| x rest IH]; intros acc; cbn [add_snippets].
  - stays_step.
  - repeat (stays_step; auto using logging_stays).
Qed.

Lemma Slide_init_stays (env : Env) (Q : event -> Prop) (current : Z) (text : string) :
  (forall fmt args, Q (EvLog WARNING fmt args)) ->
  stays Q (Slide_init env current text).
Proof.
  intros HQ. unfold Slide_init.
  repeat (stays_step; auto using findall_stays, add_snippets_stays).
Qed.

Lemma hd_split_clean (sep s : string) :
  sep <> "" -> contains sep (hd "" (split sep s)) = false.
Proof.
  intros Hsep. pose proof (split_from_pieces sep O s Hsep) as H. unfold split.
  destruct (split_from_cons sep O s) as (p & r & E). rewrite E in *. cbn [hd].
  exact (Forall_inv H).
Qed.

(** What a slide is made of. *)
Lemma Slide_init_spec (env : Env) (current : Z) (text : string) (made : Z * Slide)
      (m m' : Machine) :
  Slide_init env current text m = (Ok made, m') ->
  fst made = current + 1 /\
  number (snd made) = current + 1 /\
  contains notes_rule (content (snd made)) = false /\
  Forall (fun c => contains fence c = false) (snippets (snd made)).
Proof.
  unfold Slide_init. unfold bind at 1.
  destruct (findall env _ _ _ m) as [[exercises | e |] m1]; try discriminate.
  unfold bind at 1.
  destruct (add_snippets (current + 1) exercises [] m1) as [[snips | e |] m2] eqn:A;
    try discriminate.
  cbn [ret]. intros E. injection E as <- <-. cbn [fst snd number content snippets].
  split; [reflexivity |]. split; [reflexivity |]. split.
  - apply hd_split_clean. discriminate.
  - apply (add_snippets_fenceless _ _ _ _ _ _ A). constructor.
Qed.

Lemma seq_numbers (cur : Z) (n : nat) :
  map (fun i => cur + Z.of_nat i) (seq 1 (S n))
  = (cur + 1) :: map (fun i => cur + 1 + Z.of_nat i) (seq 1 n).
Proof.
  cbn [seq map]. f_equal.
  rewrite <- seq_shift, map_map. apply map_ext. intros i. lia.
Qed.

(** The loop over the pieces of the deck: the slides it adds are numbered
    from the counter on, and every piece is either left out, with its
    log, or made into a slide. *)
Lemma slides_loop_spec (env : Env) (excluded : list string) (pieces : list string) :
  forall (current : Z) (acc : list Slide) (m : Machine)
         (made : Z * list Slide) (m' : Machine),
    slides_loop env excluded current pieces acc m = (Ok made, m') ->
    exists new evs,
      snd made = (acc ++ new)%list /\
      fst made = current + Z.of_nat (List.length new) /\
      map number new = map (fun i => current + Z.of_nat i) (seq 1 (List.length new)) /\
      trace m' = (trace m ++ evs)%list /\
      (List.length new + List.length (filter is_skip evs) = List.length pieces)%nat /\
      Forall (fun s => contains notes_rule (content s) = false /\
                       Forall (fun c => contains fence c = false) (snippets s)) new.
Proof.
  induction pieces as [| piece rest IH]; intros current acc m made m'.
  - cbn. intros E. injection E as <- <-. exists [], []. cbn.
    rewrite !app_nil_r. repeat split; try reflexivity; try lia. constructor.
  - cbn [slides_loop]. unfold bind at 1.
    assert (F : forall p fl t, snd (findall env p fl t m) = m)
      by (intros p fl t; unfold findall; now destruct (re_findall env p fl t)).
    specialize (F "class: (.*)" {| PyRe.multiline := false; PyRe.dotall := false |} piece).
    destruct (findall env _ _ piece m) as [[found | e |] m1]; try discriminate.
    cbn [snd] in F. subst m1. unfold bind at 1.
    assert (C : exists classes,
               forall k : list string -> M (Z * list Slide),
                 (match (match found with
                         | [] => ret []
                         | PyRe.FStr c :: _ => ret (map strip (split "," c))
                         | PyRe.FTuple _ :: _ => raise AttributeError
                         end) m with
                  | (Ok a, m1) => k a m1
                  | (Raise e, m1) => (Raise e, m1)
                  | (OutOfFuel, m1) => (OutOfFuel, m1)
                  end) = (Ok made, m') -> k classes m = (Ok made, m')).
    { destruct found as [| [c | l] ?]; cbn; eauto. exists []. discriminate. }
    destruct C as [classes C]. intros E. apply C in E. clear C.
    destruct (existsb (fun c => str_in c excluded) classes).
    + rewrite (bind_ok (logging INFO "Skipping excluded slide." []) _ m
                       (snd (logging INFO "Skipping excluded slide." [] m)) tt eq_refl) in E.
      destruct (IH _ _ _ _ _ E) as (new & evs & H1 & H2 & H3 & H4 & H5 & H6).
      exists new, (EvLog INFO "Skipping excluded slide." [] :: evs).
      split; [exact H1 |]. split; [exact H2 |]. split; [exact H3 |]. split; [| split].
      * rewrite H4. cbn. rewrite <- app_assoc. reflexivity.
      * cbn [filter is_skip String.eqb]. cbn. lia.
      * exact H6.
    + unfold bind at 1 in E.
      pose proof (Slide_init_stays env (fun e => is_skip e = false) current piece
                                   (fun _ _ => eq_refl) m) as St.
      destruct (Slide_init env current piece m) as [[one | e |] m1] eqn:SI;
        try discriminate.
      cbn [snd] in St. destruct St as (_ & _ & evs1 & T1 & Q1).
      destruct (Slide_init_spec env current piece one m m1 SI) as (N1 & N2 & N3 & N4).
      destruct (IH _ _ _ _ _ E) as (new & evs & H1 & H2 & H3 & H4 & H5 & H6).
      exists (snd one :: new), (evs1 ++ evs)%list.
      split; [| split; [| split; [| split; [| split]]]].
      * rewrite H1, <- app_assoc. reflexivity.
      * rewrite H2, N1. cbn [List.length]. lia.
      * cbn [List.length]. rewrite seq_numbers. cbn [map]. rewrite N2. f_equal.
        rewrite H3, N1. reflexivity.
      * rewrite H4, T1, <- app_assoc. reflexivity.
      * rewrite filter_app, length_app. cbn [List.length].
        replace (filter is_skip evs1) with (@nil event); [cbn; lia |].
        symmetry. clear T1. induction evs1 as [| e1 evs1 IH1]; [reflexivity |].
        cbn [filter]. rewrite (Forall_inv Q1). apply IH1. exact (Forall_inv_tail Q1).
      * constructor; [now split | exact H6].
Qed.

(** X19.  Slides are numbered as they are kept.  The slides that the loop
    keeps are numbered 1, 2, 3, ... in the order of the deck; a slide of
    an excluded class is left out with a log and takes no number, and
    every piece of the deck is either left out or kept. *)
Theorem slides_numbered_as_kept (env : Env) (excluded : list string) (pieces : list string)
        (m : Machine) (made : Z * list Slide) (m' : Machine) :
  slides_loop env excluded 0 pieces [] m = (Ok made, m') ->
  map number (snd made) = map Z.of_nat (seq 1 (List.length (snd made))) /\
  fst made = Z.of_nat (List.length (snd made)) /\
  (List.length (snd made) + List.length (filter is_skip (added m m'))
   = List.length pieces)%nat.
Proof.
  intros E.
  destruct (slides_loop_spec env excluded pieces 0 [] m made m' E)
    as (new & evs & H1 & H2 & H3 & H4 & H5 & _).
  cbn [app] in H1. rewrite H1, (added_app _ _ evs H4).
  split; [exact H3 |]. split; [rewrite H2; lia | exact H5].
Qed.

Lemma slides_numbered_as_kept_witness :
  let run := slides_loop (Demo.still "") ["extra"] 0 (split_slides a_deck) []
                         (boot Missing) in
  let made := match fst run with Ok made => made | _ => (0, []) end in
  map number (snd made) = map Z.of_nat (seq 1 (List.length (snd made))) /\
  fst made = Z.of_nat (List.length (snd made)) /\
  (List.length (snd made) + List.length (filter is_skip (added (boot Missing) (snd run)))
   = List.length (split_slides a_deck))%nat.
Proof.
  intros run made.
  apply (slides_numbered_as_kept (Demo.still "") ["extra"] (split_slides a_deck)
                                 (boot Missing) made (snd run)).
  vm_compute. reflexivity.
Defined.

(** X20.  No fence in a snippet, no notes on a slide.  The content of a
    slide stops before the rule of the speaker notes, and the snippets are
    cut at every fence: whatever the deck, no slide made by the loop holds
    the rule of the notes and none of its snippets holds a fence. *)
Theorem slides_without_notes_and_fences (env : Env) (excluded : list string)
        (pieces : list string) (m : Machine) (made : Z * list Slide) (m' : Machine) :
  slides_loop env excluded 0 pieces [] m = (Ok made, m') ->
  Forall (fun s => contains notes_rule (content s) = false /\
                   Forall (fun c => contains fence c = false) (snippets s)) (snd made).
Proof.
  intros E.
  destruct (slides_loop_spec env excluded pieces 0 [] m made m' E)
    as (new & evs & H1 & _ & _ & _ & _ & H6).
  cbn [app] in H1. rewrite H1. exact H6.
Qed.

Lemma slides_without_notes_and_fences_witness :
  let run := slides_loop (Demo.still "") ["extra"] 0 (split_slides a_deck) []
                         (boot Missing) in
  let made := match fst run with Ok made => made | _ => (0, []) end in
  Forall (fun s => contains notes_rule (content s) = false /\
                   Forall (fun c => contains fence c = false) (snippets s)) (snd made).
Proof.
  intros run made.
  apply (slides_without_notes_and_fences
           (Demo.still "") ["extra"] (split_slides a_deck) (boot Missing) made (snd run)).
  vm_compute. reflexivity.
Defined.

(* ------------------------------------------------------------------ *)
(** * The order of the actions *)

Lemma rising_repeat (n : Z) (k : nat) (l : list Z) :
  Forall (fun x => n <= x) l -> rising l = true -> rising (repeat n k ++ l) = true.
Proof.
  intros Hl Hr. induction k as [| k IH]; [exact Hr |].
  cbn [repeat app]. destruct (repeat n k ++ l)%list as [| b rest] eqn:E; [reflexivity |].
  cbn [rising]. cbn [rising] in IH. rewrite IH, andb_true_r. apply Z.leb_le.
  destruct k as [| k]; cbn [repeat app] in E.
  - subst l. exact (Forall_inv Hl).
  - injection E as <- _. lia.
Qed.

Lemma slide_numbers_rise (slides : list Slide) :
  forall current : Z,
    map number slides = map (fun i => current + Z.of_nat i) (seq 1 (List.length slides)) ->
    rising (slide_numbers slides) = true /\
    Forall (fun x => current + 1 <= x) (slide_numbers slides).
Proof.
  induction slides as [| s rest IH]; intros current H.
  - split; [reflexivity | constructor].
  - cbn [List.length] in H. rewrite seq_numbers in H. cbn [map] in H.
    injection H as H1 H2. destruct (IH (current + 1) H2) as [R F].
    unfold slide_numbers in *. cbn [flat_map]. rewrite H1.
    assert (F' : Forall (fun x => current + 1 <= x)
                        (flat_map (fun s => repeat (number s) (List.length (snippets s)))
                                  rest))
      by (eapply Forall_impl; [| exact F]; cbn; intros; lia).
    split.
    + apply rising_repeat; assumption.
    + apply Forall_app. split; [| exact F'].
      apply Forall_forall. intros x Hx. apply repeat_spec in Hx. lia.
Qed.

(** X21.  The actions follow the deck.  In the list of actions that the
    program makes of a deck, the slide numbers start at 1 or above and
    never go down from one action to the next: a run that only steps
    forward never has to take the slide show back. *)
Theorem deck_actions_rise (env : Env) (excluded : list string) (text : string)
        (m : Machine) (actions : list Action) (m' : Machine) :
  load_deck env excluded text m = (Ok actions, m') ->
  rising (map slide actions) = true /\
  Forall (fun a => 1 <= slide a) actions.
Proof.
  unfold load_deck, bind.
  destruct (slides_loop env excluded 0 (split_slides text) [] m) as [[made | e |] m1] eqn:E;
    try discriminate.
  destruct (slides_loop_spec env excluded _ 0 [] m made m1 E)
    as (new & evs & H1 & _ & H3 & _).
  cbn [app] in H1. rewrite H1. unfold lift.
  pose proof (actions_loop_spec new []) as A.
  destruct (forallb (fun s => forallb cuttable (snippets s)) new).
  - destruct A as (acts & -> & _ & N). cbn [app]. intros X. injection X as <- _.
    destruct (slide_numbers_rise new 0 H3) as [R F]. rewrite N. split; [exact R |].
    rewrite <- N in F. rewrite Forall_forall in F. apply Forall_forall.
    intros a Ha. apply (F (slide a)), in_map, Ha.
  - rewrite A. discriminate.
Qed.

Lemma deck_actions_rise_witness :
  let run := load_deck (Demo.still "") ["extra"] a_deck (boot Missing) in
  let actions := match fst run with Ok actions => actions | _ => [] end in
  rising (map slide actions) = true /\ Forall (fun a => 1 <= slide a) actions.
Proof.
  intros run actions.
  apply (deck_actions_rise (Demo.still "") ["extra"] a_deck (boot Missing) actions (snd run)).
  vm_compute. reflexivity.
Defined.

(* ------------------------------------------------------------------ *)
(** * Joining the pieces of a split *)

Lemma split_from_skip (sep p u : string) :
  split_from sep (String.length p) (p ++ u) = split_from sep O u.
Proof. induction p as [| c p IH]; [reflexivity | exact IH]. Qed.

Lemma join_cons (sep : string) (c : ascii) (piece : string) (rest : list string) :
  join sep (String c piece :: rest) = String c (join sep (piece :: rest)).
Proof. destruct rest; reflexivity. Qed.

Lemma length_append (a b : string) :
  String.length (a ++ b) = (String.length a + String.length b)%nat.
Proof. induction a as [| c a IH]; cbn; [reflexivity | now rewrite IH]. Qed.

(** The pieces of a split, joined by the separator, are the text. *)
Lemma join_split (sep s : string) : sep <> "" -> join sep (split sep s) = s.
Proof.
  intros Hsep. unfold split.
  remember (String.length s) as n eqn:Hn. revert s Hn.
  induction n as [n IH] using lt_wf_ind. intros s Hn.
  destruct s as [| c t]; [reflexivity |].
  cbn [split_from]. destruct (startswith (String c t) sep) eqn:P.
  - apply startswith_spec in P as [u P].
    destruct sep as [| d sep']; [congruence |].
    cbn [append] in P. injection P as <- ->.
    cbn [String.length Nat.sub]. rewrite Nat.sub_0_r, split_from_skip.
    assert (J : join (String c sep') (split_from (String c sep') O u) = u).
    { apply (IH (String.length u)); [| reflexivity].
      subst n. cbn [String.length]. rewrite length_append. lia. }
    destruct (split_from_cons (String c sep') O u) as (p & r & E).
    rewrite E in J |- *.
    change (join (String c sep') ("" :: p :: r))
      with ("" ++ String c sep' ++ join (String c sep') (p :: r)).
    rewrite J. reflexivity.
  - assert (J : join sep (split_from sep O t) = t)
      by (apply (IH (String.length t)); [subst n; cbn; lia | reflexivity]).
    destruct (split_from_cons sep O t) as (p & r & E).
    rewrite E in J |- *. rewrite join_cons, J. reflexivity.
Qed.

(* ------------------------------------------------------------------ *)
(** * What [send_keys] sends *)

Lemma sent_keys_quiet (evs : list event) :
  Forall (fun e => is_send e = false) evs -> sent_keys evs = [].
Proof.
  induction 1 as [| e evs He _ IH]; [reflexivity |].
  destruct e; try exact IH. discriminate He.
Qed.

Lemma append_nl_nonempty (s : string) : s ++ nl <> "".
Proof. destruct s; discriminate. Qed.

(** [send_keys] of a text that is not empty: it returns, what it adds to
    the trace are sends and sleeps, and the sends are [keys_for]. *)
Lemma send_keys_run (env : Env) (data : string) (m : Machine) :
  data <> "" ->
  exists m' evs,
    send_keys env data m = (Ok tt, m') /\
    trace m' = (trace m ++ evs)%list /\
    sent_keys evs = keys_for (state m) data /\
    Forall (fun e => is_typing e = true) evs /\
    state m' = state m /\ state_yaml m' = state_yaml m /\ captures m' = captures m.
Proof.
  intros Hd.
  destruct (send_keys_ok env data m Hd) as (m' & E & S1 & C1).
  destruct (send_keys_stays env (fun e => is_typing e = true)
                            (fun _ => eq_refl) (fun _ => eq_refl) data m)
    as (_ & F1 & evs & T & Q).
  rewrite E in F1, T. cbn [snd] in F1, T.
  exists m', evs. split; [exact E |]. split; [exact T |].
  split; [| repeat split; assumption].
  destruct data as [| c rest]; [now elim Hd |].
  unfold keys_for. destruct (simulate_type (state m)) eqn:Hs; cbn [andb].
  - destruct (Ascii.eqb_spec c "^") as [-> | N]; cbn [negb].
    + assert (E2 : send_keys env (String "^" rest) m
                   = (Ok tt, snd (emit (EvSendKeys (String "^" rest)) m)))
        by (unfold send_keys, bind, get_state; now rewrite Hs).
      rewrite E2 in E. injection E as <-. cbn in T.
      apply app_inv_head in T. now subst evs.
    + rewrite (send_keys_typed env c rest m Hs N) in E.
      destruct (type_keys_run env (String c rest) m) as (m1 & evs1 & E1 & T1 & K1 & _).
      rewrite E1 in E. injection E as <-. rewrite T1 in T.
      apply app_inv_head in T. now subst evs.
  - assert (E2 : send_keys env (String c rest) m
                 = (Ok tt, snd (emit (EvSendKeys (String c rest)) m)))
      by (unfold send_keys, bind, get_state; now rewrite Hs).
    rewrite E2 in E. injection E as <-. cbn in T.
    apply app_inv_head in T. now subst evs.
Qed.

(* ------------------------------------------------------------------ *)
(** * The [bash] method on the trace *)

(** A [bash] action whose wait sees a prompt at poll [k]: the payload goes
    to the terminal after that capture, then comes the settle delay, then
    the look-ahead and the completion. *)
Lemma dispatch_bash_run (env : Env) (actions : list Action) (payload : string) (m : Machine)
      (k : nat) :
  first_hit at_prompt (tmux_capture env) (captures m) 60 = Some k ->
  exists m2 evs,
    send_keys env (sub_nl_spaces payload ++ nl) (after_polls env m k true) = (Ok tt, m2) /\
    trace m2 = (trace (after_polls env m k true) ++ evs)%list /\
    sent_keys evs = keys_for (state m) (sub_nl_spaces payload ++ nl) /\
    Forall (fun e => is_typing e = true) evs /\
    state m2 = state m /\
    captures m2 = (captures m + k + 1)%nat /\
    dispatch env actions "bash" payload m
    = (next <- lift (py_index actions (next_step (state m) + 1)) ;;
       bash_completion env next) (snd (time_sleep 500 m2)).
Proof.
  intros H.
  destruct (send_keys_run env (sub_nl_spaces payload ++ nl) (after_polls env m k true)
                          (append_nl_nonempty _))
    as (m2 & evs & E & T & K & Q & S2 & _ & C2).
  exists m2, evs. split; [exact E |]. split; [exact T |]. split; [exact K |].
  split; [exact Q |]. split; [exact S2 |]. split; [exact C2 |].
  rewrite (dispatch_bash env actions payload m _ eq_refl).
  unfold bash_protocol.
  rewrite (bind_ok (wait_for_prompt env) _ m (after_polls env m k true) tt)
    by (now rewrite wait_for_prompt_spec, H).
  rewrite (bind_ok _ _ _ _ _ E).
  rewrite (bind_ok (time_sleep 500) _ m2 (snd (time_sleep 500 m2)) tt eq_refl).
  reflexivity.
Qed.

Lemma dispatch_bash_no_prompt (env : Env) (actions : list Action) (payload : string)
      (m : Machine) :
  first_hit at_prompt (tmux_capture env) (captures m) 60 = None ->
  dispatch env actions "bash" payload m
  = (Raise (Exception "Timed out while waiting for prompt!"), after_polls env m 60 false).
Proof.
  intros H. rewrite (dispatch_bash env actions payload m _ eq_refl).
  unfold bash_protocol. apply bind_raise. now rewrite wait_for_prompt_spec, H.
Qed.

Lemma head_events_quiet (s : State) (n : Z) (a : Action) :
  Forall (fun e => is_send e = false) (head_events s n a).
Proof.
  unfold head_events. constructor; [reflexivity |].
  apply Forall_app. split; [destruct (n =? slide a); repeat constructor |].
  apply Forall_app. split; [destruct (contains "`" (strip (data a))) |]; repeat constructor.
Qed.

Lemma after_polls_trace (env : Env) (m : Machine) (k : nat) (hit : bool) :
  exists evs, trace (after_polls env m k hit) = (trace m ++ evs)%list /\
              Forall (fun e => is_send e = false) evs.
Proof.
  eexists. split; [reflexivity |]. apply Forall_app. split.
  - apply poll_events_quiet.
  - destruct hit; repeat constructor.
Qed.

(** The two-action deck, unattended and without verification: the run
    ends as [hi_outcome] says, and the one thing it sends to the terminal
    is the command, once a prompt was seen. *)
Lemma two_action_run_sends (env : Env) (m : Machine) (fuel : nat) :
  interactive (state m) = false -> verify_status (state m) = false ->
  next_step (state m) = 0 -> (4 <= fuel)%nat ->
  exists m',
    main_loop env fuel hi_deck m = (hi_outcome env (captures m), m') /\
    (hi_outcome env (captures m) = Ok tt -> next_step (state m') = 2) /\
    sent_keys (added m m')
    = match first_hit at_prompt (tmux_capture env) (captures m) 60 with
      | Some _ => keys_for (state m) ("echo hi" ++ nl)
      | None => []
      end.
Proof.
  intros Hi Hv Hn Hf.
  destruct fuel as [| [| [| [| fuel]]]]; try lia. clear Hf.
  rewrite main_loop_step, Hn. change (0 <? Z.of_nat (List.length hi_deck)) with true.
  cbv iota.
  destruct (iteration_unattended_head env (S fuel) hi_deck m
              {| slide := 1; method := "bash"; data := "echo hi" |} Hi)
    as (m1 & S1 & _ & C1 & _ & T1 & E1); [now rewrite Hn |].
  rewrite E1. clear E1. cbn [method data]. change (clean "echo hi") with "echo hi".
  pose proof (head_events_quiet (state m) (slide_on_screen m)
                {| slide := 1; method := "bash"; data := "echo hi" |}) as Q1.
  set (ev1 := head_events (state m) (slide_on_screen m)
                {| slide := 1; method := "bash"; data := "echo hi" |}) in *.
  unfold bind at 1. unfold hi_outcome.
  destruct (first_hit at_prompt (tmux_capture env) (captures m) 60) as [k |] eqn:P.
  2:{ rewrite (dispatch_bash_no_prompt env hi_deck "echo hi" m1) by (now rewrite C1).
      eexists. split; [reflexivity |]. split; [discriminate |].
      destruct (after_polls_trace env m1 60 false) as (evs & T & Q).
      rewrite (added_app m _ (ev1 ++ evs)) by (now rewrite T, T1, app_assoc).
      rewrite sent_keys_app, (sent_keys_quiet _ Q1), (sent_keys_quiet _ Q). reflexivity. }
  destruct (dispatch_bash_run env hi_deck "echo hi" m1 k) as
    (m3 & evs3 & _ & T3 & K3 & _ & S3 & C3 & D); [now rewrite C1 |].
  rewrite D. clear D.
  change (sub_nl_spaces "echo hi" ++ nl) with ("echo hi" ++ nl) in K3.
  rewrite S1 in K3, S3.
  destruct (after_polls_trace env m1 k true) as (evs2 & T2 & Q2). rewrite T2 in T3.
  rewrite (bind_ok (lift (py_index hi_deck (next_step (state m1) + 1))) _ _
                   (snd (time_sleep 500 m3))
                   {| slide := 1; method := "wait"; data := "hi" |})
    by (now rewrite S1, Hn).
  set (m4 := snd (time_sleep 500 m3)).
  assert (S4 : state m4 = state m) by (unfold m4; cbn [state snd time_sleep]; exact S3).
  assert (C4 : captures m4 = (captures m + k + 1)%nat)
    by (unfold m4; cbn [captures snd time_sleep]; now rewrite C3, C1).
  assert (T4 : trace m4 = (trace m ++ ev1 ++ evs2 ++ evs3 ++ [EvSleep 500])%list)
    by (unfold m4; cbn [trace snd time_sleep]; rewrite T3, T1, <- !app_assoc; reflexivity).
  unfold bash_completion. cbn [method data].
  simpl (String.eqb "wait" _). cbv iota.
  change TIMEOUT with (1000 * Z.of_nat 60).
  rewrite wait_for_string_spec, C4.
  destruct (first_hit (contains "hi") (tmux_capture env) (captures m + k + 1) 60) as [j |].
  2:{ eexists. split; [reflexivity |]. split; [discriminate |].
      destruct (after_polls_trace env m4 60 false) as (evs & T & Q).
      rewrite (added_app m _ (ev1 ++ evs2 ++ evs3 ++ [EvSleep 500] ++ evs))
        by (rewrite T, T4, <- !app_assoc; reflexivity).
      rewrite !sent_keys_app, (sent_keys_quiet _ Q1), (sent_keys_quiet _ Q2),
        (sent_keys_quiet _ Q), K3. cbn [sent_keys app]. now rewrite app_nil_r. }
  cbv iota.
  destruct (after_polls_trace env m4 j true) as (evs5 & T5 & Q5).
  set (m5 := after_polls env m4 j true) in *.
  rewrite (bind_ok (add_next_step 1) _ m5 (snd (add_next_step 1 m5)) tt eq_refl).
  set (m6 := snd (add_next_step 1 m5)).
  unfold ret at 1.
  assert (S6 : state m6 = {| interactive := false; verify_status := false;
                            simulate_type := simulate_type (state m); next_step := 1 |}).
  { unfold m6, m5. cbn [state snd add_next_step set_next_step bind get_state set_state
                         after_polls interactive verify_status simulate_type next_step].
    rewrite S4, Hi, Hv, Hn. reflexivity. }
  assert (T6 : trace m6 = trace m5) by reflexivity.
  (* the second turn *)
  rewrite main_loop_step, S6. cbn [next_step].
  change (1 <? Z.of_nat (List.length hi_deck)) with true. cbv iota.
  destruct (iteration_unattended_head env fuel hi_deck m6
              {| slide := 1; method := "wait"; data := "hi" |})
    as (m7 & S7 & _ & _ & _ & T7 & E7); [now rewrite S6 | now rewrite S6 |].
  rewrite E7. clear E7. cbn [method data]. change (clean "hi") with "hi".
  pose proof (head_events_quiet (state m6) (slide_on_screen m6)
                {| slide := 1; method := "wait"; data := "hi" |}) as Q7.
  set (ev7 := head_events (state m6) (slide_on_screen m6)
                {| slide := 1; method := "wait"; data := "hi" |}) in *.
  unfold bind at 1.
  change (dispatch env hi_deck "wait" "hi" m7)
    with (Ok tt, snd (logging WARNING "Unknown method {}: {!r}" ["wait"; "hi"] m7)).
  cbv iota.
  set (m8 := snd (logging WARNING "Unknown method {}: {!r}" ["wait"; "hi"] m7)).
  rewrite (bind_ok (add_next_step 1) _ m8 (snd (add_next_step 1 m8)) tt eq_refl).
  unfold ret at 1.
  set (m9 := snd (add_next_step 1 m8)).
  assert (S9 : next_step (state m9) = 2).
  { unfold m9, m8.
    cbn [state snd add_next_step set_next_step bind get_state set_state next_step
         logging emit].
    rewrite S7, S6. reflexivity. }
  rewrite main_loop_step, S9.
  change (2 <? Z.of_nat (List.length hi_deck)) with false. cbv iota.
  exists m9. split; [reflexivity |]. split; [intros _; exact S9 |].
  rewrite (added_app m m9 (ev1 ++ evs2 ++ evs3 ++ [EvSleep 500] ++ evs5 ++ ev7
                           ++ [EvLog WARNING "Unknown method {}: {!r}" ["wait"; "hi"]])).
  - rewrite !sent_keys_app, (sent_keys_quiet _ Q1), (sent_keys_quiet _ Q2),
      (sent_keys_quiet _ Q5), (sent_keys_quiet _ Q7), K3.
    cbn [sent_keys app]. now rewrite app_nil_r.
  - unfold m9, m8. cbn [trace snd add_next_step set_next_step bind get_state set_state
                        logging emit].
    rewrite T7, T6, T5, T4, <- !app_assoc. reflexivity.
Qed.

(** C1 (amended).  A [bash] action waits for a prompt; when none of the 60
    polls shows one it raises the time-out and nothing was sent.  When
    poll [k] shows one, the payload, with the leading spaces of its
    continuation lines stripped and a line feed added, goes to the
    terminal by [tmux send-keys] right after that capture; then comes the
    settle delay of half a second, then the look-ahead at the action after
    the cursor: on [wait] the action waits for the payload of that next
    action for 60 s, on [longwait] for 600 s, otherwise it waits for a
    prompt and verifies the exit status; and when the look-ahead fails,
    its exception is raised there, after the send and the delay.  With
    the cursor counted from the start of the list ([0 <= cursor]) and on
    the last action, the look-ahead raises [IndexError]; with the cursor
    at -1, which also stands for the last action, the look-ahead reads the
    first action of the list and raises nothing.  The deck
    [(1, bash, "echo hi"); (1, wait, "hi")], run unattended without
    verification on any terminal, waits for a prompt, sends [echo hi] and
    a line feed and nothing else, then waits for the string "hi" and for
    no second prompt, and ends with the cursor at 2 (or with the time-out
    of one of the two waits). *)
Theorem bash_dispatch_protocol (env : Env) (actions : list Action) (payload : string)
        (m : Machine) :
  (first_hit at_prompt (tmux_capture env) (captures m) 60 = None ->
   dispatch env actions "bash" payload m
   = (Raise (Exception "Timed out while waiting for prompt!"), after_polls env m 60 false) /\
   sent_keys (added m (snd (dispatch env actions "bash" payload m))) = []) /\
  (forall k,
      first_hit at_prompt (tmux_capture env) (captures m) 60 = Some k ->
      at_prompt (tmux_capture env (captures m + k)) = true /\
      exists m2 evs,
        trace m2 = (trace (after_polls env m k true) ++ evs)%list /\
        sent_keys evs = keys_for (state m) (sub_nl_spaces payload ++ nl) /\
        Forall (fun e => is_typing e = true) evs /\
        state m2 = state m /\
        captures m2 = (captures m + k + 1)%nat /\
        trace (snd (time_sleep 500 m2)) = (trace m2 ++ [EvSleep 500])%list /\
        (forall next,
            py_index actions (next_step (state m) + 1) = Ok next ->
            dispatch env actions "bash" payload m
            = (if String.eqb (method next) "wait" then
                 wait_for_string env (data next) TIMEOUT
               else if String.eqb (method next) "longwait" then
                 wait_for_string env (data next) (10 * TIMEOUT)
               else
                 wait_for_prompt env ;; check_exit_status env) (snd (time_sleep 500 m2))) /\
        (forall e,
            py_index actions (next_step (state m) + 1) = Raise e ->
            dispatch env actions "bash" payload m = (Raise e, snd (time_sleep 500 m2)))) /\
  (0 <= next_step (state m) ->
   next_step (state m) + 1 = Z.of_nat (List.length actions) ->
   py_index actions (next_step (state m) + 1) = Raise IndexError) /\
  (forall a rest,
      actions = a :: rest -> next_step (state m) = -1 ->
      py_index actions (next_step (state m)) = py_index actions (Z.of_nat (List.length rest)) /\
      py_index actions (next_step (state m) + 1) = Ok a) /\
  (forall l ls,
      payload = unlines (l :: ls) -> forallb no_nl (l :: ls) = true ->
      sub_nl_spaces payload = unlines (l :: map drop_spaces ls)) /\
  (TIMEOUT = 60 * 1000 /\ 10 * TIMEOUT = 600 * 1000) /\
  (forall fuel,
      interactive (state m) = false -> verify_status (state m) = false ->
      next_step (state m) = 0 -> (4 <= fuel)%nat ->
      exists m',
        main_loop env fuel hi_deck m = (hi_outcome env (captures m), m') /\
        (hi_outcome env (captures m) = Ok tt -> next_step (state m') = 2) /\
        sent_keys (added m m')
        = match first_hit at_prompt (tmux_capture env) (captures m) 60 with
          | Some _ => keys_for (state m) ("echo hi" ++ nl)
          | None => []
          end).
Proof.
  split; [| split; [| split; [| split; [| split; [| split]]]]].
  - intros H. rewrite (dispatch_bash_no_prompt env actions payload m H).
    split; [reflexivity |]. cbn [snd].
    destruct (after_polls_trace env m 60 false) as (evs & T & Q).
    now rewrite (added_app _ _ evs T), (sent_keys_quiet _ Q).
  - intros k H. split.
    { destruct (first_hit_some at_prompt (tmux_capture env) 60 (captures m) k H) as (_ & P & _).
      exact P. }
    destruct (dispatch_bash_run env actions payload m k H)
      as (m2 & evs & _ & T & K & Q & S2 & C2 & D).
    exists m2, evs. split; [exact T |]. split; [exact K |]. split; [exact Q |].
    split; [exact S2 |]. split; [exact C2 |]. split; [reflexivity |]. split.
    + intros next N. rewrite D, N. unfold bash_completion. reflexivity.
    + intros e N. rewrite D, N. reflexivity.
  - intros H0 H1. rewrite H1. apply py_index_end.
  - intros a rest -> ->. split; [| reflexivity].
    unfold py_index. cbn [List.length].
    change (-1 <? 0) with true. cbv iota.
    replace (Z.of_nat (S (List.length rest)) + -1) with (Z.of_nat (List.length rest)) by lia.
    destruct (Z.of_nat (List.length rest) <? 0) eqn:N; [apply Z.ltb_lt in N; lia | reflexivity].
  - intros l ls -> H. now apply sub_nl_spaces_unlines.
  - split; reflexivity.
  - intros fuel. apply two_action_run_sends.
Qed.

(** The two-action deck on a terminal whose prompt gives way to "hi",
    typing not simulated: the command is sent in one call. *)
Lemma bash_dispatch_protocol_witness :
  exists m',
    main_loop (Demo.turning 1 (nl ++ "$") ("$ echo hi" ++ nl ++ "hi")) 4 hi_deck
              (Demo.machine_of (Demo.unattended false 0))
    = (Ok tt, m') /\
    next_step (state m') = 2 /\
    sent_keys (added (Demo.machine_of (Demo.unattended false 0)) m') = ["echo hi" ++ nl].
Proof.
  destruct (proj2 (proj2 (proj2 (proj2 (proj2 (proj2
              (bash_dispatch_protocol
                 (Demo.turning 1 (nl ++ "$") ("$ echo hi" ++ nl ++ "hi")) hi_deck "echo hi"
                 (Demo.machine_of (Demo.unattended false 0))))))))
              4%nat eq_refl eq_refl eq_refl (le_n 4))
    as (m' & E & C & K).
  exists m'. split; [exact E |]. split; [apply C; reflexivity | exact K].
Defined.

(** At cursor -1, where a retreat at cursor 0 takes the loop, the action
    run is the last of the list, as Python counts a negative index from
    the end; the look-ahead then reads the first action and raises
    nothing. *)
Lemma bash_last_action_at_minus_one :
  ~ (forall env actions payload m,
        0 < Z.of_nat (List.length actions) ->
        (if next_step (state m) <? 0
         then Z.of_nat (List.length actions) + next_step (state m)
         else next_step (state m)) = Z.of_nat (List.length actions) - 1 ->
        fst (dispatch env actions "bash" payload m) <> Ok tt).
Proof.
  intros H.
  apply (H (Demo.still (nl ++ "$"))
           [ {| slide := 1; method := "bash"; data := "true" |} ] "true"
           (Demo.machine_of (Demo.unattended false (-1)))).
  - reflexivity.
  - reflexivity.
  - vm_compute. reflexivity.
Qed.

(* ------------------------------------------------------------------ *)
(** * [check_exit_status] on the trace *)




(* ------------------------------------------------------------------ *)
(** * The [copypaste] method on the trace *)

(** C3 (amended).  A [copypaste] action captures the screen and searches
    it for its payload, a regular expression (with [re.DOTALL]).  No match
    raises "Could not find regex ... in output." and nothing is sent.
    Otherwise the last match is taken, whatever comes before it.  When it
    is a string (a pattern without a group, or with one), its line feeds
    are removed and the rest goes to the terminal by [tmux send-keys] with
    a line feed added, right after the capture; then a prompt and the exit
    status are waited for.  When it is a tuple (a pattern with two groups
    or more), [match.replace] raises [AttributeError] and nothing is
    sent. *)
Theorem copypaste_selects_last (env : Env) (actions : list Action) (payload : string)
        (m : Machine) :
  (re_findall env payload copypaste_flags (tmux_capture env (captures m)) = Some [] ->
   dispatch env actions "copypaste" payload m
   = (Raise (Exception ("Could not find regex " ++ payload ++ " in output.")),
      snd (capture_pane env m)) /\
   added m (snd (dispatch env actions "copypaste" payload m))
   = [EvCapture (tmux_capture env (captures m))]) /\
  (forall earlier s,
      re_findall env payload copypaste_flags (tmux_capture env (captures m))
      = Some (earlier ++ [PyRe.FStr s])%list ->
      exists m2 evs,
        trace m2 = (trace m ++ EvCapture (tmux_capture env (captures m)) :: evs)%list /\
        sent_keys evs = keys_for (state m) (replace nl "" s ++ nl) /\
        Forall (fun e => is_typing e = true) evs /\
        state m2 = state m /\
        captures m2 = S (captures m) /\
        dispatch env actions "copypaste" payload m
        = (wait_for_prompt env ;; check_exit_status env) m2 /\
        no_nl (replace nl "" s) = true) /\
  (forall earlier l,
      re_findall env payload copypaste_flags (tmux_capture env (captures m))
      = Some (earlier ++ [PyRe.FTuple l])%list ->
      dispatch env actions "copypaste" payload m
      = (Raise AttributeError, snd (capture_pane env m)) /\
      added m (snd (dispatch env actions "copypaste" payload m))
      = [EvCapture (tmux_capture env (captures m))]).
Proof.
  assert (A : added m (snd (capture_pane env m)) = [EvCapture (tmux_capture env (captures m))])
    by (apply added_app; reflexivity).
  assert (D : forall matches x,
             re_findall env payload copypaste_flags (tmux_capture env (captures m))
             = Some (matches ++ [x])%list ->
             dispatch env actions "copypaste" payload m
             = (text <- match x with
                        | PyRe.FStr s => ret (replace nl "" s)
                        | PyRe.FTuple _ => raise AttributeError
                        end ;;
                send_keys env (text ++ nl) ;;
                wait_for_prompt env ;;
                check_exit_status env) (snd (capture_pane env m))).
  { intros matches x F.
    unfold dispatch. simpl (String.eqb "copypaste" _). cbv iota.
    unfold bind at 1. unfold capture_pane at 1. unfold bind at 1. unfold findall.
    unfold copypaste_flags in F. rewrite F. unfold ret at 1.
    assert (L : py_last (matches ++ [x]) = Ok x) by apply py_last_app.
    destruct (matches ++ [x])%list as [| y rest] eqn:E.
    - destruct matches; discriminate E.
    - unfold bind at 1. unfold lift at 1. rewrite L. reflexivity. }
  split; [| split].
  - intros F.
    assert (E : dispatch env actions "copypaste" payload m
                = (Raise (Exception ("Could not find regex " ++ payload ++ " in output.")),
                   snd (capture_pane env m))).
    { unfold dispatch. simpl (String.eqb "copypaste" _). cbv iota.
      unfold bind at 1. unfold capture_pane at 1. unfold bind at 1. unfold findall.
      unfold copypaste_flags in F. rewrite F. reflexivity. }
    rewrite E. split; [reflexivity | exact A].
  - intros earlier s F. rewrite (D earlier _ F).
    set (m1 := snd (capture_pane env m)).
    destruct (send_keys_run env (replace nl "" s ++ nl) m1 (append_nl_nonempty _))
      as (m2 & evs & E & T & K & Q & S2 & _ & C2).
    exists m2, evs. split; [| split; [exact K |]].
    { rewrite T. unfold m1. cbn [trace snd capture_pane]. now rewrite <- app_assoc. }
    split; [exact Q |]. split; [exact S2 |]. split; [exact C2 |].
    split; [| apply replace_nl_no_nl].
    unfold bind at 1, ret at 1. now rewrite (bind_ok _ _ _ _ _ E).
  - intros earlier l F. rewrite (D earlier _ F). split; [reflexivity | exact A].
Qed.

(** Two matches of [id: (\w+)] on the screen: the second one is sent. *)
Lemma copypaste_selects_last_witness :
  exists m2 evs,
    trace m2 = EvCapture ("id: abc" ++ nl ++ "id: def" ++ nl ++ "$") :: evs /\
    sent_keys evs = ["def" ++ nl] /\
    Forall (fun e => is_typing e = true) evs /\
    state m2 = Demo.unattended false 0 /\
    captures m2 = 1%nat /\
    dispatch (Demo.still ("id: abc" ++ nl ++ "id: def" ++ nl ++ "$")) []
             "copypaste" "id: (\w+)" (Demo.machine_of (Demo.unattended false 0))
    = (wait_for_prompt (Demo.still ("id: abc" ++ nl ++ "id: def" ++ nl ++ "$")) ;;
       check_exit_status (Demo.still ("id: abc" ++ nl ++ "id: def" ++ nl ++ "$"))) m2 /\
    no_nl "def" = true.
Proof.
  apply (proj1 (proj2 (copypaste_selects_last
                         (Demo.still ("id: abc" ++ nl ++ "id: def" ++ nl ++ "$")) []
                         "id: (\w+)" (Demo.machine_of (Demo.unattended false 0))))
               [PyRe.FStr "abc"] "def").
  vm_compute. reflexivity.
Defined.

(** A pattern with two groups and a match on the screen: nothing is sent. *)
Lemma copypaste_tuple_sends_nothing :
  ~ (forall env actions payload m matches,
        re_findall env payload copypaste_flags (tmux_capture env (captures m)) = Some matches ->
        matches <> [] ->
        sent_keys (added m (snd (dispatch env actions "copypaste" payload m))) <> []).
Proof.
  intros H.
  apply (H (Demo.still ("a b" ++ nl ++ "$")) [] "(\w) (\w)"
           (Demo.machine_of (Demo.unattended false 0)) [PyRe.FTuple ["a"; "b"]]).
  - vm_compute. reflexivity.
  - discriminate.
  - vm_compute. reflexivity.
Qed.

(* ------------------------------------------------------------------ *)
(** * A turn, command by command *)

(** A turn with an action at the cursor, once the slides are caught up:
    the command is read and the branch of the command runs. *)
Lemma iteration_command (env : Env) (fuel : nat) (actions : list Action) (m : Machine)
      (a : Action) (m2 : Machine) :
  py_index actions (next_step (state m)) = Ok a ->
  catchup env fuel (slide a) (snd (State_save m)) = (Ok tt, m2) ->
  iteration env fuel actions m
  = command_branch env actions (command_of env (state m) m2) (method a) (clean (data a))
                   (at_command env (state m) a m2).
Proof.
  intros Ha Hc. unfold iteration.
  rewrite (bind_ok State_save _ m (snd (State_save m)) tt eq_refl).
  set (m0 := snd (State_save m)) in *.
  rewrite (bind_ok get_state _ m0 m0 (state m) eq_refl).
  rewrite (bind_ok (lift (py_index actions (next_step (state m)))) _ m0 m0 a)
    by (unfold lift; now rewrite Ha).
  destruct a as [n mth dat]. cbv iota beta. cbn [method data slide] in *.
  rewrite (bind_ok _ _ _ _ _ Hc).
  assert (S2 : state m2 = state m).
  { destruct (catchup_stays env (fun _ => True) (fun _ => I) (fun _ => I) (fun _ => I)
                            fuel n m0) as (S & _).
    rewrite Hc in S. exact S. }
  rewrite (bind_ok get_state _ m2 m2 (state m2) eq_refl). rewrite S2.
  unfold command_of, at_command, clean. cbn [data].
  destruct (interactive (state m)).
  - rewrite (bind_ok (getchar env) _ m2 (snd (getchar env m2))
                     (click_getchar env (keypresses m2)) eq_refl).
    destruct (contains "`" (strip dat)).
    + rewrite (bind_ok (logging INFO "Stripping ` from snippet." [] ;;
                        ret (replace "`" "" (strip dat))) _ (snd (getchar env m2))
                       (snd (logging INFO "Stripping ` from snippet." []
                                     (snd (getchar env m2))))
                       (replace "`" "" (strip dat)) eq_refl).
      reflexivity.
    + rewrite (bind_ok (ret (strip dat)) _ (snd (getchar env m2)) (snd (getchar env m2))
                       (strip dat) eq_refl).
      reflexivity.
  - rewrite (bind_ok (ret "y") _ m2 m2 "y" eq_refl).
    destruct (contains "`" (strip dat)).
    + rewrite (bind_ok (logging INFO "Stripping ` from snippet." [] ;;
                        ret (replace "`" "" (strip dat))) _ m2
                       (snd (logging INFO "Stripping ` from snippet." [] m2))
                       (replace "`" "" (strip dat)) eq_refl).
      reflexivity.
    + rewrite (bind_ok (ret (strip dat)) _ m2 m2 (strip dat) eq_refl).
      reflexivity.
Qed.

Lemma str_in_run_keys (command : string) :
  str_in command run_keys = true ->
  command = "y" \/ command = String "013" "" \/ command = " ".
Proof.
  unfold str_in, run_keys. cbn [existsb]. intros H.
  apply orb_true_iff in H as [H | H]; [left; now apply String.eqb_eq |].
  apply orb_true_iff in H as [H | H]; [right; left; now apply String.eqb_eq |].
  apply orb_true_iff in H as [H | H]; [right; right; now apply String.eqb_eq | discriminate].
Qed.

(** The branch of a command: how it moves the cursor and what it adds to
    the trace. *)
Lemma command_branch_moves (env : Env) (actions : list Action) (command mth dat : string)
      (m4 : Machine) :
  exists evs,
    trace (snd (command_branch env actions command mth dat m4)) = (trace m4 ++ evs)%list /\
    (next_step (state (snd (command_branch env actions command mth dat m4)))
     = next_step (state m4) \/
     next_step (state (snd (command_branch env actions command mth dat m4)))
     = next_step (state m4) + 1 \/
     (next_step (state (snd (command_branch env actions command mth dat m4)))
      = next_step (state m4) - 1 /\ str_in command retreat_keys = true) \/
     (exists n, In (EvPrompt n) evs /\
                next_step (state (snd (command_branch env actions command mth dat m4))) = n)) /\
    (fst (command_branch env actions command mth dat m4) = Ok Break -> command = "q").
Proof.
  unfold command_branch.
  destruct (str_in command ["n"; esc ++ "[C"]) eqn:Hn.
  { exists []. split; [cbn; now rewrite app_nil_r |]. split; [right; left; reflexivity |].
    discriminate. }
  destruct (str_in command ["p"; esc ++ "[D"]) eqn:Hp.
  { exists []. split; [cbn; now rewrite app_nil_r |]. split; [| discriminate].
    right. right. left. split; [cbn; lia | exact Hp]. }
  destruct (String.eqb command "s") eqn:Hs.
  { exists []. split; [cbn; now rewrite app_nil_r |]. split; [left; reflexivity |].
    discriminate. }
  destruct (String.eqb command "v") eqn:Hv.
  { exists []. split; [cbn; now rewrite app_nil_r |]. split; [left; reflexivity |].
    discriminate. }
  destruct (String.eqb command "g") eqn:Hg.
  { assert (E : exists mf extra,
               (n <- prompt_int env ;;
                set_next_step n ;;
                s <- get_state ;;
                (if next_step s =? 0 then goto 1 else ret tt) ;;
                ret Continue) m4 = (Ok Continue, mf) /\
               trace mf = (trace m4 ++ EvPrompt (click_prompt env (prompts m4)) :: extra)%list /\
               next_step (state mf) = click_prompt env (prompts m4)).
    { cbv beta iota zeta delta [bind prompt_int set_next_step get_state set_state
                                state next_step].
      destruct (click_prompt env (prompts m4) =? 0);
        eexists; eexists; (split; [reflexivity |]); cbn; rewrite <- ?app_assoc;
        split; reflexivity. }
    destruct E as (mf & extra & E & T & N). rewrite E. cbn [fst snd].
    eexists. split; [exact T |]. split; [| discriminate].
    right. right. right. exists (click_prompt env (prompts m4)).
    split; [now left | exact N]. }
  destruct (String.eqb command "q") eqn:Hq.
  { exists []. split; [cbn; now rewrite app_nil_r |]. split; [left; reflexivity |].
    intros _. now apply String.eqb_eq. }
  destruct (String.eqb command "c") eqn:Hc.
  { exists []. split; [cbn; now rewrite app_nil_r |]. split; [left; reflexivity |].
    discriminate. }
  destruct (str_in command ["y"; String "013" ""; " "]) eqn:Hy.
  { rewrite (bind_ok focus_terminal _ m4 (snd (focus_terminal m4)) tt eq_refl).
    set (m5 := snd (focus_terminal m4)).
    rewrite (bind_ok (logging INFO "Running with method {}: {}" [mth; dat]) _ m5
                     (snd (logging INFO "Running with method {}: {}" [mth; dat] m5))
                     tt eq_refl).
    set (m6 := snd (logging INFO "Running with method {}: {}" [mth; dat] m5)).
    destruct (dispatch_stays env (fun _ => True) (fun _ => I) (fun _ => I) (fun _ => I)
                             (fun _ => I) (fun _ => I) (fun _ _ => I) actions mth dat m6)
      as (S7 & _ & evs7 & T7 & _).
    destruct (dispatch env actions mth dat m6) as [[[] | e |] m7] eqn:D; cbn [snd] in *.
    - rewrite (bind_ok _ _ _ _ _ D).
      rewrite (bind_ok (add_next_step 1) _ m7 (snd (add_next_step 1 m7)) tt eq_refl).
      cbn [fst snd ret]. eexists. split; [| split; [right; left |]].
      + cbn [snd add_next_step set_next_step bind get_state set_state ret trace].
        rewrite T7. unfold m6, m5. cbn. rewrite <- !app_assoc. reflexivity.
      + cbn [snd add_next_step set_next_step bind get_state set_state ret state next_step].
        rewrite S7. reflexivity.
      + discriminate.
    - rewrite (bind_raise _ _ _ _ _ D). cbn [fst snd].
      eexists. split; [| split; [left |]].
      + rewrite T7. unfold m6, m5. cbn. rewrite <- !app_assoc. reflexivity.
      + rewrite S7. reflexivity.
      + discriminate.
    - rewrite (bind_out_of_fuel _ _ _ _ D). cbn [fst snd].
      eexists. split; [| split; [left |]].
      + rewrite T7. unfold m6, m5. cbn. rewrite <- !app_assoc. reflexivity.
      + rewrite S7. reflexivity.
      + discriminate. }
  eexists. split; [cbn; reflexivity |]. split; [left; reflexivity | discriminate].
Qed.

(** A turn: what it adds to the trace and how it moves the cursor.  The
    cursor stays, or goes one forward; it goes one back only when a
    retreat key was read in the turn; and it goes to a number only when
    that number was entered in the turn.  The turn breaks the loop only
    when [q] was read in it. *)
Lemma iteration_moves (env : Env) (fuel : nat) (actions : list Action) (m : Machine) :
  exists evs,
    trace (snd (iteration env fuel actions m)) = (trace m ++ evs)%list /\
    (next_step (state (snd (iteration env fuel actions m))) = next_step (state m) \/
     next_step (state (snd (iteration env fuel actions m))) = next_step (state m) + 1 \/
     (next_step (state (snd (iteration env fuel actions m))) = next_step (state m) - 1 /\
      exists key, In (EvGetchar key) evs /\ str_in key retreat_keys = true) \/
     (exists n, In (EvPrompt n) evs /\
                next_step (state (snd (iteration env fuel actions m))) = n)) /\
    (fst (iteration env fuel actions m) = Ok Break -> In (EvGetchar "q") evs).
Proof.
  destruct (py_index_cases actions (next_step (state m))) as [Ha | [a Ha]].
  { rewrite (iteration_no_action env fuel actions m Ha).
    exists [EvSave (state m)]. split; [reflexivity |]. split; [now left | discriminate]. }
  set (m0 := snd (State_save m)).
  destruct (catchup_stays env (fun _ => True) (fun _ => I) (fun _ => I) (fun _ => I)
                          fuel (slide a) m0) as (S2 & _ & evs2 & T2 & _).
  destruct (catchup env fuel (slide a) m0) as [[[] | e |] m2] eqn:Hc; cbn [snd] in *.
  2:{ assert (E : iteration env fuel actions m = (Raise e, m2)).
      { unfold iteration.
        rewrite (bind_ok State_save _ m m0 tt eq_refl).
        rewrite (bind_ok get_state _ m0 m0 (state m) eq_refl).
        rewrite (bind_ok (lift (py_index actions (next_step (state m)))) _ m0 m0 a)
          by (unfold lift; now rewrite Ha).
        destruct a as [n mth dat]. cbv iota beta. cbn [slide] in Hc.
        now rewrite (bind_raise _ _ _ _ _ Hc). }
      rewrite E. cbn [fst snd].
      exists (EvSave (state m) :: evs2). split; [| split].
      - rewrite T2. unfold m0. cbn. now rewrite <- app_assoc.
      - left. now rewrite S2.
      - discriminate. }
  2:{ assert (E : iteration env fuel actions m = (OutOfFuel, m2)).
      { unfold iteration.
        rewrite (bind_ok State_save _ m m0 tt eq_refl).
        rewrite (bind_ok get_state _ m0 m0 (state m) eq_refl).
        rewrite (bind_ok (lift (py_index actions (next_step (state m)))) _ m0 m0 a)
          by (unfold lift; now rewrite Ha).
        destruct a as [n mth dat]. cbv iota beta. cbn [slide] in Hc.
        now rewrite (bind_out_of_fuel _ _ _ _ Hc). }
      rewrite E. cbn [fst snd].
      exists (EvSave (state m) :: evs2). split; [| split].
      - rewrite T2. unfold m0. cbn. now rewrite <- app_assoc.
      - left. now rewrite S2.
      - discriminate. }
  rewrite (iteration_command env fuel actions m a m2 Ha Hc).
  set (command := command_of env (state m) m2).
  set (m4 := at_command env (state m) a m2).
  assert (S4 : state m4 = state m).
  { unfold m4, at_command.
    destruct (interactive (state m)), (contains "`" (strip (data a))); exact S2. }
  assert (T4 : exists evs4,
             trace m4 = (trace m ++ evs4)%list /\
             (interactive (state m) = true -> In (EvGetchar command) evs4)).
  { unfold m4, at_command, command, command_of.
    destruct (interactive (state m)), (contains "`" (strip (data a)));
      cbn [snd getchar logging emit trace]; rewrite T2; unfold m0;
      cbn [snd State_save bind get_state write_file emit trace];
      rewrite <- ?app_assoc; cbn [app]; eexists; (split; [reflexivity |]);
      try discriminate; intros _; apply in_cons, in_or_app; right; now left. }
  destruct T4 as (evs4 & T4 & K4).
  assert (Y : interactive (state m) = false -> command = "y")
    by (intros Hi; unfold command, command_of; now rewrite Hi).
  destruct (command_branch_moves env actions command (method a) (clean (data a)) m4)
    as (evs & T & Hmove & Hbreak).
  exists (evs4 ++ evs)%list. split; [rewrite T, T4; now rewrite app_assoc |].
  rewrite S4 in Hmove. split.
  - destruct Hmove as [H | [H | [[H R] | [n [Hin H]]]]].
    + now left.
    + right. now left.
    + right. right. left. split; [exact H |]. exists command. split; [| exact R].
      apply in_or_app. left. apply K4.
      destruct (interactive (state m)); [reflexivity |].
      rewrite (Y eq_refl) in R. discriminate R.
    + right. right. right. exists n. split; [apply in_or_app; now right | exact H].
  - intros B. apply Hbreak in B. apply in_or_app. left. rewrite <- B. apply K4.
    destruct (interactive (state m)); [reflexivity |].
    rewrite (Y eq_refl) in B. discriminate B.
Qed.

(* ------------------------------------------------------------------ *)
(** * The range of the cursor *)

Lemma main_loop_ends (env : Env) (actions : list Action) (fuel : nat) :
  forall m,
  exists evs,
    trace (snd (main_loop env fuel actions m)) = (trace m ++ evs)%list /\
    (fst (main_loop env fuel actions m) = Ok tt ->
     Z.of_nat (List.length actions) <= next_step (state (snd (main_loop env fuel actions m))) \/
     In (EvGetchar "q") evs).
Proof.
  induction fuel as [| f IH]; intros m.
  - exists []. split; [cbn; now rewrite app_nil_r | discriminate].
  - rewrite main_loop_step.
    destruct (next_step (state m) <? Z.of_nat (List.length actions)) eqn:C.
    + destruct (iteration_moves env f actions m) as (evs1 & T1 & _ & B1).
      destruct (iteration env f actions m) as [[[|] | e |] m1]; cbn [fst snd] in *.
      * destruct (IH m1) as (evs2 & T2 & H2).
        exists (evs1 ++ evs2)%list. split; [rewrite T2, T1; now rewrite app_assoc |].
        intros E. destruct (H2 E) as [H | H]; [now left |].
        right. apply in_or_app. now right.
      * exists evs1. split; [exact T1 |]. intros _. right. now apply B1.
      * exists evs1. split; [exact T1 | discriminate].
      * exists evs1. split; [exact T1 | discriminate].
    + apply Z.ltb_ge in C. exists []. cbn [fst snd].
      split; [now rewrite app_nil_r |]. intros _. now left.
Qed.

(** C4 (amended).  The program checks no bound on the cursor: a retreat
    subtracts one, a jump stores the number the operator entered.  These
    are the only two ways out of the range.  A turn of the loop that
    starts with the cursor in the range ends with the cursor in the range
    ([0 <= cursor <= len(actions)]) whatever the command, an advance, an
    execution, a toggle or another key, unless it is a retreat at cursor 0,
    which takes the cursor to -1, or a jump to a number out of the range.
    So does a run of the loop: it ends with the cursor in the range unless
    one of its turns, started in the range, left it in one of these two
    ways.  And a run ends normally only with the cursor at [len(actions)]
    or above, or by the quit key: in the range, [len(actions)] is the one
    value at which the loop is complete. *)
Theorem cursor_in_range_amended (env : Env) (actions : list Action) :
  (forall fuel m,
      in_range actions m ->
      next_step (state m) < Z.of_nat (List.length actions) ->
      in_range actions (snd (iteration env fuel actions m)) \/
      leaves env actions fuel m) /\
  (forall fuel m,
      in_range actions m ->
      in_range actions (snd (main_loop env fuel actions m)) \/
      Exists (fun t => in_range actions (snd t) /\ leaves env actions (fst t) (snd t))
             (turns env fuel actions m)) /\
  (forall fuel m,
      fst (main_loop env fuel actions m) = Ok tt ->
      Z.of_nat (List.length actions) <= next_step (state (snd (main_loop env fuel actions m))) \/
      In (EvGetchar "q") (added m (snd (main_loop env fuel actions m)))).
Proof.
  assert (P1 : forall fuel m,
             in_range actions m ->
             next_step (state m) < Z.of_nat (List.length actions) ->
             in_range actions (snd (iteration env fuel actions m)) \/
             leaves env actions fuel m).
  { intros fuel m R C. unfold leaves, in_range in *.
    destruct (iteration_moves env fuel actions m) as (evs & T & Hmove & _).
    rewrite (added_app _ _ evs T).
    destruct Hmove as [H | [H | [[H [key [K1 K2]]] | [n [Hin H]]]]].
    - left. rewrite H. exact R.
    - left. rewrite H. lia.
    - destruct (Z.eq_dec (next_step (state m)) 0) as [Z0 | NZ].
      + right. left. split; [exact Z0 |]. split; [rewrite H, Z0; reflexivity |].
        exists key. now split.
      + left. rewrite H. lia.
    - destruct (Z_le_dec 0 n) as [L0 | L0];
        [destruct (Z_le_dec n (Z.of_nat (List.length actions))) as [L1 | L1] |].
      + left. rewrite H. lia.
      + right. right. exists n. split; [exact Hin |]. split; [exact H | lia].
      + right. right. exists n. split; [exact Hin |]. split; [exact H | lia]. }
  split; [exact P1 |]. split.
  - intros fuel. induction fuel as [| f IH]; intros m R; [now left |].
    rewrite main_loop_step. cbn [turns].
    destruct (next_step (state m) <? Z.of_nat (List.length actions)) eqn:C;
      [| now left].
    apply Z.ltb_lt in C.
    destruct (P1 f m R C) as [R1 | L]; [| right; apply Exists_cons_hd; now split].
    destruct (iteration env f actions m) as [[[|] | e |] m1]; cbn [fst snd] in *;
      try (now left).
    destruct (IH m1 R1) as [H | H]; [now left | right; now apply Exists_cons_tl].
  - intros fuel m E.
    destruct (main_loop_ends env actions fuel m) as (evs & T & H).
    rewrite (added_app _ _ evs T). exact (H E).
Qed.

(** A one-action deck, the operator pressing [n]: the turn steps forward
    and stays in the range. *)
Lemma cursor_in_range_amended_witness :
  in_range [ {| slide := 1; method := "bash"; data := "true" |} ]
           (snd (iteration (Demo.operator (nl ++ "$") ["z"; "n"]) 3
                           [ {| slide := 1; method := "bash"; data := "true" |} ]
                           (boot Missing))) \/
  leaves (Demo.operator (nl ++ "$") ["z"; "n"])
         [ {| slide := 1; method := "bash"; data := "true" |} ] 3 (boot Missing).
Proof.
  apply (proj1 (cursor_in_range_amended
                  (Demo.operator (nl ++ "$") ["z"; "n"])
                  [ {| slide := 1; method := "bash"; data := "true" |} ])
               3%nat (boot Missing)).
  - unfold in_range. simpl. lia.
  - simpl. lia.
Defined.

(* ------------------------------------------------------------------ *)
(** * The data that an action is run with *)

(** X15.  Whenever a turn runs its action, unattended or on one of the
    keys [y], Enter and space, the data that it logs and hands to the
    dispatch are the data of the action stripped of white space at both
    ends, with the backticks, and only them, taken out: no backtick goes
    from the data of an action to its method. *)
Theorem run_gets_clean_data (env : Env) (fuel : nat) (actions : list Action) (m : Machine)
        (a : Action) (m2 : Machine) :
  py_index actions (next_step (state m)) = Ok a ->
  catchup env fuel (slide a) (snd (State_save m)) = (Ok tt, m2) ->
  str_in (command_of env (state m) m2) run_keys = true ->
  exists m6 evs,
    trace m6
    = (trace m ++ evs
       ++ [EvLog INFO "Running with method {}: {}"
                 [method a; without "`" (strip (data a))]])%list /\
    state m6 = state m /\
    iteration env fuel actions m
    = (dispatch env actions (method a) (without "`" (strip (data a))) ;;
       add_next_step 1 ;; ret Continue) m6 /\
    contains "`" (without "`" (strip (data a))) = false.
Proof.
  intros Ha Hc Hk.
  rewrite (iteration_command env fuel actions m a m2 Ha Hc).
  destruct (clean_without (data a)) as [Cl Nb]. rewrite Cl in *.
  set (dat := without "`" (strip (data a))) in *.
  set (m4 := at_command env (state m) a m2).
  assert (S4 : state m4 = state m /\ exists evs4, trace m4 = (trace m ++ evs4)%list).
  { destruct (catchup_stays env (fun _ => True) (fun _ => I) (fun _ => I) (fun _ => I)
                            fuel (slide a) (snd (State_save m))) as (S2 & _ & evs2 & T2 & _).
    rewrite Hc in S2, T2. cbn [snd] in S2, T2.
    unfold m4, at_command.
    destruct (interactive (state m)), (contains "`" (strip (data a)));
      (split; [exact S2 |]);
      cbn [snd getchar logging emit trace]; rewrite T2;
      cbn [snd State_save bind get_state write_file emit trace];
      rewrite <- ?app_assoc; eexists; reflexivity. }
  destruct S4 as (S4 & evs4 & T4).
  assert (E : command_branch env actions (command_of env (state m) m2) (method a) dat m4
              = (focus_terminal ;;
                 logging INFO "Running with method {}: {}" [method a; dat] ;;
                 dispatch env actions (method a) dat ;;
                 add_next_step 1 ;;
                 ret Continue) m4).
  { destruct (str_in_run_keys _ Hk) as [-> | [-> | ->]]; reflexivity. }
  rewrite E.
  rewrite (bind_ok focus_terminal _ m4 (snd (focus_terminal m4)) tt eq_refl).
  set (m5 := snd (focus_terminal m4)).
  rewrite (bind_ok (logging INFO "Running with method {}: {}" [method a; dat]) _ m5
                   (snd (logging INFO "Running with method {}: {}" [method a; dat] m5))
                   tt eq_refl).
  eexists. exists (evs4 ++ [EvWorkspace 2; EvWorkspace 1])%list.
  split; [| split; [| split; [reflexivity | exact Nb]]].
  - unfold m5. cbn [snd logging emit focus_terminal bind trace]. rewrite T4.
    rewrite <- !app_assoc. reflexivity.
  - exact S4.
Qed.

Lemma run_gets_clean_data_witness :
  exists m6 evs,
    trace m6
    = ([] ++ evs ++ [EvLog INFO "Running with method {}: {}" ["bash"; "echo $(date)"]])%list /\
    state m6 = Demo.unattended false 0 /\
    iteration (Demo.still "$") 3
              [ {| slide := 1; method := "bash"; data := " echo `$(date)` " |} ]
              (Demo.machine_of (Demo.unattended false 0))
    = (dispatch (Demo.still "$")
                [ {| slide := 1; method := "bash"; data := " echo `$(date)` " |} ]
                "bash" "echo $(date)" ;;
       add_next_step 1 ;; ret Continue) m6 /\
    contains "`" "echo $(date)" = false.
Proof.
  apply (run_gets_clean_data
           (Demo.still "$") 3
           [ {| slide := 1; method := "bash"; data := " echo `$(date)` " |} ]
           (Demo.machine_of (Demo.unattended false 0))
           {| slide := 1; method := "bash"; data := " echo `$(date)` " |}
           (snd (catchup (Demo.still "$") 3 1
                         (snd (State_save (Demo.machine_of (Demo.unattended false 0))))))).
  - reflexivity.
  - reflexivity.
  - reflexivity.
Defined.
